(** * CPUsim: the bytecode encoder (Compiler.py) and the virtual CPU (CPU.py)

    A shallow embedding of the two modules that define and consume the
    bytecode: [Compiler.comp], [Compiler.variable] and [dec_to_bin] on one
    side, [CPU.fetch], [CPU.execute], [CPU.mov], the four arithmetic
    operators, [CPU.jump] and [CPU.get_data] on the other.

    The program is Python 2: [dec_to_bin] halves an int with [decimal /= 2]
    and prepends [str(decimal % 2)], which yields a bit string only when [/]
    on two ints is integer (floor) division.  All numbers the program handles
    are therefore Python ints, embedded as [Z]; [/] is [Z.div] (both round
    towards minus infinity) and raises on a zero divisor.

    Python exceptions are embedded as the [Raise] results of a small error
    monad; the object state ([self.…]) is passed explicitly. *)

From stdpp Require Import gmap strings list fin_maps.
From Stdlib Require Import ZArith Ascii DecimalString.
From Equations Require Import Equations.

Open Scope Z_scope.

(** ** Exceptions and the error monad *)

Inductive exn : Set :=
| IndexError
| ValueError
| ZeroDivisionError
| TypeError
| KeyError
| InvalidLexemeException.

Inductive result (A : Type) : Type :=
| Ok (a : A)
| Raise (e : exn).
Arguments Ok {A} a.
Arguments Raise {A} e.

#[global] Instance result_ret : MRet result := λ A a, Ok a.

#[global] Instance result_bind : MBind result := λ A B k r,
  match r with
  | Ok a => k a
  | Raise e => Raise e
  end.

(** ** Python built-ins used by the two modules *)

Module Py.

(** [s[:n]] and [s[n:]] for [0 <= n]; a slice never raises, it is cut at
    the end of the string. *)
Fixpoint take (n : nat) (s : string) : string :=
  match n, s with
  | S n', String c s' => String c (take n' s')
  | _, _ => ""
  end.

Fixpoint drop (n : nat) (s : string) : string :=
  match n, s with
  | S n', String _ s' => drop n' s'
  | _, _ => s
  end.

(** [s[i:j]] for [0 <= i <= j]. *)
Definition slice (i j : nat) (s : string) : string :=
  take (j - i) (drop i s).

(** [len(s)] *)
Definition len (s : string) : Z := Z.of_nat (String.length s).

(** [c * n], a character repeated. *)
Fixpoint repeat (c : ascii) (n : nat) : string :=
  match n with
  | O => ""
  | S n' => String c (repeat c n')
  end.

(** [s.startswith(p)] *)
Fixpoint startswith (p s : string) : bool :=
  match p, s with
  | "", _ => true
  | String a p', String b s' => bool_decide (a = b) && startswith p' s'
  | String _ _, "" => false
  end.

Definition bit_of (c : ascii) : option Z :=
  match c with
  | "0"%char => Some 0
  | "1"%char => Some 1
  | _ => None
  end.

(** The digits of [int(s, 2)], most significant first, folded from the
    left. *)
Fixpoint bits_value (acc : Z) (s : string) : option Z :=
  match s with
  | "" => Some acc
  | String c s' =>
      match bit_of c with
      | Some b => bits_value (2 * acc + b) s'
      | None => None
      end
  end.

(** [int(s, 2)] for the operand fields of an instruction.  The encoder
    writes only the characters 0 and 1 into program memory, so a field is
    a run of binary digits, possibly empty: a non-empty run is its value,
    the empty string raises [ValueError].  Python's [int] also reads a
    sign, a [0b] prefix and blanks around the digits; no field holds them,
    they are answered with [ValueError] here, and every property below
    that converts a field supposes the conversion returned. *)
Definition int2 (s : string) : result Z :=
  match s with
  | "" => Raise ValueError
  | _ => match bits_value 0 s with
         | Some z => Ok z
         | None => Raise ValueError
         end
  end.

(** [l[i]] on a list: a negative index counts from the end, an index out
    of range raises [IndexError]. *)
Definition getitem {A : Type} (l : list A) (i : Z) : result A :=
  let n := Z.of_nat (length l) in
  let j := if i <? 0 then i + n else i in
  if (j <? 0) || (n <=? j) then Raise IndexError
  else match l !! Z.to_nat j with
       | Some x => Ok x
       | None => Raise IndexError
       end.

(** [l[i] = x] on a list, with the same index rule. *)
Definition setitem {A : Type} (l : list A) (i : Z) (x : A) : result (list A) :=
  let n := Z.of_nat (length l) in
  let j := if i <? 0 then i + n else i in
  if (j <? 0) || (n <=? j) then Raise IndexError
  else Ok (<[Z.to_nat j := x]> l).

(** [d[k]] on a dictionary: a missing key raises [KeyError]. *)
Definition dict_getitem {V : Type} (d : gmap string V) (k : string) : result V :=
  match d !! k with
  | Some v => Ok v
  | None => Raise KeyError
  end.

(** [max(l)]: [ValueError] on the empty sequence. *)
Definition max (l : list Z) : result Z :=
  match l with
  | [] => Raise ValueError
  | x :: l' => Ok (foldr Z.max x l')
  end.

(** [str(z)] of an int: its decimal numeral. *)
Definition str (z : Z) : string := NilZero.string_of_int (Z.to_int z).

Fixpoint digits_value (acc : Z) (s : string) : option Z :=
  match s with
  | "" => Some acc
  | String c s' =>
      match Ascii.is_nat c with
      | Some d => digits_value (10 * acc + Z.of_nat d) s'
      | None => None
      end
  end.

Definition digits (s : string) : option Z :=
  match s with
  | "" => None
  | _ => digits_value 0 s
  end.

(** [int(s)] on a token without blanks (the tokens come out of
    [line.split()]): an optional sign and a non-empty run of decimal
    digits; [None] stands for the [ValueError] of any other token, which
    the encoder catches at once. *)
Definition int10 (s : string) : option Z :=
  match s with
  | String "+" r => digits r
  | String "-" r => Z.opp <$> digits r
  | _ => digits s
  end.

Fixpoint lstrip (s : string) : string :=
  match s with
  | String c s' => if Ascii.is_space c then lstrip s' else s
  | "" => ""
  end.

(** [s.strip()] *)
Definition strip (s : string) : string :=
  String.rev (lstrip (String.rev (lstrip s))).

(** [s.split("\n")]: the pieces between line feeds, empty ones kept. *)
Fixpoint split_nl (s : string) : list string :=
  match s with
  | "" => [""]
  | String c s' =>
      if bool_decide (c = "010"%char) then "" :: split_nl s'
      else match split_nl s' with
           | piece :: rest => String c piece :: rest
           | [] => [String c ""]
           end
  end.

(** The line feed, [chr(10)]. *)
Definition newline : string := String "010"%char "".

(** [s.split()]: the words between runs of blanks. *)
Definition split (s : string) : list string := String.words s.

(** [s.endswith(p)] *)
Definition endswith (p s : string) : bool :=
  startswith (String.rev p) (String.rev s).

(** [s[:-1]]: the string without its last character. *)
Fixpoint init (s : string) : string :=
  match s with
  | "" => ""
  | String c s' => match s' with
                   | "" => ""
                   | String _ _ => String c (init s')
                   end
  end.

End Py.

Arguments Py.startswith : simpl never.

(** ** The virtual CPU (CPU.py) *)

(** A Python value that is either a [str] or an int: the instruction
    register holds [0] before the first fetch and a line of program memory
    afterwards, and [get_data] is called with a field of the instruction
    (a [str]) or with a computed number. *)
Inductive value : Type :=
| VStr (s : string)
| VInt (z : Z).

Record CPU : Type := mkCPU {
  prog_memory : list string;
  data_memory : list Z;
  ac : Z;
  ecx : Z;
  pc : Z;
  ir : value
}.

Definition set_data_memory (d : list Z) (c : CPU) : CPU :=
  mkCPU (prog_memory c) d (ac c) (ecx c) (pc c) (ir c).
Definition set_ac (v : Z) (c : CPU) : CPU :=
  mkCPU (prog_memory c) (data_memory c) v (ecx c) (pc c) (ir c).
Definition set_ecx (v : Z) (c : CPU) : CPU :=
  mkCPU (prog_memory c) (data_memory c) (ac c) v (pc c) (ir c).
Definition set_pc (v : Z) (c : CPU) : CPU :=
  mkCPU (prog_memory c) (data_memory c) (ac c) (ecx c) v (ir c).
Definition set_ir (v : value) (c : CPU) : CPU :=
  mkCPU (prog_memory c) (data_memory c) (ac c) (ecx c) (pc c) v.

(** [CPU.__init__], after the program was compiled to [bytecode_lines]. *)
Definition init (bytecode_lines : list string) : CPU :=
  mkCPU bytecode_lines [] 0 0 0 (VInt 0).

(** [CPU.get_data] *)
Definition get_data (c : CPU) (operand : value) : result Z :=
  ident ← match operand with
          | VStr s => Py.int2 s
          | VInt z => Ok z
          end;
  if ident <? 32768 then Ok ident
  else if ident <? 65534 then Py.getitem (data_memory c) (ident - 32768)
  else if ident =? 65534 then Ok (ac c)
  else Ok (ecx c).

(** [CPU.mov] *)
Definition mov (c : CPU) (operand1 : string) (operand2 : value) : result CPU :=
  ident ← Py.int2 operand1;
  if ident <? 65534 then
    let index := ident - 32768 in
    if Z.of_nat (length (data_memory c)) <? index + 1 then
      v ← get_data c operand2;
      Ok (set_data_memory (data_memory c ++ [v]) c)
    else
      v ← get_data c operand2;
      d ← Py.setitem (data_memory c) index v;
      Ok (set_data_memory d c)
  else if ident =? 65534 then
    v ← get_data c operand2;
    Ok (set_ac v c)
  else
    v ← get_data c operand2;
    Ok (set_ecx v c).

(** [CPU.add], [CPU.sub], [CPU.mul], [CPU.div]: the two operands are
    resolved left to right, the number computed from them is handed to
    [mov] as its second operand. *)
Definition add (c : CPU) (operand1 operand2 : string) : result CPU :=
  a ← get_data c (VStr operand1);
  b ← get_data c (VStr operand2);
  mov c operand1 (VInt (a + b)).

Definition sub (c : CPU) (operand1 operand2 : string) : result CPU :=
  a ← get_data c (VStr operand1);
  b ← get_data c (VStr operand2);
  mov c operand1 (VInt (a - b)).

Definition mul (c : CPU) (operand1 operand2 : string) : result CPU :=
  a ← get_data c (VStr operand1);
  b ← get_data c (VStr operand2);
  mov c operand1 (VInt (a * b)).

Definition div (c : CPU) (operand1 operand2 : string) : result CPU :=
  a ← get_data c (VStr operand1);
  b ← get_data c (VStr operand2);
  if b =? 0 then Raise ZeroDivisionError
  else mov c operand1 (VInt (a / b)).

(** [CPU.jump] *)
Definition jump (c : CPU) (operand : string) : result CPU :=
  target ← Py.int2 operand;
  Ok (set_pc target c).

(** [CPU.fetch] *)
Definition fetch (c : CPU) : result CPU :=
  line ← Py.getitem (prog_memory c) (pc c);
  Ok (set_ir (VStr line) c).

(** [self.pc += 1], the last statement of [execute]. *)
Definition next_pc (c : CPU) : CPU := set_pc (pc c + 1) c.

(** [CPU.execute].  Slicing the integer [0] the register holds before any
    fetch is a [TypeError]. *)
Definition execute (c : CPU) : result CPU :=
  match ir c with
  | VInt _ => Raise TypeError
  | VStr s =>
      let operation := Py.take 4 s in
      let operand1 := Py.slice 4 20 s in
      let operand2 := Py.drop 20 s in
      if bool_decide (operation = "0000") then
        c' ← mov c operand1 (VStr operand2); Ok (next_pc c')
      else if bool_decide (operation = "0001") then
        c' ← add c operand1 operand2; Ok (next_pc c')
      else if bool_decide (operation = "0010") then
        c' ← sub c operand1 operand2; Ok (next_pc c')
      else if bool_decide (operation = "0011") then
        c' ← mul c operand1 operand2; Ok (next_pc c')
      else if bool_decide (operation = "0100") then
        c' ← div c operand1 operand2; Ok (next_pc c')
      else if 0 <? ecx c then
        jump c operand1
      else
        Ok (next_pc c)
  end.

(** [CPU.start]: the fetch-execute cycle.  The loop need not end, so the
    embedding counts cycles; [None] is the count running out. *)
Fixpoint start (cycles : nat) (c : CPU) : option (result CPU) :=
  if pc c <? Z.of_nat (length (prog_memory c)) then
    match cycles with
    | O => None
    | S k =>
        match fetch c with
        | Raise e => Some (Raise e)
        | Ok c1 =>
            match execute c1 with
            | Raise e => Some (Raise e)
            | Ok c2 => start k c2
            end
        end
    end
  else Some (Ok c).

(** ** The lexical classes (TokenCodes.py, Lex.py) *)

Definition CONSTANT : Z := 10.
Definition VARIABLE : Z := 11.
Definition RESERVED_WORD : Z := 12.
Definition ASSIGN_OP : Z := 20.
Definition MATH_OP : Z := 21.
Definition SEMICOLON : Z := 22.

(** [char in numbers] and [char in lowercase] *)
Definition in_numbers (c : ascii) : bool :=
  bool_decide (is_Some (Ascii.is_nat c)).

Definition in_lowercase (c : ascii) : bool :=
  (97 <=? nat_of_ascii c)%nat && (nat_of_ascii c <? 123)%nat.

(** The [for char in text[1:]] loop of [determine_type]. *)
Fixpoint check_rest (type : Z) (rest : string) : result Z :=
  match rest with
  | "" => Ok type
  | String char rest' =>
      if in_numbers char then check_rest type rest'
      else if in_lowercase char then
        if type =? CONSTANT then Raise InvalidLexemeException
        else check_rest type rest'
      else Raise InvalidLexemeException
  end.

(** [Lex.determine_type]: the class of a lexeme; a variable is a lowercase
    letter followed by lowercase letters and digits. *)
Definition determine_type (text : string) : result Z :=
  if bool_decide (text ∈ ["TO"; "DO"; "END"]) then Ok RESERVED_WORD
  else if bool_decide (text = ":=") then Ok ASSIGN_OP
  else if bool_decide (text ∈ ["+"; "-"; "*"; "/"]) then Ok MATH_OP
  else if bool_decide (text = ";") then Ok SEMICOLON
  else
    match text with
    | "" => Raise IndexError
    | String first rest =>
        type ← (if in_lowercase first then Ok VARIABLE
                else if in_numbers first then Ok CONSTANT
                else Raise InvalidLexemeException);
        check_rest type rest
    end.

(** A [Lexeme] object: its text and the class [determine_type] gave it. *)
Record Lexeme : Type := mkLexeme {
  text : string;
  type : Z
}.

(** [Lexeme.__init__] *)
Definition Lexeme_init (text : string) : result Lexeme :=
  type ← determine_type text;
  Ok (mkLexeme text type).

(** The [for item in code.split()] loop of [Lex.analyze], on the list
    [self.lexemes]. *)
Fixpoint analyze_items (lexemes : list Lexeme) (items : list string)
  : result (list Lexeme) :=
  match items with
  | [] => Ok lexemes
  | item :: rest =>
      lexemes' ←
        (if Py.endswith ";" item then
           first ← Lexeme_init (Py.init item);
           second ← Lexeme_init ";";
           Ok (lexemes ++ [first; second])
         else
           lexeme ← Lexeme_init item;
           Ok (lexemes ++ [lexeme]));
      analyze_items lexemes' rest
  end.

(** [Lex.__init__] up to the debug output: [self.lexemes] starts empty
    and [analyze] fills it. *)
Definition analyze (code : string) : result (list Lexeme) :=
  analyze_items [] (Py.split code).

(** ** The bytecode encoder (Compiler.py) *)

Definition operators : gmap string string :=
  list_to_map [("MOV", "0000"); ("ADD", "0001"); ("SUB", "0010");
               ("MUL", "0011"); ("DIV", "0100"); ("JMP", "0101")].

Definition registers : gmap string string :=
  list_to_map [("AC", "1111111111111110"); ("ECX", "1111111111111111")].

(** The [while decimal > 0] loop of [dec_to_bin]; [decimal /= 2] halves a
    positive int, so the loop ends. *)
Equations? dec_to_bin_loop (decimal : Z) (string_ : string) : string
  by wf (Z.to_nat decimal) lt :=
  dec_to_bin_loop decimal string_ with decide (0 < decimal) => {
    | left _ :=
        dec_to_bin_loop (decimal / 2) (Py.str (decimal mod 2) +:+ string_);
    | right _ := string_ }.
Proof.
  assert (decimal / 2 < decimal) by (apply Z.div_lt; lia).
  assert (0 <= decimal / 2) by (apply Z.div_pos; lia).
  lia.
Qed.

(** [dec_to_bin] *)
Definition dec_to_bin (decimal : Z) (length : Z) : string :=
  let string_ := dec_to_bin_loop decimal "" in
  if Py.len string_ <? length then
    Py.repeat "0" (Z.to_nat (length - Py.len string_)) +:+ string_
  else string_.

(** [Compiler.variable], on the symbol table [self.variables]: the table
    after the call and the string returned. *)
Definition variable (variables : gmap string Z) (var : string)
  : result (gmap string Z * string) :=
  variables' ←
    (if bool_decide (size variables = 0%nat) then
       Ok (<[var := 2 ^ 15]> variables)
     else if bool_decide (variables !! var = None) then
       m ← Py.max (map_to_list variables).*2;
       Ok (<[var := m + 1]> variables)
     else Ok variables);
  address ← Py.dict_getitem variables' var;
  Ok (variables', dec_to_bin address 16).

(** The state of the loop of [Compiler.comp]: its three local variables and
    the symbol table of the object. *)
Record comp_state : Type := mkState {
  bytecode : string;
  instr_count : Z;
  label : Z;
  variables : gmap string Z
}.

Definition emit (code : string) (st : comp_state) : comp_state :=
  mkState (bytecode st +:+ code) (instr_count st) (label st) (variables st).

Definition set_variables (v : gmap string Z) (st : comp_state) : comp_state :=
  mkState (bytecode st) (instr_count st) (label st) v.

(** The operand of a line that is a register or a variable. *)
Definition reg_or_var (st : comp_state) (operand : string) : result comp_state :=
  if bool_decide (is_Some (registers !! operand)) then
    code ← Py.dict_getitem registers operand;
    Ok (emit code st)
  else
    '(v, code) ← variable (variables st) operand;
    Ok (emit code (set_variables v st)).

(** One turn of the [for line in …] loop of [comp]. *)
Definition comp_line (st : comp_state) (line : string) : result comp_state :=
  let parts := Py.split line in
  operator ← Py.getitem parts 0;
  if Py.startswith "label" operator then
    Ok (mkState (bytecode st) (instr_count st) (instr_count st) (variables st))
  else
    st' ←
      (if bool_decide (operator = "JMP") then
         code ← Py.dict_getitem operators operator;
         Ok (emit (dec_to_bin 0 16) (emit (dec_to_bin (label st) 16) (emit code st)))
       else
         code ← Py.dict_getitem operators operator;
         let st1 := emit code st in
         operand1 ← Py.getitem parts 1;
         st2 ← reg_or_var st1 operand1;
         operand2 ← Py.getitem parts 2;
         match Py.int10 operand2 with
         | Some n => Ok (emit (dec_to_bin n 16) st2)
         | None => reg_or_var st2 operand2
         end);
    Ok (mkState (bytecode st' +:+ Py.newline) (instr_count st' + 1) (label st')
          (variables st')).

Fixpoint comp_lines (st : comp_state) (lines : list string) : result comp_state :=
  match lines with
  | [] => Ok st
  | line :: rest => st' ← comp_line st line; comp_lines st' rest
  end.

(** [Compiler.comp], started on the symbol table [self_variables]: the
    bytecode returned and the symbol table left behind. *)
Definition comp (self_variables : gmap string Z) (assembly : string)
  : result (string * gmap string Z) :=
  st ← comp_lines (mkState "" 0 0 self_variables) (Py.split_nl (Py.strip assembly));
  Ok (Py.strip (bytecode st), variables st).

(** [Compiler.__init__] with the assembly text already produced: the
    symbol table starts empty. *)
Definition compile (assembly : string) : result (string * gmap string Z) :=
  comp ∅ assembly.

(** [CPU.__init__] followed by [CPU.start], from the assembly text. *)
Definition run (cycles : nat) (assembly : string) : option (result CPU) :=
  match compile assembly with
  | Raise e => Some (Raise e)
  | Ok (code, _) => start cycles (init (Py.split_nl code))
  end.



(** * Notions the properties are stated with *)

(** The opcodes [execute] compares the first four characters with before it
    reaches its last branch. *)
Definition move_arith_codes : list string :=
  ["0000"; "0001"; "0010"; "0011"; "0100"].

(** The binary numeral of a positive number, most significant bit first. *)
Fixpoint pos_bits (p : positive) : string :=
  match p with
  | xH => "1"
  | xO q => pos_bits q +:+ "0"
  | xI q => pos_bits q +:+ "1"
  end.

(** The minimal unsigned binary representation of a natural number: no
    leading zero, and the single digit 0 for zero. *)
Definition binary (n : Z) : string :=
  match n with
  | Zpos p => pos_bits p
  | _ => "0"
  end.

(** [m] is the largest address stored in the table. *)
Definition largest_address (vars : gmap string Z) (m : Z) : Prop :=
  (∃ k, vars !! k = Some m) ∧ ∀ k a, vars !! k = Some a → a ≤ m.

(** The addresses stored are 32768, 32769, … without a gap. *)
Definition consecutive (vars : gmap string Z) : Prop :=
  ∀ a, (∃ k, vars !! k = Some a) ↔ 32768 ≤ a < 32768 + Z.of_nat (size vars).

(** A line whose first word starts with [label]: a label marker. *)
Definition is_label (line : string) : bool :=
  match Py.split line with
  | operator :: _ => Py.startswith "label" operator
  | [] => false
  end.

(** A line whose first word is [JMP]: a loop-exit line. *)
Definition is_jmp (line : string) : bool :=
  match Py.split line with
  | operator :: _ => bool_decide (operator = "JMP")
  | [] => false
  end.

(** The three ways a line makes the encoder raise: it has no word at all;
    its first word is neither a label marker nor a key of [operators]; it
    is a MOV, ADD, SUB, MUL or DIV line with fewer than two operand words. *)
Definition no_token (line : string) : bool :=
  bool_decide (Py.split line = []).

Definition unknown_operator (line : string) : bool :=
  match Py.split line with
  | operator :: _ =>
      negb (Py.startswith "label" operator) &&
      bool_decide (operators !! operator = None)
  | [] => false
  end.

Definition missing_operand (line : string) : bool :=
  match Py.split line with
  | operator :: rest =>
      negb (Py.startswith "label" operator) &&
      bool_decide (is_Some (operators !! operator)) &&
      bool_decide (operator ≠ "JMP") &&
      bool_decide (length rest < 2)%nat
  | [] => false
  end.

Definition rejected (line : string) : bool :=
  no_token line || unknown_operator line || missing_operand line.

(** The operand words of a line that the encoder hands to [variable], in
    the order it does: the first operand unless it is a register, then the
    second unless it is an integer or a register. *)
Definition line_names (line : string) : list string :=
  match Py.split line with
  | operator :: operand1 :: operand2 :: _ =>
      if Py.startswith "label" operator || bool_decide (operator = "JMP")
      then []
      else
        (if bool_decide (is_Some (registers !! operand1)) then []
         else [operand1]) ++
        (if bool_decide (is_Some (Py.int10 operand2)) ||
            bool_decide (is_Some (registers !! operand2)) then []
         else [operand2])
  | _ => []
  end.

Definition source_names (lines : list string) : list string :=
  concat (line_names <$> lines).

(** Numbering names in the order they are first met: a name already in the
    table keeps its address, a new one takes [next], and [next] moves on
    by one. *)
Fixpoint assign_from (next : Z) (table : gmap string Z) (names : list string)
  : gmap string Z :=
  match names with
  | [] => table
  | name :: rest =>
      match table !! name with
      | Some _ => assign_from next table rest
      | None => assign_from (next + 1) (<[name := next]> table) rest
      end
  end.

(** Numbering continued on a table: the next address is the one after the
    addresses the table holds. *)
Definition continue (table : gmap string Z) (names : list string)
  : gmap string Z :=
  assign_from (32768 + Z.of_nat (size table)) table names.

(** What one instruction may write: one register, or one slot of data
    memory (an existing one, or a new last one), and nothing besides. *)
Definition single_write (c c' : CPU) : Prop :=
  (data_memory c' = data_memory c ∧ ecx c' = ecx c) ∨
  (data_memory c' = data_memory c ∧ ac c' = ac c) ∨
  (ac c' = ac c ∧ ecx c' = ecx c ∧
   ∃ v, data_memory c' = data_memory c ++ [v] ∨
        ∃ i, (i < length (data_memory c))%nat ∧
             data_memory c' = <[i := v]> (data_memory c)).

(** A string of binary digits, and a piece of bytecode: binary digits and
    line feeds. *)
Fixpoint bits_only (s : string) : bool :=
  match s with
  | "" => true
  | String c s' => bool_decide (is_Some (Py.bit_of c)) && bits_only s'
  end.

Fixpoint code_only (s : string) : bool :=
  match s with
  | "" => true
  | String c s' =>
      (bool_decide (is_Some (Py.bit_of c)) || bool_decide (c = "010"%char)) &&
      code_only s'
  end.

(** No two names of the table share an address. *)
Definition distinct_addresses (vars : gmap string Z) : Prop :=
  ∀ name1 name2 a,
    vars !! name1 = Some a → vars !! name2 = Some a → name1 = name2.

(** The operand field that stands for an operand word: the code of the
    register, or the 16-bit numeral of the variable's address in the table,
    which lies in the variable range. *)
Definition field_of (table : gmap string Z) (operand field : string) : Prop :=
  match registers !! operand with
  | Some code => field = code
  | None => ∃ a, table !! operand = Some a ∧ 32768 ≤ a < 65534 ∧
                 Py.int2 field = Ok a
  end.

(** Every character of a string passes a test. *)
Fixpoint all_chars (p : ascii → bool) (s : string) : bool :=
  match s with
  | "" => true
  | String c s' => p c && all_chars p s'
  end.

(** The strings of a list, one after the other. *)
Definition joined (l : list string) : string := foldr String.append "" l.

(** A loop that counts: [ADD AC 1], [SUB ECX 1] and the loop exit back to
    the first instruction, as the encoder writes them for the lines
    [label1:], [ADD AC 1], [SUB ECX 1], [JMP]. *)
Definition counting_loop : list string :=
  ["000111111111111111100000000000000001";
   "001011111111111111110000000000000001";
   "010100000000000000000000000000000000"].

(** The text of a program: its instructions with a line feed between one
    and the next. *)
Fixpoint program_text (instructions : list string) : string :=
  match instructions with
  | [] => ""
  | [instruction] => instruction
  | instruction :: rest => instruction +:+ Py.newline +:+ program_text rest
  end.

(** An instruction at position [i] that has the loop-exit opcode was
    written for a target between 0 and [i]. *)
Definition jump_back (i : nat) (instruction : string) : Prop :=
  Py.take 4 instruction = "0101" →
  ∃ target, 0 ≤ target ≤ Z.of_nat i ∧
            instruction =
              "0101" +:+ dec_to_bin target 16 +:+ "0000000000000000".

(** The instructions emitted so far, and what holds of each. *)
Definition emitted_program (st : comp_state) (instrs : list string) : Prop :=
  bytecode st = joined ((λ i, i +:+ Py.newline) <$> instrs) ∧
  instr_count st = Z.of_nat (length instrs) ∧
  0 ≤ label st ≤ Z.of_nat (length instrs) ∧
  Forall (λ i, bits_only i = true ∧ (36 ≤ String.length i)%nat) instrs ∧
  ∀ i instr, instrs !! i = Some instr → jump_back i instr.

(** The outcome of an instruction leaves [v] in an operand: the instruction
    returned, and in the state it returned the operand resolves to [v]. *)
Definition holds_after (outcome : result CPU) (operand : string) (v : Z)
  : Prop :=
  ∃ c', outcome = Ok c' ∧ get_data c' (VStr operand) = Ok v.

(** * Proof tools *)

(** Closed decidable facts are settled by evaluation. *)
Ltac by_evaluation :=
  match goal with
  | |- ?P => apply (bool_decide_unpack P); vm_compute; exact I
  end.

Ltac result_cases :=
  repeat match goal with
    | H : Ok _ = Ok _ |- _ => injection H as H; subst
    | H : Raise _ = Ok _ |- _ => discriminate H
    | H : context [mbind _ ?r] |- _ =>
        let E := fresh "E" in
        destruct r eqn:E; unfold mbind, result_bind in H; simpl in H
    | H : context [match ?r with Ok _ => _ | Raise _ => _ end] |- _ =>
        let E := fresh "E" in destruct r eqn:E; simpl in H
    | H : context [if ?b then _ else _] |- _ =>
        let E := fresh "E" in destruct b eqn:E
    end.

(** * Properties of the virtual CPU *)

Section CPU_properties.

Implicit Types (c : CPU) (s : string) (ident a b v : Z).

Lemma getitem_nonneg {A : Type} (l : list A) (i : Z) :
  0 ≤ i →
  Py.getitem l i = match l !! Z.to_nat i with
                   | Some x => Ok x
                   | None => Raise IndexError
                   end.
Proof.
  intros Hi. unfold Py.getitem.
  destruct (Z.ltb_spec i 0) as [?|_]; [lia|].
  destruct (Z.ltb_spec i 0) as [?|_]; [lia|]. simpl.
  destruct (Z.leb_spec (Z.of_nat (length l)) i) as [Hge|Hlt]; [|done].
  rewrite lookup_ge_None_2; [done|lia].
Qed.

Lemma get_data_int c ident :
  get_data c (VInt ident) =
    if ident <? 32768 then Ok ident
    else if ident <? 65534 then Py.getitem (data_memory c) (ident - 32768)
    else if ident =? 65534 then Ok (ac c)
    else Ok (ecx c).
Proof. reflexivity. Qed.

Lemma get_data_str c s :
  get_data c (VStr s) = ident ← Py.int2 s; get_data c (VInt ident).
Proof. unfold get_data. destruct (Py.int2 s); reflexivity. Qed.

(** A resolved operand below [32768] is a constant. *)
Lemma get_data_constant c ident :
  ident < 32768 → get_data c (VInt ident) = Ok ident.
Proof.
  intros H. rewrite get_data_int.
  destruct (Z.ltb_spec ident 32768); [done|lia].
Qed.

End CPU_properties.

(** C5. Address resolution: an operand value below 32768 is returned as it
    is; a value from 32768 to 65533 is the content of data-memory slot
    value − 32768 (reading a slot that does not exist is Python's
    [IndexError]); 65534 is the accumulator; every other value is the loop
    counter.  An operand given as a bit string is first converted to its
    value. *)
Theorem get_data_resolution (c : CPU) (operand : value) (ident : Z)
    (Hident : operand = VInt ident ∨
              ∃ s, operand = VStr s ∧ Py.int2 s = Ok ident) :
  (ident < 32768 → get_data c operand = Ok ident) ∧
  (32768 ≤ ident ≤ 65533 →
     get_data c operand =
       match data_memory c !! Z.to_nat (ident - 32768) with
       | Some v => Ok v
       | None => Raise IndexError
       end) ∧
  (ident = 65534 → get_data c operand = Ok (ac c)) ∧
  (65534 < ident → get_data c operand = Ok (ecx c)).
Proof.
  assert (get_data c operand = get_data c (VInt ident)) as ->.
  { destruct Hident as [->|(s & -> & Hs)]; [done|].
    rewrite get_data_str, Hs. reflexivity. }
  rewrite get_data_int.
  repeat split; intros H.
  - destruct (Z.ltb_spec ident 32768); [done|lia].
  - destruct (Z.ltb_spec ident 32768); [lia|].
    destruct (Z.ltb_spec ident 65534); [|lia].
    apply getitem_nonneg. lia.
  - subst ident. reflexivity.
  - destruct (Z.ltb_spec ident 32768); [lia|].
    destruct (Z.ltb_spec ident 65534); [lia|].
    destruct (Z.eqb_spec ident 65534); [lia|done].
Qed.

Lemma get_data_resolution_witness :
  get_data (mkCPU [] [7; 9] 3 4 0 (VInt 0)) (VStr "0000000000000101") = Ok 5 ∧
  get_data (mkCPU [] [7; 9] 3 4 0 (VInt 0)) (VStr "1000000000000001") = Ok 9 ∧
  get_data (mkCPU [] [7; 9] 3 4 0 (VInt 0)) (VInt 32770) = Raise IndexError ∧
  get_data (mkCPU [] [7; 9] 3 4 0 (VInt 0)) (VInt 65534) = Ok 3 ∧
  get_data (mkCPU [] [7; 9] 3 4 0 (VInt 0)) (VStr "1111111111111111") = Ok 4.
Proof.
  refine (conj _ (conj _ (conj _ (conj _ _)))).
  - apply (get_data_resolution _ (VStr "0000000000000101") 5).
    + right. eexists. split; reflexivity.
    + lia.
  - refine (proj1 (proj2 (get_data_resolution _ (VStr "1000000000000001") 32769 _)) _).
    + right. eexists. split; reflexivity.
    + lia.
  - refine (proj1 (proj2 (get_data_resolution _ (VInt 32770) 32770 _)) _).
    + left. reflexivity.
    + lia.
  - refine (proj1 (proj2 (proj2 (get_data_resolution _ (VInt 65534) 65534 _))) _).
    + left. reflexivity.
    + reflexivity.
  - refine (proj2 (proj2 (proj2 (get_data_resolution _ (VStr "1111111111111111") 65535 _))) _).
    + right. eexists. split; reflexivity.
    + lia.
Defined.

(** ** The program counter and the frame of [execute] *)

Section Frame.

Implicit Types (c : CPU) (s : string).

(** What [mov] leaves alone. *)
Lemma mov_frame c operand1 operand2 c' :
  mov c operand1 operand2 = Ok c' →
  pc c' = pc c ∧ ir c' = ir c ∧ prog_memory c' = prog_memory c.
Proof.
  unfold mov. intros H. result_cases; simpl; done.
Qed.

Lemma add_frame c operand1 operand2 c' :
  add c operand1 operand2 = Ok c' →
  pc c' = pc c ∧ ir c' = ir c ∧ prog_memory c' = prog_memory c.
Proof.
  unfold add. intros H.
  destruct (get_data c (VStr operand1)); [|done].
  destruct (get_data c (VStr operand2)); [|done].
  by apply mov_frame in H.
Qed.

Lemma sub_frame c operand1 operand2 c' :
  sub c operand1 operand2 = Ok c' →
  pc c' = pc c ∧ ir c' = ir c ∧ prog_memory c' = prog_memory c.
Proof.
  unfold sub. intros H.
  destruct (get_data c (VStr operand1)); [|done].
  destruct (get_data c (VStr operand2)); [|done].
  by apply mov_frame in H.
Qed.

Lemma mul_frame c operand1 operand2 c' :
  mul c operand1 operand2 = Ok c' →
  pc c' = pc c ∧ ir c' = ir c ∧ prog_memory c' = prog_memory c.
Proof.
  unfold mul. intros H.
  destruct (get_data c (VStr operand1)); [|done].
  destruct (get_data c (VStr operand2)); [|done].
  by apply mov_frame in H.
Qed.

Lemma div_frame c operand1 operand2 c' :
  div c operand1 operand2 = Ok c' →
  pc c' = pc c ∧ ir c' = ir c ∧ prog_memory c' = prog_memory c.
Proof.
  unfold div. intros H.
  destruct (get_data c (VStr operand1)); [|done].
  destruct (get_data c (VStr operand2)) as [b|]; [|done].
  simpl in H. destruct (b =? 0); [done|].
  by apply mov_frame in H.
Qed.

(** The last branch of [execute]: taken by every opcode that is not one
    of the five above. *)
Lemma execute_default c s :
  ir c = VStr s →
  Py.take 4 s ∉ move_arith_codes →
  execute c = if 0 <? ecx c then jump c (Py.slice 4 20 s)
              else Ok (next_pc c).
Proof.
  intros Hir Hop. unfold execute. rewrite Hir.
  unfold move_arith_codes in Hop.
  repeat (case_bool_decide as Hc;
          [exfalso; apply Hop; rewrite Hc; set_solver|clear Hc]).
  reflexivity.
Qed.

End Frame.

(** C2. After an instruction whose opcode is one of the five move and
    arithmetic codes has been executed, the program counter is one more than
    before.  Every other opcode (0101 and all unassigned ones) takes the
    last branch: with a positive loop counter the program counter becomes
    the value of the first operand field, with a loop counter that is zero
    or negative it advances by one. *)
Theorem execute_program_counter (c : CPU) (s : string) (Hir : ir c = VStr s) :
  (Py.take 4 s ∈ move_arith_codes →
     ∀ c', execute c = Ok c' → pc c' = pc c + 1) ∧
  (Py.take 4 s ∉ move_arith_codes →
     (0 < ecx c →
        ∀ target, Py.int2 (Py.slice 4 20 s) = Ok target →
                  execute c = Ok (set_pc target c)) ∧
     (ecx c ≤ 0 → execute c = Ok (set_pc (pc c + 1) c))).
Proof.
  split.
  - intros Hop c' H. unfold execute in H. rewrite Hir in H.
    repeat match type of H with
      | (if bool_decide _ then _ else _) = _ => case_bool_decide
      end.
    + destruct (mov _ _ _) as [c1|] eqn:E; [|done].
      injection H as <-. apply mov_frame in E as (E & _). simpl. lia.
    + destruct (add _ _ _) as [c1|] eqn:E; [|done].
      injection H as <-. apply add_frame in E as (E & _). simpl. lia.
    + destruct (sub _ _ _) as [c1|] eqn:E; [|done].
      injection H as <-. apply sub_frame in E as (E & _). simpl. lia.
    + destruct (mul _ _ _) as [c1|] eqn:E; [|done].
      injection H as <-. apply mul_frame in E as (E & _). simpl. lia.
    + destruct (div _ _ _) as [c1|] eqn:E; [|done].
      injection H as <-. apply div_frame in E as (E & _). simpl. lia.
    + exfalso. unfold move_arith_codes in Hop.
      repeat (apply elem_of_cons in Hop as [Hop|Hop]; [done|]).
      by apply elem_of_nil in Hop.
  - intros Hop. rewrite (execute_default c s Hir Hop). split; intros Hecx.
    + intros target Htarget. unfold jump. rewrite Htarget.
      destruct (Z.ltb_spec 0 (ecx c)); [reflexivity|lia].
    + destruct (Z.ltb_spec 0 (ecx c)); [lia|reflexivity].
Qed.

Lemma execute_program_counter_witness :
  pc (mkCPU [] [] 5 0 8 (VStr "000011111111111111100000000000000101")) = 7 + 1 ∧
  execute (mkCPU [] [] 0 2 7 (VStr "010100000000000001100000000000000000")) =
    Ok (mkCPU [] [] 0 2 6 (VStr "010100000000000001100000000000000000")) ∧
  execute (mkCPU [] [] 0 0 7 (VStr "010100000000000001100000000000000000")) =
    Ok (mkCPU [] [] 0 0 8 (VStr "010100000000000001100000000000000000")).
Proof.
  refine (conj _ (conj _ _)).
  - refine (proj1 (execute_program_counter
                     (mkCPU [] [] 0 0 7 (VStr "000011111111111111100000000000000101"))
                     "000011111111111111100000000000000101" eq_refl) _
                  (mkCPU [] [] 5 0 8 (VStr "000011111111111111100000000000000101")) _).
    + by_evaluation.
    + reflexivity.
  - refine (proj1 (proj2 (execute_program_counter
                     (mkCPU [] [] 0 2 7 (VStr "010100000000000001100000000000000000"))
                     "010100000000000001100000000000000000" eq_refl) _) _ 6 eq_refl).
    + by_evaluation.
    + simpl. lia.
  - refine (proj2 (proj2 (execute_program_counter
                     (mkCPU [] [] 0 0 7 (VStr "010100000000000001100000000000000000"))
                     "010100000000000001100000000000000000" eq_refl) _) _).
    + by_evaluation.
    + simpl. lia.
Defined.

(** C10. An instruction that takes the last branch of [execute] (the
    loop-exit opcode 0101, or any unassigned opcode) changes the program
    counter only: the accumulator, the loop counter, data memory, program
    memory and the instruction register are what they were.  The new
    program counter is the value of the first operand field when the loop
    counter is positive and the old one plus one otherwise. *)
Theorem loop_exit_frame (c c' : CPU) (s : string)
    (Hir : ir c = VStr s)
    (Hop : Py.take 4 s ∉ move_arith_codes)
    (Hexec : execute c = Ok c') :
  ac c' = ac c ∧ ecx c' = ecx c ∧ data_memory c' = data_memory c ∧
  prog_memory c' = prog_memory c ∧ ir c' = ir c ∧
  (0 < ecx c → Py.int2 (Py.slice 4 20 s) = Ok (pc c')) ∧
  (ecx c ≤ 0 → pc c' = pc c + 1).
Proof.
  rewrite (execute_default c s Hir Hop) in Hexec.
  destruct (Z.ltb_spec 0 (ecx c)) as [Hpos|Hnonpos].
  - unfold jump in Hexec.
    destruct (Py.int2 (Py.slice 4 20 s)) as [target|]; [|done].
    injection Hexec as <-. simpl. repeat split; try done. lia.
  - injection Hexec as <-. simpl. repeat split; try done. lia.
Qed.

Lemma loop_exit_frame_witness :
  ac (mkCPU [] [4; 5] 3 2 6 (VStr "010100000000000001100000000000000000")) = 3 ∧
  ecx (mkCPU [] [4; 5] 3 2 6 (VStr "010100000000000001100000000000000000")) = 2 ∧
  data_memory (mkCPU [] [4; 5] 3 2 6 (VStr "010100000000000001100000000000000000"))
    = [4; 5].
Proof.
  pose proof (loop_exit_frame
    (mkCPU [] [4; 5] 3 2 9 (VStr "010100000000000001100000000000000000"))
    (mkCPU [] [4; 5] 3 2 6 (VStr "010100000000000001100000000000000000"))
    "010100000000000001100000000000000000" eq_refl
    ltac:(by_evaluation) eq_refl)
    as (Hac & Hecx & Hdm & _).
  exact (conj Hac (conj Hecx Hdm)).
Defined.

(** ** The destination of [mov] *)

Section Mov.

Implicit Types (c : CPU) (ident v : Z).

(** [mov] once both operands are known: a destination below 65534 is a
    data-memory slot, with the two branches of the length test. *)
Lemma mov_slot c operand1 operand2 ident v :
  Py.int2 operand1 = Ok ident →
  get_data c operand2 = Ok v →
  ident < 65534 →
  mov c operand1 operand2 =
    if Z.of_nat (length (data_memory c)) <? ident - 32768 + 1
    then Ok (set_data_memory (data_memory c ++ [v]) c)
    else d ← Py.setitem (data_memory c) (ident - 32768) v;
         Ok (set_data_memory d c).
Proof.
  intros Hid Hv Hlt. unfold mov. rewrite Hid. simpl.
  destruct (Z.ltb_spec ident 65534); [|lia].
  rewrite Hv. reflexivity.
Qed.

Lemma setitem_nonneg {A : Type} (l : list A) (i : Z) (x : A) :
  0 ≤ i < Z.of_nat (length l) →
  Py.setitem l i x = Ok (<[Z.to_nat i := x]> l).
Proof.
  intros Hi. unfold Py.setitem.
  destruct (Z.ltb_spec i 0); [lia|].
  destruct (Z.ltb_spec i 0); [lia|].
  destruct (Z.leb_spec (Z.of_nat (length l)) i); [lia|]. reflexivity.
Qed.

Lemma setitem_negative {A : Type} (l : list A) (i : Z) (x : A) :
  i < 0 →
  Py.setitem l i x =
    if Z.of_nat (length l) + i <? 0 then Raise IndexError
    else Ok (<[Z.to_nat (Z.of_nat (length l) + i) := x]> l).
Proof.
  intros Hi. unfold Py.setitem.
  destruct (Z.ltb_spec i 0); [|lia].
  rewrite (Z.add_comm i).
  destruct (Z.ltb_spec (Z.of_nat (length l) + i) 0); [done|].
  destruct (Z.leb_spec (Z.of_nat (length l)) (Z.of_nat (length l) + i)); [lia|].
  reflexivity.
Qed.

(** Reading a variable-range operand succeeds only on a slot that
    exists. *)
Lemma get_data_slot c ident v :
  32768 ≤ ident < 65534 →
  get_data c (VInt ident) = Ok v →
  ident - 32768 < Z.of_nat (length (data_memory c)).
Proof.
  intros Hrange. rewrite get_data_int.
  destruct (Z.ltb_spec ident 32768); [lia|].
  destruct (Z.ltb_spec ident 65534); [|lia].
  rewrite getitem_nonneg by lia.
  destruct (data_memory c !! Z.to_nat (ident - 32768)) eqn:Hslot; [|done].
  intros _. apply lookup_lt_Some in Hslot. lia.
Qed.

(** A move to a register, or to a slot that exists, leaves there what its
    source resolved to. *)
Lemma mov_holds_after c operand1 operand2 ident old v :
  Py.int2 operand1 = Ok ident →
  32768 ≤ ident →
  get_data c (VStr operand1) = Ok old →
  get_data c operand2 = Ok v →
  holds_after (mov c operand1 operand2) operand1 v.
Proof.
  intros Hident Hdest Hold Hsource. unfold holds_after.
  assert (∀ c', get_data c' (VStr operand1) = get_data c' (VInt ident)) as Hread.
  { intros c'. by rewrite get_data_str, Hident. }
  rewrite Hread in Hold.
  destruct (Z.ltb_spec ident 65534) as [Hvar|Hreg].
  - pose proof (get_data_slot c ident old ltac:(lia) Hold) as Hslot.
    rewrite (mov_slot c operand1 operand2 ident v Hident Hsource Hvar).
    destruct (Z.ltb_spec (Z.of_nat (length (data_memory c))) (ident - 32768 + 1));
      [lia|].
    rewrite setitem_nonneg by lia. eexists. split; [done|].
    rewrite Hread, get_data_int.
    destruct (Z.ltb_spec ident 32768); [lia|].
    destruct (Z.ltb_spec ident 65534); [|lia].
    rewrite getitem_nonneg by lia. simpl.
    by rewrite list_lookup_insert_eq by lia.
  - unfold mov. rewrite Hident. simpl.
    destruct (Z.ltb_spec ident 65534); [lia|]. rewrite Hsource. simpl.
    destruct (Z.eqb_spec ident 65534) as [->|Hne].
    + eexists. split; [done|]. by rewrite Hread.
    + eexists. split; [done|]. rewrite Hread, get_data_int.
      destruct (Z.ltb_spec ident 32768); [lia|].
      destruct (Z.ltb_spec ident 65534); [lia|].
      destruct (Z.eqb_spec ident 65534); [lia|done].
Qed.

(** A source that cannot be resolved makes the move raise what the
    resolution raised, whatever the destination. *)
Lemma mov_source_raises c operand1 operand2 ident e :
  Py.int2 operand1 = Ok ident →
  get_data c operand2 = Raise e →
  mov c operand1 operand2 = Raise e.
Proof.
  intros Hident Hsource. unfold mov. rewrite Hident. simpl.
  repeat destruct (_ <? _); try destruct (_ =? _); by rewrite Hsource.
Qed.

End Mov.

(** C3, as the code has it.  A move to a variable-range destination whose
    source resolves to [v]: when the slot index is the current length of
    data memory, or any larger number, [v] is appended as the new last slot
    and nothing is raised; when the slot exists, it is overwritten. *)
Theorem mov_variable_destination (c : CPU) (operand1 : string)
    (operand2 : value) (ident v : Z)
    (Hident : Py.int2 operand1 = Ok ident)
    (Hrange : 32768 ≤ ident < 65534)
    (Hsource : get_data c operand2 = Ok v) :
  (ident - 32768 = Z.of_nat (length (data_memory c)) →
     mov c operand1 operand2 = Ok (set_data_memory (data_memory c ++ [v]) c)) ∧
  (Z.of_nat (length (data_memory c)) < ident - 32768 →
     mov c operand1 operand2 = Ok (set_data_memory (data_memory c ++ [v]) c)) ∧
  (ident - 32768 < Z.of_nat (length (data_memory c)) →
     mov c operand1 operand2 =
       Ok (set_data_memory (<[Z.to_nat (ident - 32768) := v]> (data_memory c)) c)).
Proof.
  rewrite (mov_slot c operand1 operand2 ident v Hident Hsource) by lia.
  repeat split; intros H.
  - destruct (Z.ltb_spec (Z.of_nat (length (data_memory c))) (ident - 32768 + 1));
      [done|lia].
  - destruct (Z.ltb_spec (Z.of_nat (length (data_memory c))) (ident - 32768 + 1));
      [done|lia].
  - destruct (Z.ltb_spec (Z.of_nat (length (data_memory c))) (ident - 32768 + 1));
      [lia|].
    rewrite setitem_nonneg by lia. reflexivity.
Qed.

Lemma mov_variable_destination_witness :
  mov (mkCPU [] [4] 0 0 0 (VInt 0)) "1000000000000001" (VStr "0000000000000111")
    = Ok (mkCPU [] [4; 7] 0 0 0 (VInt 0)) ∧
  mov (mkCPU [] [4] 0 0 0 (VInt 0)) "1000000000000011" (VStr "0000000000000111")
    = Ok (mkCPU [] [4; 7] 0 0 0 (VInt 0)) ∧
  mov (mkCPU [] [4] 0 0 0 (VInt 0)) "1000000000000000" (VStr "0000000000000111")
    = Ok (mkCPU [] [7] 0 0 0 (VInt 0)).
Proof.
  refine (conj _ (conj _ _)).
  - refine (proj1 (mov_variable_destination (mkCPU [] [4] 0 0 0 (VInt 0))
                     "1000000000000001" (VStr "0000000000000111") 32769 7 eq_refl _ eq_refl) _).
    + lia.
    + reflexivity.
  - refine (proj1 (proj2 (mov_variable_destination (mkCPU [] [4] 0 0 0 (VInt 0))
                     "1000000000000011" (VStr "0000000000000111") 32771 7 eq_refl _ eq_refl)) _).
    + lia.
    + simpl. lia.
  - refine (proj2 (proj2 (mov_variable_destination (mkCPU [] [4] 0 0 0 (VInt 0))
                     "1000000000000000" (VStr "0000000000000111") 32768 7 eq_refl _ eq_refl)) _).
    + lia.
    + simpl. lia.
Defined.

(** C3 as stated fails: with an empty data memory, a move to address 32770
    (slot index 2, beyond the length 0) raises nothing and appends. *)
Lemma mov_beyond_length_appends :
  Py.int2 "1000000000000010" = Ok 32770 ∧
  Z.of_nat (length (data_memory (init []))) < 32770 - 32768 ∧
  mov (init []) "1000000000000010" (VStr "0000000000000111") = Ok (mkCPU [] [7] 0 0 0 (VInt 0)).
Proof. split; [reflexivity|]. split; [simpl; lia|reflexivity]. Qed.

(** C9, as the code has it.  Every destination value below 65534 is
    handled as the slot value − 32768.  For a constant-range destination
    that index is negative, so the length test never chooses the append and
    the store is Python's store at a negative index: it goes to slot
    length + index when data memory has at least 32768 − value slots, and
    raises [IndexError] when it has fewer. *)
Theorem mov_constant_destination (c : CPU) (operand1 : string)
    (operand2 : value) (ident v : Z)
    (Hident : Py.int2 operand1 = Ok ident)
    (Hsource : get_data c operand2 = Ok v) :
  (ident < 65534 →
     mov c operand1 operand2 =
       if Z.of_nat (length (data_memory c)) <? ident - 32768 + 1
       then Ok (set_data_memory (data_memory c ++ [v]) c)
       else d ← Py.setitem (data_memory c) (ident - 32768) v;
            Ok (set_data_memory d c)) ∧
  (ident < 32768 → 32768 - ident ≤ Z.of_nat (length (data_memory c)) →
     mov c operand1 operand2 =
       Ok (set_data_memory
             (<[Z.to_nat (Z.of_nat (length (data_memory c)) + (ident - 32768)) := v]>
                (data_memory c)) c)) ∧
  (ident < 32768 → Z.of_nat (length (data_memory c)) < 32768 - ident →
     mov c operand1 operand2 = Raise IndexError).
Proof.
  split; [apply mov_slot; assumption|].
  split; intros Hconst Hlen.
  - rewrite (mov_slot c operand1 operand2 ident v Hident Hsource) by lia.
    destruct (Z.ltb_spec (Z.of_nat (length (data_memory c))) (ident - 32768 + 1));
      [lia|].
    rewrite setitem_negative by lia.
    destruct (Z.ltb_spec (Z.of_nat (length (data_memory c)) + (ident - 32768)) 0);
      [lia|reflexivity].
  - rewrite (mov_slot c operand1 operand2 ident v Hident Hsource) by lia.
    destruct (Z.ltb_spec (Z.of_nat (length (data_memory c))) (ident - 32768 + 1));
      [lia|].
    rewrite setitem_negative by lia.
    destruct (Z.ltb_spec (Z.of_nat (length (data_memory c)) + (ident - 32768)) 0);
      [reflexivity|lia].
Qed.

Lemma mov_constant_destination_witness :
  mov (mkCPU [] [4; 5] 0 0 0 (VInt 0)) "0111111111111111" (VStr "0000000000000111")
    = Ok (mkCPU [] [4; 7] 0 0 0 (VInt 0)) ∧
  mov (mkCPU [] [4; 5] 0 0 0 (VInt 0)) "0000000000000101" (VStr "0000000000000111")
    = Raise IndexError.
Proof.
  split.
  - refine (proj1 (proj2 (mov_constant_destination (mkCPU [] [4; 5] 0 0 0 (VInt 0))
                     "0111111111111111" (VStr "0000000000000111") 32767 7 eq_refl eq_refl)) _ _).
    + lia.
    + simpl. lia.
  - refine (proj2 (proj2 (mov_constant_destination (mkCPU [] [4; 5] 0 0 0 (VInt 0))
                     "0000000000000101" (VStr "0000000000000111") 5 7 eq_refl eq_refl)) _ _).
    + lia.
    + simpl. lia.
Defined.

(** C9 as stated fails: a move to the constant-range destination 5 on an
    empty data memory is not performed, it raises [IndexError]. *)
Lemma mov_constant_destination_raises :
  Py.int2 "0000000000000101" = Ok 5 ∧
  mov (init []) "0000000000000101" (VStr "0000000000000111") = Raise IndexError.
Proof. split; reflexivity. Qed.

(** ** Arithmetic as a move *)

(** C1, as the code has it.  When the operands of an arithmetic instruction
    resolve to [a] and [b], the instruction is the move, to the same
    destination, of the number a+b, a−b, a*b or (for a non-zero [b], with
    the quotient rounded down) a/b; a zero divisor raises.  [mov] resolves
    that number as it resolves any source operand: a result below 32768
    acts as every move from a source that resolves to it, and every
    result acts as the operand field that has its value.  So, for a
    destination that is a register or a variable: a result below 32768 is
    what the destination holds afterwards; a result of 32768 or more is
    read as an address, and the destination holds what [get_data] finds
    there (a slot of data memory, the accumulator or the loop counter);
    when nothing is found there, the instruction raises what [get_data]
    raised. *)
Theorem arithmetic_as_move (c : CPU) (operand1 operand2 : string) (a b : Z)
    (Ha : get_data c (VStr operand1) = Ok a)
    (Hb : get_data c (VStr operand2) = Ok b) :
  add c operand1 operand2 = mov c operand1 (VInt (a + b)) ∧
  sub c operand1 operand2 = mov c operand1 (VInt (a - b)) ∧
  mul c operand1 operand2 = mov c operand1 (VInt (a * b)) ∧
  (b ≠ 0 → div c operand1 operand2 = mov c operand1 (VInt (a / b))) ∧
  (b = 0 → div c operand1 operand2 = Raise ZeroDivisionError) ∧
  (∀ (r : Z) (source : value),
     r < 32768 → get_data c source = Ok r →
     mov c operand1 (VInt r) = mov c operand1 source) ∧
  (∀ (r : Z) (field : string),
     Py.int2 field = Ok r →
     mov c operand1 (VInt r) = mov c operand1 (VStr field)) ∧
  (∀ ident, Py.int2 operand1 = Ok ident → 32768 ≤ ident →
     (a + b < 32768 →
        holds_after (add c operand1 operand2) operand1 (a + b)) ∧
     (a - b < 32768 →
        holds_after (sub c operand1 operand2) operand1 (a - b)) ∧
     (a * b < 32768 →
        holds_after (mul c operand1 operand2) operand1 (a * b)) ∧
     (b ≠ 0 → a / b < 32768 →
        holds_after (div c operand1 operand2) operand1 (a / b)) ∧
     (∀ v, 32768 ≤ a + b → get_data c (VInt (a + b)) = Ok v →
        holds_after (add c operand1 operand2) operand1 v) ∧
     (∀ v, 32768 ≤ a - b → get_data c (VInt (a - b)) = Ok v →
        holds_after (sub c operand1 operand2) operand1 v) ∧
     (∀ v, 32768 ≤ a * b → get_data c (VInt (a * b)) = Ok v →
        holds_after (mul c operand1 operand2) operand1 v) ∧
     (∀ v, b ≠ 0 → 32768 ≤ a / b → get_data c (VInt (a / b)) = Ok v →
        holds_after (div c operand1 operand2) operand1 v)) ∧
  (∀ e,
     (get_data c (VInt (a + b)) = Raise e →
        add c operand1 operand2 = Raise e) ∧
     (get_data c (VInt (a - b)) = Raise e →
        sub c operand1 operand2 = Raise e) ∧
     (get_data c (VInt (a * b)) = Raise e →
        mul c operand1 operand2 = Raise e) ∧
     (b ≠ 0 → get_data c (VInt (a / b)) = Raise e →
        div c operand1 operand2 = Raise e)).
Proof.
  assert (add c operand1 operand2 = mov c operand1 (VInt (a + b))) as Hadd.
  { unfold add. by rewrite Ha, Hb. }
  assert (sub c operand1 operand2 = mov c operand1 (VInt (a - b))) as Hsub.
  { unfold sub. by rewrite Ha, Hb. }
  assert (mul c operand1 operand2 = mov c operand1 (VInt (a * b))) as Hmul.
  { unfold mul. by rewrite Ha, Hb. }
  assert (b ≠ 0 → div c operand1 operand2 = mov c operand1 (VInt (a / b)))
    as Hdiv.
  { intros Hb0. unfold div. rewrite Ha, Hb. simpl.
    destruct (Z.eqb_spec b 0); [done|reflexivity]. }
  refine (conj Hadd (conj Hsub (conj Hmul (conj Hdiv (conj _ (conj _ (conj _
            (conj _ _)))))))).
  - intros ->. unfold div. by rewrite Ha, Hb.
  - intros r source Hr Hsource. unfold mov.
    rewrite (get_data_constant c r Hr), Hsource. reflexivity.
  - intros r field Hfield. unfold mov.
    by rewrite (get_data_str c field), Hfield.
  - intros ident Hident Hdest.
    assert (∀ r v, get_data c (VInt r) = Ok v →
                   holds_after (mov c operand1 (VInt r)) operand1 v) as Hmov.
    { intros r v Hr. exact (mov_holds_after c _ _ ident a v Hident Hdest Ha Hr). }
    rewrite Hadd, Hsub, Hmul.
    refine (conj _ (conj _ (conj _ (conj _ (conj _ (conj _ (conj _ _))))))).
    + intros Hr. by apply Hmov, get_data_constant.
    + intros Hr. by apply Hmov, get_data_constant.
    + intros Hr. by apply Hmov, get_data_constant.
    + intros Hb0 Hr. rewrite (Hdiv Hb0). by apply Hmov, get_data_constant.
    + intros v _ Hv. by apply Hmov.
    + intros v _ Hv. by apply Hmov.
    + intros v _ Hv. by apply Hmov.
    + intros v Hb0 _ Hv. rewrite (Hdiv Hb0). by apply Hmov.
  - intros e.
    assert (∃ ident, Py.int2 operand1 = Ok ident) as (ident & Hident).
    { rewrite get_data_str in Ha. destruct (Py.int2 operand1); [eauto|done]. }
    rewrite Hadd, Hsub, Hmul.
    refine (conj _ (conj _ (conj _ _))).
    + by apply mov_source_raises with ident.
    + by apply mov_source_raises with ident.
    + by apply mov_source_raises with ident.
    + intros Hb0. rewrite (Hdiv Hb0). by apply mov_source_raises with ident.
Qed.

Lemma arithmetic_as_move_witness :
  add (mkCPU [] [17] 0 0 0 (VInt 0)) "1000000000000000" "0000000000000010"
    = Ok (mkCPU [] [19] 0 0 0 (VInt 0)) ∧
  sub (mkCPU [] [17] 0 0 0 (VInt 0)) "1000000000000000" "0000000000000010"
    = Ok (mkCPU [] [15] 0 0 0 (VInt 0)) ∧
  mul (mkCPU [] [17] 0 0 0 (VInt 0)) "1000000000000000" "0000000000000010"
    = Ok (mkCPU [] [34] 0 0 0 (VInt 0)) ∧
  div (mkCPU [] [17] 0 0 0 (VInt 0)) "1000000000000000" "0000000000000010"
    = Ok (mkCPU [] [8] 0 0 0 (VInt 0)) ∧
  div (mkCPU [] [17] 0 0 0 (VInt 0)) "1000000000000000" "0000000000000000"
    = Raise ZeroDivisionError ∧
  mov (mkCPU [] [17] 0 0 0 (VInt 0)) "1000000000000000" (VInt 17)
    = mov (mkCPU [] [17] 0 0 0 (VInt 0)) "1000000000000000" (VStr "1000000000000000") ∧
  holds_after
    (add (mkCPU [] [17] 0 0 0 (VInt 0)) "1000000000000000" "0000000000000010")
    "1000000000000000" 19 ∧
  holds_after
    (add (mkCPU [] [5] 32767 0 0 (VInt 0)) "1111111111111110" "0000000000000001")
    "1111111111111110" 5 ∧
  add (mkCPU [] [5] 32767 0 0 (VInt 0)) "1111111111111110" "0000000000000010"
    = Raise IndexError.
Proof.
  pose proof (arithmetic_as_move (mkCPU [] [17] 0 0 0 (VInt 0))
                "1000000000000000" "0000000000000010" 17 2 eq_refl eq_refl)
    as (Hadd & Hsub & Hmul & Hdiv & _ & Hmov & _ & Hholds & _).
  pose proof (arithmetic_as_move (mkCPU [] [17] 0 0 0 (VInt 0))
                "1000000000000000" "0000000000000000" 17 0 eq_refl eq_refl)
    as (_ & _ & _ & _ & Hzero & _).
  pose proof (arithmetic_as_move (mkCPU [] [5] 32767 0 0 (VInt 0))
                "1111111111111110" "0000000000000001" 32767 1 eq_refl eq_refl)
    as (_ & _ & _ & _ & _ & _ & _ & Hreference & _).
  pose proof (arithmetic_as_move (mkCPU [] [5] 32767 0 0 (VInt 0))
                "1111111111111110" "0000000000000010" 32767 2 eq_refl eq_refl)
    as (_ & _ & _ & _ & _ & _ & _ & _ & Hraises).
  refine (conj Hadd (conj Hsub (conj Hmul (conj (Hdiv _) (conj (Hzero eq_refl)
            (conj _ (conj _ (conj _ _)))))))).
  - lia.
  - apply (Hmov 17 (VStr "1000000000000000")); [lia|reflexivity].
  - apply (proj1 (Hholds 32768 eq_refl ltac:(lia))). lia.
  - apply (proj1 (proj2 (proj2 (proj2 (proj2
             (Hreference 65534 eq_refl ltac:(lia)))))) 5); [lia|reflexivity].
  - apply (proj1 (Hraises IndexError)). reflexivity.
Defined.

(** C1 as stated fails: with 32767 in the accumulator and 5 in the first
    slot, adding the constant 1 to the accumulator does not leave
    32767 + 1 there; the sum is read as the address of the first slot and
    the accumulator receives 5. *)
Lemma add_result_read_as_address :
  get_data (mkCPU [] [5] 32767 0 0 (VInt 0)) (VStr "1111111111111110") = Ok 32767 ∧
  get_data (mkCPU [] [5] 32767 0 0 (VInt 0)) (VStr "0000000000000001") = Ok 1 ∧
  add (mkCPU [] [5] 32767 0 0 (VInt 0)) "1111111111111110" "0000000000000001"
    = Ok (mkCPU [] [5] 5 0 0 (VInt 0)) ∧
  5 ≠ 32767 + 1.
Proof. repeat split; try reflexivity. lia. Qed.

(** * Properties of the encoder *)

(** ** Strings *)

Section Strings.

Implicit Types (s t u : string) (c : ascii).

Lemma app_cons c s t : String c s +:+ t = String c (s +:+ t).
Proof. reflexivity. Qed.

Lemma app_nil_r s : s +:+ "" = s.
Proof. induction s as [|c s IH]; [done|]. by rewrite app_cons, IH. Qed.

Lemma app_assoc s t u : (s +:+ t) +:+ u = s +:+ (t +:+ u).
Proof. induction s as [|c s IH]; [done|]. by rewrite !app_cons, IH. Qed.

Lemma length_app s t :
  String.length (s +:+ t) = (String.length s + String.length t)%nat.
Proof.
  induction s as [|c s IH]; [done|]. rewrite app_cons. simpl. by rewrite IH.
Qed.

Lemma length_repeat c n : String.length (Py.repeat c n) = n.
Proof. induction n as [|n IH]; [done|]. simpl. by rewrite IH. Qed.

Lemma bits_value_app s t acc :
  Py.bits_value acc (s +:+ t) =
    match Py.bits_value acc s with
    | Some z => Py.bits_value z t
    | None => None
    end.
Proof.
  revert acc. induction s as [|c s IH]; intros acc; [done|].
  rewrite app_cons. simpl. destruct (Py.bit_of c); [apply IH|done].
Qed.

Lemma bits_value_zeros n : Py.bits_value 0 (Py.repeat "0" n) = Some 0.
Proof. induction n as [|n IH]; [done|]. exact IH. Qed.

End Strings.

(** ** Numeric-to-binary conversion *)

Section Binary.

Lemma dec_to_bin_loop_step decimal string_ :
  dec_to_bin_loop decimal string_ =
    if decide (0 < decimal)
    then dec_to_bin_loop (decimal / 2) (Py.str (decimal mod 2) +:+ string_)
    else string_.
Proof.
  rewrite dec_to_bin_loop_equation_1.
  destruct (decide (0 < decimal)); reflexivity.
Qed.

Lemma dec_to_bin_loop_pos p string_ :
  dec_to_bin_loop (Zpos p) string_ = pos_bits p +:+ string_.
Proof.
  revert string_. induction p as [q IH|q IH|]; intros string_.
  - rewrite dec_to_bin_loop_step.
    destruct (decide (0 < Z.pos q~1)); [|lia].
    replace (Z.pos q~1 / 2) with (Z.pos q)
      by (apply (Z.div_unique _ 2 _ 1); lia).
    replace (Z.pos q~1 mod 2) with 1
      by (apply (Z.mod_unique _ 2 (Z.pos q) 1); lia).
    rewrite IH. simpl pos_bits. by rewrite app_assoc.
  - rewrite dec_to_bin_loop_step.
    destruct (decide (0 < Z.pos q~0)); [|lia].
    replace (Z.pos q~0 / 2) with (Z.pos q)
      by (apply (Z.div_unique _ 2 _ 0); lia).
    replace (Z.pos q~0 mod 2) with 0
      by (apply (Z.mod_unique _ 2 (Z.pos q) 0); lia).
    rewrite IH. simpl pos_bits. by rewrite app_assoc.
  - reflexivity.
Qed.

Lemma dec_to_bin_loop_nonpos decimal string_ :
  decimal ≤ 0 → dec_to_bin_loop decimal string_ = string_.
Proof.
  intros H. rewrite dec_to_bin_loop_step.
  destruct (decide (0 < decimal)); [lia|done].
Qed.

Lemma length_pos_bits p : String.length (pos_bits p) = Pos.size_nat p.
Proof.
  induction p as [q IH|q IH|]; simpl; [| |done];
    rewrite length_app, IH; simpl; lia.
Qed.

Lemma size_nat_le p (n : nat) :
  (Pos.size_nat p ≤ n)%nat ↔ Zpos p < 2 ^ Z.of_nat n.
Proof.
  revert n. induction p as [q IH|q IH|]; intros [|n]; simpl Pos.size_nat.
  - change (2 ^ Z.of_nat 0) with 1. lia.
  - rewrite Nat2Z.inj_succ, Z.pow_succ_r by lia.
    specialize (IH n). lia.
  - change (2 ^ Z.of_nat 0) with 1. lia.
  - rewrite Nat2Z.inj_succ, Z.pow_succ_r by lia.
    specialize (IH n). lia.
  - change (2 ^ Z.of_nat 0) with 1. lia.
  - rewrite Nat2Z.inj_succ, Z.pow_succ_r by lia.
    assert (0 < 2 ^ Z.of_nat n) by (apply Z.pow_pos_nonneg; lia). lia.
Qed.

Lemma bits_value_pos_bits p acc :
  Py.bits_value acc (pos_bits p) =
    Some (acc * 2 ^ Z.of_nat (Pos.size_nat p) + Zpos p).
Proof.
  revert acc. induction p as [q IH|q IH|]; intros acc; simpl pos_bits.
  - rewrite bits_value_app, IH. simpl. f_equal.
    rewrite Nat2Z.inj_succ, Z.pow_succ_r by lia. lia.
  - rewrite bits_value_app, IH. simpl. f_equal.
    rewrite Nat2Z.inj_succ, Z.pow_succ_r by lia. lia.
  - simpl. f_equal. lia.
Qed.

(** [binary] is a numeral of [n] ... *)
Lemma binary_value n : 0 ≤ n → Py.int2 (binary n) = Ok n.
Proof.
  intros Hn. destruct n as [|p|p]; [done| |lia].
  unfold binary, Py.int2. rewrite bits_value_pos_bits. simpl.
  destruct (pos_bits p) eqn:E; [|done].
  pose proof (length_pos_bits p) as Hlen. rewrite E in Hlen.
  destruct p; discriminate Hlen.
Qed.

(** ... and the shortest one: it has no leading zero. *)
Lemma binary_leading_one n :
  0 < n → ∃ rest, binary n = String "1" rest.
Proof.
  intros Hn. destruct n as [|p|p]; [lia| |lia]. simpl. clear Hn.
  induction p as [q IH|q IH|]; simpl.
  - destruct IH as [rest ->]. rewrite app_cons. by eexists.
  - destruct IH as [rest ->]. rewrite app_cons. by eexists.
  - by eexists.
Qed.

Lemma length_binary_le n (k : nat) :
  0 ≤ n → (1 ≤ k)%nat →
  (String.length (binary n) ≤ k)%nat ↔ n < 2 ^ Z.of_nat k.
Proof.
  intros Hn Hk. destruct n as [|p|p]; [| |lia].
  - simpl. assert (0 < 2 ^ Z.of_nat k) by (apply Z.pow_pos_nonneg; lia). lia.
  - simpl. rewrite length_pos_bits. apply size_nat_le.
Qed.

End Binary.

Section Dec_to_bin.

Lemma int2_nonempty s :
  s ≠ "" →
  Py.int2 s = match Py.bits_value 0 s with
              | Some z => Ok z
              | None => Raise ValueError
              end.
Proof. destruct s; [done|reflexivity]. Qed.

Lemma binary_nonempty n : binary n ≠ "".
Proof.
  destruct n as [|p|p]; [done| |done]. simpl.
  intros E. pose proof (length_pos_bits p) as Hlen. rewrite E in Hlen.
  destruct p; discriminate Hlen.
Qed.

Lemma int2_padded n (k : nat) :
  0 ≤ n → Py.int2 (Py.repeat "0" k +:+ binary n) = Ok n.
Proof.
  intros Hn. rewrite int2_nonempty.
  - rewrite bits_value_app, bits_value_zeros.
    pose proof (binary_value n Hn) as Hv.
    rewrite int2_nonempty in Hv by apply binary_nonempty. exact Hv.
  - intros E. apply (f_equal String.length) in E.
    rewrite length_app, length_repeat in E.
    pose proof (binary_nonempty n) as Hne.
    destruct (binary n); [done|]. simpl in E. lia.
Qed.

(** [dec_to_bin] of a positive number, by the length of its numeral. *)
Lemma dec_to_bin_pos p (length : Z) :
  dec_to_bin (Zpos p) length =
    if Z.of_nat (Pos.size_nat p) <? length
    then Py.repeat "0" (Z.to_nat (length - Z.of_nat (Pos.size_nat p)))
           +:+ pos_bits p
    else pos_bits p.
Proof.
  unfold dec_to_bin. rewrite dec_to_bin_loop_pos, app_nil_r.
  unfold Py.len. rewrite length_pos_bits. reflexivity.
Qed.

End Dec_to_bin.

(** C4. For a natural number [n], [dec_to_bin n 16] is the minimal binary
    numeral of [n] with zeros in front up to exactly 16 characters when [n]
    is below 2^16 (the numeral has at most 16 digits), and the numeral
    itself, longer than 16 characters and not cut, from 2^16 on.  In both
    cases the value of the string returned is [n]. *)
Theorem dec_to_bin_16 (n : Z) (Hn : 0 ≤ n) :
  ((String.length (binary n) ≤ 16)%nat ↔ n < 65536) ∧
  (n < 65536 →
     dec_to_bin n 16 =
       Py.repeat "0" (16 - String.length (binary n)) +:+ binary n ∧
     String.length (dec_to_bin n 16) = 16%nat) ∧
  (65536 ≤ n →
     dec_to_bin n 16 = binary n ∧
     (16 < String.length (dec_to_bin n 16))%nat) ∧
  Py.int2 (dec_to_bin n 16) = Ok n.
Proof.
  split; [apply (length_binary_le n 16 Hn); lia|].
  destruct n as [|p|p]; [| |lia].
  - split; [|split]; [intros _; split; reflexivity|lia|reflexivity].
  - pose proof (length_binary_le (Zpos p) 16 Hn ltac:(lia)) as Hfit.
    change (2 ^ Z.of_nat 16) with 65536 in Hfit.
    simpl binary in *. rewrite length_pos_bits in Hfit.
    rewrite dec_to_bin_pos.
    destruct (Z.ltb_spec (Z.of_nat (Pos.size_nat p)) 16) as [Hshort|Hlong].
    + replace (Z.to_nat (16 - Z.of_nat (Pos.size_nat p)))
        with (16 - Pos.size_nat p)%nat by lia.
      split; [|split].
      * intros _. rewrite length_pos_bits. split; [reflexivity|].
        rewrite length_app, length_repeat, length_pos_bits. lia.
      * lia.
      * apply (int2_padded (Zpos p)). lia.
    + split; [|split].
      * intros Hlt. assert (Pos.size_nat p = 16%nat) as Hsz by lia.
        rewrite length_pos_bits, Hsz. split; reflexivity.
      * intros Hge. split; [reflexivity|]. rewrite length_pos_bits. lia.
      * apply (binary_value (Zpos p)). lia.
Qed.

Lemma dec_to_bin_16_witness :
  dec_to_bin 19 16 = "0000000000010011" ∧
  dec_to_bin 65535 16 = "1111111111111111" ∧
  dec_to_bin 65536 16 = "10000000000000000" ∧
  Py.int2 (dec_to_bin 70000 16) = Ok 70000.
Proof.
  refine (conj _ (conj _ (conj _ _))).
  - refine (proj1 (proj1 (proj2 (dec_to_bin_16 19 _)) _)); lia.
  - refine (proj1 (proj1 (proj2 (dec_to_bin_16 65535 _)) _)); lia.
  - refine (proj1 (proj1 (proj2 (proj2 (dec_to_bin_16 65536 _))) _)); lia.
  - refine (proj2 (proj2 (proj2 (dec_to_bin_16 70000 _)))); lia.
Defined.

(** ** The symbol table *)

Section Symbol_table.

Implicit Types (vars : gmap string Z) (var : string).

Lemma foldr_max_spec (x : Z) (l : list Z) :
  foldr Z.max x l ∈ x :: l ∧ ∀ y, y ∈ x :: l → y ≤ foldr Z.max x l.
Proof.
  induction l as [|z l [IHin IHle]]; simpl.
  - split; [apply list_elem_of_here|].
    intros y Hy. apply list_elem_of_singleton in Hy. lia.
  - split.
    + destruct (Z.max_spec z (foldr Z.max x l)) as [[_ ->]|[_ ->]].
      * apply elem_of_cons in IHin as [->|Hin].
        -- apply list_elem_of_here.
        -- by do 2 apply list_elem_of_further.
      * apply list_elem_of_further, list_elem_of_here.
    + intros y Hy. apply elem_of_cons in Hy as [->|Hy].
      * specialize (IHle x (list_elem_of_here _ _)). lia.
      * apply elem_of_cons in Hy as [->|Hy]; [lia|].
        specialize (IHle y (list_elem_of_further _ _ _ Hy)). lia.
Qed.

Lemma max_values vars :
  vars ≠ ∅ →
  ∃ m, Py.max (map_to_list vars).*2 = Ok m ∧ largest_address vars m.
Proof.
  intros Hne.
  destruct ((map_to_list vars).*2) as [|x l] eqn:E.
  { apply fmap_nil_inv, map_to_list_empty_iff in E. done. }
  destruct (foldr_max_spec x l) as [Hin Hle]. rewrite <- E in Hin, Hle.
  exists (foldr Z.max x l). split; [reflexivity|]. split.
  - apply list_elem_of_fmap in Hin as ([k a] & -> & Hka).
    exists k. by apply elem_of_map_to_list in Hka.
  - intros k a Hka. apply Hle. apply list_elem_of_fmap.
    exists (k, a). split; [done|]. by apply elem_of_map_to_list.
Qed.

Lemma variable_empty var :
  variable ∅ var = Ok ({[var := 32768]}, dec_to_bin 32768 16).
Proof.
  unfold variable. rewrite map_size_empty. simpl.
  unfold Py.dict_getitem. rewrite lookup_insert_eq. reflexivity.
Qed.

Lemma variable_new vars var m :
  vars ≠ ∅ → vars !! var = None →
  Py.max (map_to_list vars).*2 = Ok m →
  variable vars var = Ok (<[var := m + 1]> vars, dec_to_bin (m + 1) 16).
Proof.
  intros Hne Hnew Hm. unfold variable.
  case_bool_decide as Hsz; [by apply map_size_empty_iff in Hsz|].
  rewrite bool_decide_eq_true_2 by done.
  rewrite Hm. simpl. unfold Py.dict_getitem.
  rewrite lookup_insert_eq. reflexivity.
Qed.

Lemma variable_known vars var a :
  vars !! var = Some a → variable vars var = Ok (vars, dec_to_bin a 16).
Proof.
  intros Hvar. unfold variable.
  case_bool_decide as Hsz.
  { apply map_size_empty_iff in Hsz. subst. by rewrite lookup_empty in Hvar. }
  rewrite bool_decide_eq_false_2 by congruence.
  simpl. unfold Py.dict_getitem. rewrite Hvar. reflexivity.
Qed.

(** [variable] never raises: whatever the spelling of [var], it comes
    back with an address. *)
Lemma variable_total vars var :
  ∃ vars' a, variable vars var = Ok (vars', dec_to_bin a 16) ∧
             vars' !! var = Some a.
Proof.
  destruct (vars !! var) as [a|] eqn:Hvar.
  { exists vars, a. split; [by apply variable_known|done]. }
  destruct (decide (vars = ∅)) as [->|Hne].
  { eexists _, _. split; [apply variable_empty|apply lookup_insert_eq]. }
  destruct (max_values vars Hne) as (m & Hm & _).
  eexists _, _. split; [by apply variable_new|apply lookup_insert_eq].
Qed.

Lemma consecutive_empty : consecutive ∅.
Proof.
  intros a. rewrite map_size_empty. split; [|lia].
  intros [k Hk]. by rewrite lookup_empty in Hk.
Qed.

Lemma consecutive_largest vars m :
  consecutive vars → largest_address vars m →
  m + 1 = 32768 + Z.of_nat (size vars).
Proof.
  intros Hcons [Hin Hle].
  pose proof (proj1 (Hcons m) Hin) as Hm.
  destruct (proj2 (Hcons (32768 + Z.of_nat (size vars) - 1))) as [k Hk]; [lia|].
  specialize (Hle k _ Hk). lia.
Qed.

Lemma consecutive_insert vars var :
  consecutive vars → vars !! var = None →
  consecutive (<[var := 32768 + Z.of_nat (size vars)]> vars).
Proof.
  intros Hcons Hnew a. rewrite map_size_insert_None by done.
  rewrite Nat2Z.inj_succ. split.
  - intros [k Hk]. destruct (decide (k = var)) as [->|Hne].
    + rewrite lookup_insert_eq in Hk. injection Hk as <-. lia.
    + rewrite lookup_insert_ne in Hk by done.
      pose proof (proj1 (Hcons a) (ex_intro _ k Hk)). lia.
  - intros Ha. destruct (decide (a = 32768 + Z.of_nat (size vars))) as [->|Hne].
    + exists var. apply lookup_insert_eq.
    + destruct (proj2 (Hcons a)) as [k Hk]; [lia|].
      exists k. rewrite lookup_insert_ne; [done|]. congruence.
Qed.

(** On a table without gaps a new name receives the next free address. *)
Lemma variable_next vars var :
  consecutive vars → vars !! var = None →
  variable vars var =
    Ok (<[var := 32768 + Z.of_nat (size vars)]> vars,
        dec_to_bin (32768 + Z.of_nat (size vars)) 16).
Proof.
  intros Hcons Hnew.
  destruct (decide (vars = ∅)) as [->|Hne].
  { rewrite variable_empty, map_size_empty. reflexivity. }
  destruct (max_values vars Hne) as (m & Hm & Hlargest).
  rewrite (variable_new vars var m Hne Hnew Hm).
  by rewrite (consecutive_largest vars m Hcons Hlargest).
Qed.

End Symbol_table.

(** ** One line of assembly *)

Section Comp_line.

Implicit Types (st : comp_state) (line operator operand : string).

Lemma getitem_lookup {A : Type} (l : list A) (i : nat) :
  Py.getitem l (Z.of_nat i) = match l !! i with
                              | Some x => Ok x
                              | None => Raise IndexError
                              end.
Proof. rewrite getitem_nonneg by lia. by rewrite Nat2Z.id. Qed.

(** An operand that is a register or a variable is always encoded. *)
Lemma reg_or_var_ok st operand :
  ∃ code vars,
    reg_or_var st operand =
      Ok (mkState (bytecode st +:+ code) (instr_count st) (label st) vars).
Proof.
  unfold reg_or_var. case_bool_decide as Hreg.
  - destruct Hreg as [code Hcode]. unfold Py.dict_getitem. rewrite Hcode.
    by eexists _, _.
  - destruct (variable_total (variables st) operand) as (vars & a & -> & _).
    by eexists _, _.
Qed.

(** [comp_line] on a line that has a first word. *)
Lemma comp_line_words st line operator rest :
  Py.split line = operator :: rest →
  comp_line st line =
    if Py.startswith "label" operator then
      Ok (mkState (bytecode st) (instr_count st) (instr_count st) (variables st))
    else
      st' ←
        (if bool_decide (operator = "JMP") then
           code ← Py.dict_getitem operators operator;
           Ok (emit (dec_to_bin 0 16)
                 (emit (dec_to_bin (label st) 16) (emit code st)))
         else
           code ← Py.dict_getitem operators operator;
           operand1 ← Py.getitem (operator :: rest) (Z.of_nat 1);
           st2 ← reg_or_var (emit code st) operand1;
           operand2 ← Py.getitem (operator :: rest) (Z.of_nat 2);
           match Py.int10 operand2 with
           | Some n => Ok (emit (dec_to_bin n 16) st2)
           | None => reg_or_var st2 operand2
           end);
      Ok (mkState (bytecode st' +:+ Py.newline) (instr_count st' + 1) (label st')
            (variables st')).
Proof. intros Hsplit. unfold comp_line. rewrite Hsplit. reflexivity. Qed.

(** A label marker. *)
Lemma comp_line_label st line :
  is_label line = true →
  comp_line st line =
    Ok (mkState (bytecode st) (instr_count st) (instr_count st) (variables st)).
Proof.
  unfold is_label.
  destruct (Py.split line) as [|operator rest] eqn:Hsplit; [done|].
  intros Hlabel. rewrite (comp_line_words st line operator rest Hsplit).
  by rewrite Hlabel.
Qed.

(** A loop-exit line. *)
Lemma comp_line_jmp st line :
  is_jmp line = true →
  comp_line st line =
    Ok (mkState (bytecode st +:+ "0101" +:+ dec_to_bin (label st) 16 +:+
                   "0000000000000000" +:+ Py.newline)
          (instr_count st + 1) (label st) (variables st)).
Proof.
  unfold is_jmp.
  destruct (Py.split line) as [|operator rest] eqn:Hsplit; [done|].
  intros Hjmp. apply bool_decide_eq_true in Hjmp. subst operator.
  rewrite (comp_line_words st line "JMP" rest Hsplit). simpl.
  assert (Py.dict_getitem operators "JMP" = Ok "0101") as -> by by vm_compute.
  assert (dec_to_bin 0 16 = "0000000000000000") as -> by by vm_compute.
  unfold emit. simpl. by rewrite !app_assoc.
Qed.

(** Every outcome of [comp_line], by the words of the line. *)
Lemma comp_line_cases st line :
  match Py.split line with
  | [] => comp_line st line = Raise IndexError
  | operator :: rest =>
      if Py.startswith "label" operator then
        comp_line st line =
          Ok (mkState (bytecode st) (instr_count st) (instr_count st)
                (variables st))
      else
        match operators !! operator with
        | None => comp_line st line = Raise KeyError
        | Some code =>
            if bool_decide (operator = "JMP") then
              ∃ text, comp_line st line =
                Ok (mkState text (instr_count st + 1) (label st) (variables st))
            else
              match rest with
              | operand1 :: operand2 :: _ =>
                  ∃ text vars, comp_line st line =
                    Ok (mkState text (instr_count st + 1) (label st) vars)
              | _ => comp_line st line = Raise IndexError
              end
        end
  end.
Proof.
  destruct (Py.split line) as [|operator rest] eqn:Hsplit.
  { unfold comp_line. rewrite Hsplit. reflexivity. }
  rewrite (comp_line_words st line operator rest Hsplit).
  rewrite !getitem_lookup.
  destruct (Py.startswith "label" operator); [reflexivity|].
  unfold Py.dict_getitem.
  destruct (operators !! operator) as [code|] eqn:Hcode.
  - case_bool_decide as Hjmp; simpl; [by eexists|].
    destruct rest as [|operand1 [|operand2 rest]]; simpl.
    + reflexivity.
    + destruct (reg_or_var_ok (emit code st) operand1) as (c1 & v1 & ->).
      reflexivity.
    + destruct (reg_or_var_ok (emit code st) operand1) as (c1 & v1 & ->). simpl.
      destruct (Py.int10 operand2) as [n|]; simpl; [by eexists _, _|].
      match goal with
      | |- context [reg_or_var ?s operand2] =>
          destruct (reg_or_var_ok s operand2) as (c2 & v2 & ->)
      end.
      simpl. by eexists _, _.
  - case_bool_decide as Hjmp; [by subst|reflexivity].
Qed.

End Comp_line.

(** ** Failure of the encoder *)

Section Failure.

Implicit Types (st : comp_state) (line : string) (lines : list string).

Lemma comp_line_rejected st line :
  (∃ e, comp_line st line = Raise e) ↔ rejected line = true.
Proof.
  pose proof (comp_line_cases st line) as Hcases.
  unfold rejected, no_token, unknown_operator, missing_operand.
  destruct (Py.split line) as [|operator rest]; simpl.
  { split; [done|]. intros _. by eexists. }
  destruct (Py.startswith "label" operator); simpl.
  { rewrite Hcases. split; [by intros [e ?]|done]. }
  destruct (operators !! operator) as [code|] eqn:Hcode; simpl.
  - case_bool_decide as Hjmp.
    + rewrite bool_decide_eq_false_2 by tauto. simpl.
      destruct Hcases as [text ->]. split; [by intros [e ?]|done].
    + rewrite bool_decide_eq_true_2 by done. simpl.
      destruct rest as [|operand1 [|operand2 rest]]; simpl.
      * rewrite Hcases. split; [done|]. intros _. by eexists.
      * rewrite Hcases. split; [done|]. intros _. by eexists.
      * destruct Hcases as (text & vars & ->). split; [by intros [e ?]|].
        rewrite ?bool_decide_eq_false_2 by (simpl; lia). done.
  - rewrite Hcases. split; [done|]. intros _. by eexists.
Qed.

Lemma comp_lines_cons st line lines :
  comp_lines st (line :: lines) =
    st' ← comp_line st line; comp_lines st' lines.
Proof. reflexivity. Qed.

Lemma comp_lines_rejected st lines :
  (∃ e, comp_lines st lines = Raise e) ↔
  Exists (λ line, rejected line = true) lines.
Proof.
  revert st. induction lines as [|line lines IH]; intros st.
  - simpl. split; [by intros [e ?]|]. intros H. by apply Exists_nil in H.
  - rewrite comp_lines_cons, Exists_cons.
    destruct (comp_line st line) as [st'|e] eqn:Hline; simpl.
    + rewrite IH. split; [tauto|]. intros [Hrej|?]; [|done].
      apply (comp_line_rejected st) in Hrej as [e He].
      rewrite He in Hline. done.
    + split; [|by eexists]. intros _. left.
      apply (comp_line_rejected st). by eexists.
Qed.

End Failure.

(** C8, as the code has it.  Encoding raises exactly when some line of the
    stripped assembly text is rejected: it has no word, or its first word
    is neither a label marker nor a recognized mnemonic, or it is a MOV,
    ADD, SUB, MUL or DIV line with fewer than two operand words.  The
    spelling of an operand word plays no part: whatever is not a register
    (nor, in second place, an integer) is entered in the symbol table as a
    variable name. *)
Theorem encoding_failure (assembly : string) :
  (∃ e, compile assembly = Raise e) ↔
  Exists (λ line, no_token line = true ∨ unknown_operator line = true ∨
                  missing_operand line = true)
         (Py.split_nl (Py.strip assembly)).
Proof.
  unfold compile, comp.
  transitivity (∃ e, comp_lines (mkState "" 0 0 ∅)
                       (Py.split_nl (Py.strip assembly)) = Raise e).
  - destruct (comp_lines _ _) as [st|e]; simpl.
    + split; intros [e ?]; done.
    + split; intros _; by eexists.
  - rewrite comp_lines_rejected. apply Exists_proper; [|done].
    intros line. unfold rejected. rewrite !orb_true_iff. tauto.
Qed.

(** C8 as stated fails in both directions.  The operand word [Foo!] is not
    an integer, not a register and not a variable name of the language,
    yet the line is encoded; and a line with a recognized mnemonic and a
    well-formed operand but no second operand makes the encoder raise. *)
Lemma operand_spelling_not_checked :
  Py.int10 "Foo!" = None ∧
  registers !! "Foo!" = None ∧
  determine_type "Foo!" = Raise InvalidLexemeException ∧
  compile "MOV Foo! 1" =
    Ok ("000010000000000000000000000000000001", {["Foo!" := 32768]}) ∧
  determine_type "x" = Ok VARIABLE ∧
  compile "MOV x" = Raise IndexError.
Proof. repeat split; by vm_compute. Qed.

Lemma encoding_failure_witness :
  ∃ e, compile "FOO x 1" = Raise e.
Proof.
  apply (encoding_failure "FOO x 1").
  apply Exists_cons_hd. right. left. by vm_compute.
Defined.

(** ** Label markers and loop-exit lines *)

Section Labels.

Implicit Types (st : comp_state) (line : string) (lines : list string).

(** A line that is not a label marker emits one instruction and leaves the
    recorded label alone. *)
Lemma comp_line_emits st st' line :
  is_label line = false →
  comp_line st line = Ok st' →
  label st' = label st ∧ instr_count st' = instr_count st + 1.
Proof.
  intros Hlabel Hline.
  pose proof (comp_line_cases st line) as Hcases. unfold is_label in Hlabel.
  destruct (Py.split line) as [|operator rest]; [congruence|].
  rewrite Hlabel in Hcases.
  destruct (operators !! operator) as [code|]; [|congruence].
  case_bool_decide.
  - destruct Hcases as [text Htext]. rewrite Htext in Hline.
    injection Hline as <-. done.
  - destruct rest as [|operand1 [|operand2 rest]]; [congruence..|].
    destruct Hcases as (text & vars & Htext). rewrite Htext in Hline.
    injection Hline as <-. done.
Qed.

Lemma comp_lines_keep_label st st' lines :
  Forall (λ line, is_label line = false) lines →
  comp_lines st lines = Ok st' →
  label st' = label st.
Proof.
  intros Hlines. revert st.
  induction Hlines as [|line lines Hline _ IH]; intros st Hcomp.
  - injection Hcomp as <-. done.
  - rewrite comp_lines_cons in Hcomp.
    destruct (comp_line st line) as [st1|] eqn:Hst1; [|done].
    simpl in Hcomp. rewrite (IH _ Hcomp).
    by apply (comp_line_emits st st1 line).
Qed.

(** The instruction counter counts the lines that are not label markers. *)
Lemma comp_lines_count st st' lines :
  comp_lines st lines = Ok st' →
  instr_count st' =
    instr_count st +
    Z.of_nat (length (filter (λ line, is_label line = false) lines)).
Proof.
  revert st. induction lines as [|line lines IH]; intros st Hcomp.
  - injection Hcomp as <-. simpl. lia.
  - rewrite comp_lines_cons in Hcomp.
    destruct (comp_line st line) as [st1|] eqn:Hst1; [|done].
    simpl in Hcomp. rewrite (IH _ Hcomp).
    destruct (is_label line) eqn:Hlabel.
    + rewrite comp_line_label in Hst1 by done. injection Hst1 as <-.
      rewrite filter_cons_False by congruence. reflexivity.
    + rewrite filter_cons_True by done.
      destruct (comp_line_emits st st1 line Hlabel Hst1) as [_ ->].
      simpl length. lia.
Qed.

End Labels.

(** C7. A label marker records the current instruction count as the label
    and emits nothing, whatever label was recorded before.  A loop-exit
    line emits the opcode 0101, the 16-bit numeral of the recorded label
    and sixteen zeros.  After a label marker and any lines that are not
    label markers, the label a loop-exit line encodes is the instruction
    count at that marker; and the instruction count is the number of lines
    read so far that are not label markers. *)
Theorem label_and_loop_exit (st st' : comp_state) (marker jmp : string)
    (between : list string)
    (Hmarker : is_label marker = true)
    (Hjmp : is_jmp jmp = true) :
  comp_line st marker =
    Ok (mkState (bytecode st) (instr_count st) (instr_count st) (variables st)) ∧
  comp_line st jmp =
    Ok (mkState (bytecode st +:+ "0101" +:+ dec_to_bin (label st) 16 +:+
                   "0000000000000000" +:+ Py.newline)
          (instr_count st + 1) (label st) (variables st)) ∧
  (Forall (λ line, is_label line = false) between →
   comp_lines st (marker :: between) = Ok st' →
   comp_line st' jmp =
     Ok (mkState (bytecode st' +:+ "0101" +:+ dec_to_bin (instr_count st) 16 +:+
                    "0000000000000000" +:+ Py.newline)
           (instr_count st' + 1) (instr_count st) (variables st')) ∧
   instr_count st' =
     instr_count st +
     Z.of_nat (length (filter (λ line, is_label line = false) between))).
Proof.
  split; [by apply comp_line_label|].
  split; [by apply comp_line_jmp|].
  intros Hbetween Hcomp. rewrite comp_lines_cons in Hcomp.
  rewrite (comp_line_label st marker Hmarker) in Hcomp. simpl in Hcomp.
  pose proof (comp_lines_keep_label _ _ _ Hbetween Hcomp) as Hlabel.
  pose proof (comp_lines_count _ _ _ Hcomp) as Hcount. simpl in Hlabel, Hcount.
  split; [|exact Hcount].
  rewrite (comp_line_jmp st' jmp Hjmp), Hlabel. reflexivity.
Qed.

Lemma label_and_loop_exit_witness :
  comp_line (mkState "" 3 1 ∅) "label2:" = Ok (mkState "" 3 3 ∅) ∧
  comp_line (mkState "" 3 1 ∅) "JMP" =
    Ok (mkState ("010100000000000000010000000000000000" +:+ Py.newline) 4 1 ∅) ∧
  comp_line (mkState ("000011111111111111100000000000000001" +:+ Py.newline) 4 3 ∅)
      "JMP" =
    Ok (mkState ("000011111111111111100000000000000001" +:+ Py.newline +:+
                 "010100000000000000110000000000000000" +:+ Py.newline) 5 3 ∅).
Proof.
  pose proof (label_and_loop_exit (mkState "" 3 1 ∅)
                (mkState ("000011111111111111100000000000000001" +:+ Py.newline) 4 3 ∅)
                "label2:" "JMP" ["MOV AC 1"] eq_refl eq_refl)
    as (Hmarker & Hjmp & Hafter).
  refine (conj Hmarker (conj Hjmp _)).
  apply Hafter.
  - repeat constructor.
  - by vm_compute.
Defined.

(** ** The order of address assignment *)

Section Assignment.

Implicit Types (st : comp_state) (vars : gmap string Z) (names : list string).

Lemma continue_known vars name names a :
  vars !! name = Some a →
  continue vars (name :: names) = continue vars names.
Proof. intros H. unfold continue. simpl. by rewrite H. Qed.

Lemma continue_new vars name names :
  vars !! name = None →
  continue vars (name :: names) =
    continue (<[name := 32768 + Z.of_nat (size vars)]> vars) names.
Proof.
  intros H. unfold continue. simpl. rewrite H.
  rewrite map_size_insert_None by done. f_equal. lia.
Qed.

Lemma continue_app vars names1 names2 :
  continue vars (names1 ++ names2) = continue (continue vars names1) names2.
Proof.
  revert vars. induction names1 as [|name names1 IH]; intros vars; [done|].
  rewrite <- app_comm_cons.
  destruct (vars !! name) as [a|] eqn:Hname.
  - rewrite !(continue_known vars name _ a Hname). apply IH.
  - rewrite !(continue_new vars name _ Hname). apply IH.
Qed.

Lemma consecutive_continue vars names :
  consecutive vars → consecutive (continue vars names).
Proof.
  revert vars. induction names as [|name names IH]; intros vars Hcons; [done|].
  destruct (vars !! name) as [a|] eqn:Hname.
  - rewrite (continue_known vars name _ a Hname). by apply IH.
  - rewrite (continue_new vars name _ Hname).
    by apply IH, consecutive_insert.
Qed.

(** What [variable] does to a table without gaps. *)
Lemma variable_continue vars var vars' code :
  consecutive vars →
  variable vars var = Ok (vars', code) →
  vars' = continue vars [var].
Proof.
  intros Hcons Hvar. destruct (vars !! var) as [a|] eqn:Hlookup.
  - rewrite (variable_known vars var a Hlookup) in Hvar.
    injection Hvar as <- _. unfold continue. simpl. by rewrite Hlookup.
  - rewrite (variable_next vars var Hcons Hlookup) in Hvar.
    injection Hvar as <- _. unfold continue. simpl. by rewrite Hlookup.
Qed.

Lemma reg_or_var_table st st' operand :
  consecutive (variables st) →
  reg_or_var st operand = Ok st' →
  variables st' =
    continue (variables st)
      (if bool_decide (is_Some (registers !! operand)) then [] else [operand]).
Proof.
  intros Hcons. unfold reg_or_var. case_bool_decide as Hreg.
  - destruct Hreg as [code Hcode]. unfold Py.dict_getitem. rewrite Hcode.
    simpl. intros [= <-]. reflexivity.
  - destruct (variable (variables st) operand) as [[vars' code]|] eqn:Hvar;
      [|done].
    simpl. intros [= <-]. simpl.
    by apply (variable_continue _ _ _ code).
Qed.

Lemma comp_line_table st st' line :
  consecutive (variables st) →
  comp_line st line = Ok st' →
  variables st' = continue (variables st) (line_names line).
Proof.
  intros Hcons Hline. unfold line_names.
  destruct (Py.split line) as [|operator rest] eqn:Hsplit.
  { unfold comp_line in Hline. by rewrite Hsplit in Hline. }
  rewrite (comp_line_words st line operator rest Hsplit) in Hline.
  destruct (Py.startswith "label" operator) eqn:Hlabel.
  { injection Hline as <-. by destruct rest as [|? [|? ?]]. }
  case_bool_decide as Hjmp.
  { subst operator.
    assert (Py.dict_getitem operators "JMP" = Ok "0101") as Hop by by vm_compute.
    rewrite Hop in Hline. injection Hline as <-.
    by destruct rest as [|? [|? ?]]. }
  destruct (Py.dict_getitem operators operator) as [code|]; [|done].
  rewrite !getitem_lookup in Hline.
  destruct rest as [|operand1 [|operand2 rest]]; simpl in Hline; [done| |].
  { by destruct (reg_or_var (emit code st) operand1). }
  destruct (reg_or_var (emit code st) operand1) as [st2|] eqn:Hst2; [|done].
  simpl in Hline.
  pose proof (reg_or_var_table (emit code st) st2 operand1 Hcons Hst2)
    as Htable2.
  simpl in Htable2.
  simpl. rewrite continue_app, <- Htable2.
  destruct (Py.int10 operand2) as [n|]; simpl in Hline.
  - injection Hline as <-. reflexivity.
  - destruct (reg_or_var st2 operand2) as [st3|] eqn:Hst3; [|done].
    injection Hline as <-. simpl.
    rewrite ?bool_decide_eq_false_2 by by intros [? ?]. simpl.
    apply (reg_or_var_table st2 st3 operand2); [|done].
    rewrite Htable2. by apply consecutive_continue.
Qed.

Lemma comp_lines_table st st' lines :
  consecutive (variables st) →
  comp_lines st lines = Ok st' →
  variables st' = continue (variables st) (source_names lines).
Proof.
  revert st. induction lines as [|line lines IH]; intros st Hcons Hcomp.
  - injection Hcomp as <-. done.
  - rewrite comp_lines_cons in Hcomp.
    destruct (comp_line st line) as [st1|] eqn:Hst1; [|done].
    simpl in Hcomp.
    pose proof (comp_line_table st st1 line Hcons Hst1) as Htable.
    unfold source_names. rewrite fmap_cons. simpl concat.
    rewrite continue_app, <- Htable.
    apply IH; [|done]. rewrite Htable. by apply consecutive_continue.
Qed.

End Assignment.

(** C6. The first name handed to [variable] receives 32768; a new name
    handed to it later receives the largest address in the table plus one;
    a name already in the table keeps its address.  The table an encoding
    leaves behind is therefore fixed by the source alone: it numbers the
    variable names of the source from 32768 on, in the order in which they
    are first met. *)
Theorem variable_addressing (vars : gmap string Z) (var : string) :
  variable ∅ var = Ok ({[var := 32768]}, dec_to_bin 32768 16) ∧
  (vars ≠ ∅ → vars !! var = None →
     ∃ m, largest_address vars m ∧
          variable vars var = Ok (<[var := m + 1]> vars, dec_to_bin (m + 1) 16)) ∧
  (∀ a, vars !! var = Some a →
     variable vars var = Ok (vars, dec_to_bin a 16)) ∧
  (∀ assembly code table,
     compile assembly = Ok (code, table) →
     table = assign_from 32768 ∅
               (source_names (Py.split_nl (Py.strip assembly)))).
Proof.
  split; [apply variable_empty|].
  split.
  { intros Hne Hnew. destruct (max_values vars Hne) as (m & Hm & Hlargest).
    exists m. split; [done|]. by apply variable_new. }
  split; [intros a; apply variable_known|].
  intros assembly code table. unfold compile, comp.
  destruct (comp_lines _ _) as [st|] eqn:Hcomp; [|done].
  simpl. intros [= _ <-].
  apply (comp_lines_table (mkState "" 0 0 ∅) st _ consecutive_empty) in Hcomp.
  unfold continue in Hcomp. simpl in Hcomp.
  rewrite map_size_empty in Hcomp. exact Hcomp.
Qed.

Lemma variable_addressing_witness :
  variable ∅ "x" = Ok ({["x" := 32768]}, "1000000000000000") ∧
  (∃ m, largest_address {["x" := 32768]} m ∧
        variable {["x" := 32768]} "y" =
          Ok (<["y" := m + 1]> {["x" := 32768]}, dec_to_bin (m + 1) 16)) ∧
  variable {["x" := 32768]} "x" = Ok ({["x" := 32768]}, "1000000000000000") ∧
  ({["x" := 32768]} : gmap string Z) =
    assign_from 32768 ∅ (source_names (Py.split_nl (Py.strip "MOV x 17"))).
Proof.
  pose proof (variable_addressing {["x" := 32768]} "y") as (Hfirst & Hnew & _).
  pose proof (variable_addressing {["x" := 32768]} "x") as (_ & _ & Hknown & Htable).
  refine (conj (proj1 (variable_addressing ∅ "x")) (conj _ (conj _ _))).
  - apply Hnew; by_evaluation.
  - apply (Hknown 32768). by vm_compute.
  - apply (Htable "MOV x 17" "000010000000000000000000000000010001").
    by vm_compute.
Defined.

(** ** A whole program *)

(** The encoder and the CPU on the loop that multiplies by repeated
    addition: [x := 17; y := x + 2; z := 0; TO y DO z := z + x END] in
    assembly lines.  The run ends after the loop has fallen through, with
    17, 19 and 323 in the three slots. *)
Example multiplication_by_addition :
  run 200
    ("MOV x 17" +:+ Py.newline +:+ "MOV AC x" +:+ Py.newline +:+
     "ADD AC 2" +:+ Py.newline +:+ "MOV y AC" +:+ Py.newline +:+
     "MOV z 0" +:+ Py.newline +:+ "MOV ECX y" +:+ Py.newline +:+
     "label1:" +:+ Py.newline +:+ "ADD z x" +:+ Py.newline +:+
     "SUB ECX 1" +:+ Py.newline +:+ "JMP")
  = Some (Ok (mkCPU
      ["000010000000000000000000000000010001";
       "000011111111111111101000000000000000";
       "000111111111111111100000000000000010";
       "000010000000000000011111111111111110";
       "000010000000000000100000000000000000";
       "000011111111111111111000000000000001";
       "000110000000000000101000000000000000";
       "001011111111111111110000000000000001";
       "010100000000000001100000000000000000"]
      [17; 19; 323] 19 0 9
      (VStr "010100000000000001100000000000000000"))).
Proof. by vm_compute. Qed.

(** * Further properties of the virtual CPU *)

Section Cycle.

Implicit Types (c : CPU) (s : string) (ch : ascii).

Lemma bit_of_cases ch b :
  Py.bit_of ch = Some b → (ch = "0"%char ∧ b = 0) ∨ (ch = "1"%char ∧ b = 1).
Proof.
  destruct ch as [[] [] [] [] [] [] [] []]; simpl; intros H;
    try discriminate H; injection H as <-; auto.
Qed.

Lemma bits_value_nonneg s acc z :
  0 ≤ acc → Py.bits_value acc s = Some z → 0 ≤ z.
Proof.
  revert acc. induction s as [|ch s IH]; intros acc Hacc; simpl.
  - intros [= <-]. done.
  - destruct (Py.bit_of ch) as [b|] eqn:Hb; [|done].
    apply IH. apply bit_of_cases in Hb. lia.
Qed.

Lemma int2_nonneg s z : Py.int2 s = Ok z → 0 ≤ z.
Proof.
  unfold Py.int2. destruct s as [|ch s]; [done|].
  destruct (Py.bits_value 0 (String ch s)) as [z'|] eqn:Hz; [|done].
  intros [= <-]. by apply (bits_value_nonneg (String ch s) 0).
Qed.

(** What [jump] leaves alone. *)
Lemma jump_frame c operand c' :
  jump c operand = Ok c' →
  0 ≤ pc c' ∧ ir c' = ir c ∧ prog_memory c' = prog_memory c ∧
  data_memory c' = data_memory c.
Proof.
  unfold jump. destruct (Py.int2 operand) as [target|] eqn:Ht; [|done].
  intros [= <-]. simpl. split; [|done]. by apply (int2_nonneg operand).
Qed.

(** The two ways [execute] moves the program counter, and what it never
    touches. *)
Lemma execute_step c c' :
  execute c = Ok c' →
  (pc c' = pc c + 1 ∨ 0 ≤ pc c') ∧
  ir c' = ir c ∧ prog_memory c' = prog_memory c.
Proof.
  unfold execute. destruct (ir c) as [s|z] eqn:Hir; [|done].
  intros H.
  repeat match type of H with
    | (if bool_decide _ then _ else _) = _ => case_bool_decide
    end.
  - destruct (mov _ _ _) as [c1|] eqn:E; [|done]. injection H as <-.
    apply mov_frame in E as (Hpc & Hi & Hp). simpl. rewrite Hpc, Hi, Hp. auto.
  - destruct (add _ _ _) as [c1|] eqn:E; [|done]. injection H as <-.
    apply add_frame in E as (Hpc & Hi & Hp). simpl. rewrite Hpc, Hi, Hp. auto.
  - destruct (sub _ _ _) as [c1|] eqn:E; [|done]. injection H as <-.
    apply sub_frame in E as (Hpc & Hi & Hp). simpl. rewrite Hpc, Hi, Hp. auto.
  - destruct (mul _ _ _) as [c1|] eqn:E; [|done]. injection H as <-.
    apply mul_frame in E as (Hpc & Hi & Hp). simpl. rewrite Hpc, Hi, Hp. auto.
  - destruct (div _ _ _) as [c1|] eqn:E; [|done]. injection H as <-.
    apply div_frame in E as (Hpc & Hi & Hp). simpl. rewrite Hpc, Hi, Hp. auto.
  - destruct (0 <? ecx c).
    + apply jump_frame in H as (Hpc & Hi & Hp & _). rewrite Hi, Hp. auto.
    + injection H as <-. simpl. auto.
Qed.

(** With one of the five move and arithmetic opcodes in the instruction
    register, [execute] can only advance by one. *)
Lemma execute_arith_step c c' s :
  ir c = VStr s →
  Py.take 4 s ∈ move_arith_codes →
  execute c = Ok c' →
  pc c' = pc c + 1.
Proof.
  intros Hir Hop. unfold execute. rewrite Hir. intros H.
  repeat match type of H with
    | (if bool_decide _ then _ else _) = _ => case_bool_decide
    end.
  - destruct (mov _ _ _) as [c1|] eqn:E; [|done]. injection H as <-.
    apply mov_frame in E as (E & _). simpl. lia.
  - destruct (add _ _ _) as [c1|] eqn:E; [|done]. injection H as <-.
    apply add_frame in E as (E & _). simpl. lia.
  - destruct (sub _ _ _) as [c1|] eqn:E; [|done]. injection H as <-.
    apply sub_frame in E as (E & _). simpl. lia.
  - destruct (mul _ _ _) as [c1|] eqn:E; [|done]. injection H as <-.
    apply mul_frame in E as (E & _). simpl. lia.
  - destruct (div _ _ _) as [c1|] eqn:E; [|done]. injection H as <-.
    apply div_frame in E as (E & _). simpl. lia.
  - exfalso. unfold move_arith_codes in Hop.
    repeat (apply elem_of_cons in Hop as [Hop|Hop]; [done|]).
    by apply elem_of_nil in Hop.
Qed.

(** [fetch] on a program counter inside program memory. *)
Lemma fetch_inside c :
  0 ≤ pc c < Z.of_nat (length (prog_memory c)) →
  ∃ line, prog_memory c !! Z.to_nat (pc c) = Some line ∧
          fetch c = Ok (set_ir (VStr line) c).
Proof.
  intros Hpc. unfold fetch. rewrite getitem_nonneg by lia.
  destruct (prog_memory c !! Z.to_nat (pc c)) as [line|] eqn:Hline.
  - exists line. done.
  - apply lookup_ge_None in Hline. lia.
Qed.

End Cycle.

(** X1. [fetch] loads the line of program memory the program counter
    points at into the instruction register and changes nothing else; with
    the program counter at or beyond the end of program memory it raises
    [IndexError]. *)
Theorem fetch_bounds (c : CPU) :
  (0 ≤ pc c < Z.of_nat (length (prog_memory c)) →
     ∃ line, prog_memory c !! Z.to_nat (pc c) = Some line ∧
             fetch c = Ok (mkCPU (prog_memory c) (data_memory c) (ac c) (ecx c)
                             (pc c) (VStr line))) ∧
  (Z.of_nat (length (prog_memory c)) ≤ pc c → fetch c = Raise IndexError).
Proof.
  split.
  - intros Hpc. destruct (fetch_inside c Hpc) as (line & Hline & Hfetch).
    exists line. done.
  - intros Hpc. unfold fetch. rewrite getitem_nonneg by lia.
    rewrite lookup_ge_None_2 by lia. reflexivity.
Qed.

Lemma fetch_bounds_witness :
  (∃ line, ["0000"; "0101"] !! Z.to_nat 1 = Some line ∧
           fetch (mkCPU ["0000"; "0101"] [] 0 0 1 (VInt 0)) =
             Ok (mkCPU ["0000"; "0101"] [] 0 0 1 (VStr line))) ∧
  fetch (mkCPU ["0000"; "0101"] [] 0 0 2 (VInt 0)) = Raise IndexError.
Proof.
  split.
  - apply (proj1 (fetch_bounds (mkCPU ["0000"; "0101"] [] 0 0 1 (VInt 0)))).
    simpl. lia.
  - apply (proj2 (fetch_bounds (mkCPU ["0000"; "0101"] [] 0 0 2 (VInt 0)))).
    simpl. lia.
Defined.

(** ** Fields of binary digits *)

Section Fields.

Implicit Types (s : string) (n : nat).

Lemma bits_only_take n s : bits_only s = true → bits_only (Py.take n s) = true.
Proof.
  revert s. induction n as [|n IH]; intros [|ch s]; simpl; try done.
  intros (Hch & Hs)%andb_true_iff. rewrite Hch. simpl. by apply IH.
Qed.

Lemma bits_only_drop n s : bits_only s = true → bits_only (Py.drop n s) = true.
Proof.
  revert s. induction n as [|n IH]; intros [|ch s]; simpl; try done.
  intros (_ & Hs)%andb_true_iff. by apply IH.
Qed.

End Fields.

(** X2. The program counter never becomes negative.  For an instruction
    that consists of binary digits, as every line of the encoder's output
    does, [execute] either adds one to the program counter or sets it to
    the value of the first operand field, a run of binary digits, which is
    not negative.  (A field with a sign is outside the statement: Python's
    [int] reads it as a negative number.) *)
Theorem execute_pc_nonneg (c c' : CPU) (s : string)
    (Hir : ir c = VStr s)
    (Hbits : bits_only s = true)
    (Hpc : 0 ≤ pc c)
    (Hexec : execute c = Ok c') :
  0 ≤ pc c' ∧
  (pc c' = pc c + 1 ∨
   (0 < ecx c ∧ (Py.take 4 s ∉ move_arith_codes) ∧
    bits_only (Py.slice 4 20 s) = true ∧
    Py.int2 (Py.slice 4 20 s) = Ok (pc c'))).
Proof.
  assert (bits_only (Py.slice 4 20 s) = true) as Hfield.
  { unfold Py.slice. by apply bits_only_take, bits_only_drop. }
  destruct (Z.ltb_spec 0 (ecx c)) as [Hecx|Hecx];
    destruct (decide (Py.take 4 s ∈ move_arith_codes)) as [Hop|Hop].
  - pose proof (execute_arith_step c c' s Hir Hop Hexec).
    split; [lia|by left].
  - rewrite (execute_default c s Hir Hop) in Hexec.
    destruct (Z.ltb_spec 0 (ecx c)); [|lia].
    unfold jump in Hexec.
    destruct (Py.int2 (Py.slice 4 20 s)) as [target|] eqn:Htarget; [|done].
    injection Hexec as <-. simpl.
    split; [by apply (int2_nonneg (Py.slice 4 20 s))|]. right. done.
  - pose proof (execute_arith_step c c' s Hir Hop Hexec).
    split; [lia|by left].
  - rewrite (execute_default c s Hir Hop) in Hexec.
    destruct (Z.ltb_spec 0 (ecx c)); [lia|].
    injection Hexec as <-. simpl. split; [lia|by left].
Qed.

Lemma execute_pc_nonneg_witness :
  0 ≤ pc (mkCPU [] [] 0 2 6 (VStr "010100000000000001100000000000000000")) ∧
  (pc (mkCPU [] [] 0 2 6 (VStr "010100000000000001100000000000000000")) = 9 + 1 ∨
   (0 < 2 ∧
    (Py.take 4 "010100000000000001100000000000000000" ∉ move_arith_codes) ∧
    bits_only (Py.slice 4 20 "010100000000000001100000000000000000") = true ∧
    Py.int2 (Py.slice 4 20 "010100000000000001100000000000000000") = Ok 6)).
Proof.
  apply (execute_pc_nonneg
           (mkCPU [] [] 0 2 9 (VStr "010100000000000001100000000000000000"))
           (mkCPU [] [] 0 2 6 (VStr "010100000000000001100000000000000000"))
           "010100000000000001100000000000000000").
  - reflexivity.
  - reflexivity.
  - simpl. lia.
  - reflexivity.
Defined.

(** X3. Program memory is read-only: whatever a run of the fetch-execute
    cycle ends with, its program memory is the one it started with. *)
Theorem start_keeps_program (cycles : nat) (c c' : CPU)
    (Hrun : start cycles c = Some (Ok c')) :
  prog_memory c' = prog_memory c.
Proof.
  revert c Hrun. induction cycles as [|k IH]; intros c; simpl.
  - destruct (pc c <? _); [done|]. by intros [= <-].
  - destruct (pc c <? _); [|by intros [= <-]].
    unfold fetch. destruct (Py.getitem _ _) as [line|]; [|done]. simpl.
    destruct (execute _) as [c2|] eqn:Hexec; [|done].
    intros Hrun. rewrite (IH c2 Hrun).
    by destruct (execute_step _ _ Hexec) as (_ & _ & ->).
Qed.

Lemma start_keeps_program_witness :
  prog_memory (mkCPU ["000011111111111111100000000000000101"] [] 5 0 1
                 (VStr "000011111111111111100000000000000101"))
  = ["000011111111111111100000000000000101"].
Proof.
  apply (start_keeps_program 3 (init ["000011111111111111100000000000000101"])).
  reflexivity.
Defined.

(** X4. A program without loop-exit instructions cannot run on: when every
    line of program memory carries one of the five move and arithmetic
    opcodes, the cycle stops within as many turns as there are lines left,
    either by an exception or with the program counter at the end of
    program memory. *)
Theorem straight_line_halts (c : CPU)
    (Hpc : 0 ≤ pc c ≤ Z.of_nat (length (prog_memory c)))
    (Hcodes : Forall (λ line, Py.take 4 line ∈ move_arith_codes) (prog_memory c)) :
  ∃ r, start (Z.to_nat (Z.of_nat (length (prog_memory c)) - pc c)) c = Some r ∧
       ∀ c', r = Ok c' → pc c' = Z.of_nat (length (prog_memory c)).
Proof.
  remember (Z.to_nat (Z.of_nat (length (prog_memory c)) - pc c)) as k eqn:Hk.
  revert c Hpc Hcodes Hk. induction k as [|k IH]; intros c Hpc Hcodes Hk.
  - exists (Ok c). simpl.
    destruct (Z.ltb_spec (pc c) (Z.of_nat (length (prog_memory c)))); [lia|].
    split; [done|]. intros c' [= <-]. lia.
  - simpl. destruct (Z.ltb_spec (pc c) (Z.of_nat (length (prog_memory c)))); [|lia].
    destruct (fetch_inside c) as (line & Hline & ->); [lia|].
    destruct (execute (set_ir (VStr line) c)) as [c2|e] eqn:Hexec.
    + destruct (execute_step _ _ Hexec) as (_ & _ & Hprog). simpl in Hprog.
      assert (pc c2 = pc c + 1) as Hnext.
      { apply (execute_arith_step (set_ir (VStr line) c) c2 line) in Hexec;
          [done|done|].
        apply (proj1 (Forall_lookup _ _) Hcodes _ _ Hline). }
      destruct (IH c2) as (r & Hr & Hend).
      * rewrite Hprog, Hnext. lia.
      * by rewrite Hprog.
      * rewrite Hprog, Hnext. lia.
      * exists r. split; [done|]. intros c' Hc'. rewrite (Hend c' Hc').
        by rewrite Hprog.
    + exists (Raise e). split; [done|]. done.
Qed.

Lemma straight_line_halts_witness :
  ∃ r, start 2 (init ["000011111111111111100000000000000101";
                      "000111111111111111100000000000000010"]) = Some r ∧
       ∀ c', r = Ok c' → pc c' = 2.
Proof.
  apply (straight_line_halts
           (init ["000011111111111111100000000000000101";
                  "000111111111111111100000000000000010"])).
  - simpl. lia.
  - repeat constructor; by_evaluation.
Defined.

(** ** What a move writes *)

Section Writes.

Implicit Types (c : CPU) (ident v : Z).

Lemma setitem_inside {A : Type} (l l' : list A) (i : Z) (x : A) :
  Py.setitem l i x = Ok l' →
  ∃ j, (j < length l)%nat ∧ l' = <[j := x]> l.
Proof.
  unfold Py.setitem.
  destruct (_ || _) eqn:Hout; [done|]. intros [= <-].
  apply orb_false_iff in Hout as [Hlow Hhigh].
  apply Z.ltb_ge in Hlow. apply Z.leb_gt in Hhigh.
  eexists. split; [|done]. lia.
Qed.

Lemma mov_single_write c operand1 operand2 c' :
  mov c operand1 operand2 = Ok c' → single_write c c'.
Proof.
  unfold mov, single_write.
  destruct (Py.int2 operand1) as [ident|]; [|done]. simpl.
  destruct (ident <? 65534).
  - destruct (_ <? _).
    + destruct (get_data c operand2) as [v|]; [|done]. intros [= <-].
      right. right. simpl. split; [done|]. split; [done|].
      exists v. by left.
    + destruct (get_data c operand2) as [v|]; [|done]. simpl.
      destruct (Py.setitem _ _ _) as [d|] eqn:Hset; [|done]. intros [= <-].
      apply setitem_inside in Hset as (j & Hj & ->).
      right. right. simpl. split; [done|]. split; [done|].
      exists v. right. by exists j.
  - destruct (ident =? 65534).
    + destruct (get_data c operand2) as [v|]; [|done]. intros [= <-].
      left. done.
    + destruct (get_data c operand2) as [v|]; [|done]. intros [= <-].
      right. left. done.
Qed.

Lemma add_single_write c operand1 operand2 c' :
  add c operand1 operand2 = Ok c' → single_write c c'.
Proof.
  unfold add. intros H.
  destruct (get_data c (VStr operand1)); [|done].
  destruct (get_data c (VStr operand2)); [|done].
  by apply mov_single_write in H.
Qed.

Lemma sub_single_write c operand1 operand2 c' :
  sub c operand1 operand2 = Ok c' → single_write c c'.
Proof.
  unfold sub. intros H.
  destruct (get_data c (VStr operand1)); [|done].
  destruct (get_data c (VStr operand2)); [|done].
  by apply mov_single_write in H.
Qed.

Lemma mul_single_write c operand1 operand2 c' :
  mul c operand1 operand2 = Ok c' → single_write c c'.
Proof.
  unfold mul. intros H.
  destruct (get_data c (VStr operand1)); [|done].
  destruct (get_data c (VStr operand2)); [|done].
  by apply mov_single_write in H.
Qed.

Lemma div_single_write c operand1 operand2 c' :
  div c operand1 operand2 = Ok c' → single_write c c'.
Proof.
  unfold div. intros H.
  destruct (get_data c (VStr operand1)); [|done].
  destruct (get_data c (VStr operand2)) as [b|]; [|done].
  simpl in H. destruct (b =? 0); [done|].
  by apply mov_single_write in H.
Qed.

Lemma execute_single_write c c' :
  execute c = Ok c' → single_write c c'.
Proof.
  assert (∀ c1, single_write c c1 → single_write c (next_pc c1)) as Hnext
    by done.
  unfold execute. destruct (ir c) as [s|z]; [|done]. intros H.
  repeat match type of H with
    | (if bool_decide _ then _ else _) = _ => case_bool_decide
    end.
  - destruct (mov _ _ _) as [c1|] eqn:E; [|done]. injection H as <-.
    apply Hnext. by apply mov_single_write in E.
  - destruct (add _ _ _) as [c1|] eqn:E; [|done]. injection H as <-.
    apply Hnext. by apply add_single_write in E.
  - destruct (sub _ _ _) as [c1|] eqn:E; [|done]. injection H as <-.
    apply Hnext. by apply sub_single_write in E.
  - destruct (mul _ _ _) as [c1|] eqn:E; [|done]. injection H as <-.
    apply Hnext. by apply mul_single_write in E.
  - destruct (div _ _ _) as [c1|] eqn:E; [|done]. injection H as <-.
    apply Hnext. by apply div_single_write in E.
  - left. destruct (0 <? ecx c).
    + unfold jump in H. destruct (Py.int2 _); [|done]. by injection H as <-.
    + by injection H as <-.
Qed.

End Writes.

(** X5. What a move writes can be read back: after a move to a register,
    or to a variable slot that exists or is the next one after the last,
    resolving the destination operand yields the value moved. *)
Theorem mov_read_back (c : CPU) (operand1 : string) (operand2 : value)
    (ident v : Z)
    (Hident : Py.int2 operand1 = Ok ident)
    (Hdest : 32768 ≤ ident)
    (Hslot : ident < 65534 →
             ident - 32768 ≤ Z.of_nat (length (data_memory c)))
    (Hsource : get_data c operand2 = Ok v) :
  ∃ c', mov c operand1 operand2 = Ok c' ∧ get_data c' (VStr operand1) = Ok v.
Proof.
  assert (∀ c', get_data c' (VStr operand1) = get_data c' (VInt ident)) as Hread.
  { intros c'. by rewrite get_data_str, Hident. }
  destruct (Z.ltb_spec ident 65534) as [Hvar|Hreg].
  - specialize (Hslot Hvar).
    rewrite (mov_slot c operand1 operand2 ident v Hident Hsource Hvar).
    destruct (Z.ltb_spec (Z.of_nat (length (data_memory c))) (ident - 32768 + 1)).
    + eexists. split; [done|]. rewrite Hread, get_data_int.
      destruct (Z.ltb_spec ident 32768); [lia|].
      destruct (Z.ltb_spec ident 65534); [|lia].
      rewrite getitem_nonneg by lia. simpl.
      replace (Z.to_nat (ident - 32768)) with (length (data_memory c) + 0)%nat
        by lia.
      by rewrite lookup_app_r, Nat.add_comm, Nat.add_sub by lia.
    + rewrite setitem_nonneg by lia. eexists. split; [done|].
      rewrite Hread, get_data_int.
      destruct (Z.ltb_spec ident 32768); [lia|].
      destruct (Z.ltb_spec ident 65534); [|lia].
      rewrite getitem_nonneg by lia. simpl.
      by rewrite list_lookup_insert_eq by lia.
  - unfold mov. rewrite Hident. simpl.
    destruct (Z.ltb_spec ident 65534); [lia|]. rewrite Hsource. simpl.
    destruct (Z.eqb_spec ident 65534) as [->|Hne].
    + eexists. split; [done|]. by rewrite Hread.
    + eexists. split; [done|]. rewrite Hread, get_data_int.
      destruct (Z.ltb_spec ident 32768); [lia|].
      destruct (Z.ltb_spec ident 65534); [lia|].
      destruct (Z.eqb_spec ident 65534); [lia|done].
Qed.

Lemma mov_read_back_witness :
  ∃ c', mov (mkCPU [] [4] 0 0 0 (VInt 0)) "1000000000000001"
          (VStr "0000000000000111") = Ok c' ∧
        get_data c' (VStr "1000000000000001") = Ok 7.
Proof.
  apply (mov_read_back _ _ _ 32769 7); try reflexivity; simpl; lia.
Defined.

(** X6. A move to a variable slot beyond the next free one is lost to its
    own address: the value is stored in the new last slot, and resolving
    the destination operand afterwards raises [IndexError]. *)
Theorem mov_beyond_end_unreadable (c : CPU) (operand1 : string)
    (operand2 : value) (ident v : Z)
    (Hident : Py.int2 operand1 = Ok ident)
    (Hrange : 32768 ≤ ident < 65534)
    (Hgap : Z.of_nat (length (data_memory c)) < ident - 32768)
    (Hsource : get_data c operand2 = Ok v) :
  ∃ c', mov c operand1 operand2 = Ok c' ∧
        data_memory c' !! length (data_memory c) = Some v ∧
        get_data c' (VStr operand1) = Raise IndexError.
Proof.
  rewrite (mov_slot c operand1 operand2 ident v Hident Hsource) by lia.
  destruct (Z.ltb_spec (Z.of_nat (length (data_memory c))) (ident - 32768 + 1));
    [|lia].
  eexists. split; [done|]. simpl. split.
  - replace (length (data_memory c)) with (length (data_memory c) + 0)%nat at 1
      by lia.
    by rewrite lookup_app_r, Nat.add_comm, Nat.add_sub by lia.
  - rewrite get_data_str, Hident. simpl. rewrite get_data_int.
    destruct (Z.ltb_spec ident 32768); [lia|].
    destruct (Z.ltb_spec ident 65534); [|lia].
    rewrite getitem_nonneg by lia. simpl.
    rewrite lookup_ge_None_2; [done|]. rewrite List.length_app. simpl. lia.
Qed.

Lemma mov_beyond_end_unreadable_witness :
  ∃ c', mov (init []) "1000000000000010" (VStr "0000000000000111") = Ok c' ∧
        data_memory c' !! length (data_memory (init [])) = Some 7 ∧
        get_data c' (VStr "1000000000000010") = Raise IndexError.
Proof.
  apply (mov_beyond_end_unreadable _ _ _ 32770 7); try reflexivity; simpl; lia.
Defined.

(** X7. An instruction has a single destination: [execute] changes one
    register, or one slot of data memory, or appends one slot, and leaves
    every other register and slot as it was; data memory never shrinks and
    grows by at most one slot. *)
Theorem execute_writes_one_place (c c' : CPU) (Hexec : execute c = Ok c') :
  single_write c c' ∧
  (length (data_memory c) ≤ length (data_memory c') ≤
     length (data_memory c) + 1)%nat.
Proof.
  pose proof (execute_single_write c c' Hexec) as Hone.
  split; [done|].
  destruct Hone as [[-> _]|[[-> _]|(_ & _ & v & [->|(i & _ & ->)])]].
  - lia.
  - lia.
  - rewrite List.length_app. simpl. lia.
  - rewrite length_insert. lia.
Qed.

Lemma execute_writes_one_place_witness :
  single_write
    (mkCPU [] [17] 0 0 0 (VStr "000110000000000000000000000000000010"))
    (mkCPU [] [19] 0 0 1 (VStr "000110000000000000000000000000000010")).
Proof.
  apply (execute_writes_one_place
           (mkCPU [] [17] 0 0 0 (VStr "000110000000000000000000000000000010"))).
  reflexivity.
Defined.

(** * Further properties of the encoder *)

(** ** The alphabet of the bytecode *)

Section Alphabet.

Implicit Types (s t : string) (st : comp_state).

Lemma bits_only_app s t : bits_only (s +:+ t) = bits_only s && bits_only t.
Proof.
  induction s as [|c s IH]; [done|]. rewrite app_cons. simpl.
  by rewrite IH, andb_assoc.
Qed.

Lemma code_only_app s t : code_only (s +:+ t) = code_only s && code_only t.
Proof.
  induction s as [|c s IH]; [done|]. rewrite app_cons. simpl.
  by rewrite IH, andb_assoc.
Qed.

Lemma bits_only_code s : bits_only s = true → code_only s = true.
Proof.
  induction s as [|c s IH]; [done|]. simpl.
  intros [Hc Hs]%andb_true_iff. rewrite Hc, (IH Hs). done.
Qed.

Lemma bits_only_zeros n : bits_only (Py.repeat "0" n) = true.
Proof. induction n as [|n IH]; [done|]. exact IH. Qed.

Lemma bits_only_pos_bits p : bits_only (pos_bits p) = true.
Proof.
  induction p as [q IH|q IH|]; simpl; [| |done];
    by rewrite bits_only_app, IH.
Qed.

Lemma dec_to_bin_nonpos n (k : Z) :
  n ≤ 0 → dec_to_bin n k = Py.repeat "0" (Z.to_nat k).
Proof.
  intros Hn. unfold dec_to_bin. rewrite dec_to_bin_loop_nonpos by done.
  change (Py.len "") with 0. rewrite Z.sub_0_r.
  destruct (Z.ltb_spec 0 k); [by rewrite app_nil_r|].
  by replace (Z.to_nat k) with 0%nat by lia.
Qed.

Lemma bits_only_dec_to_bin n (k : Z) : bits_only (dec_to_bin n k) = true.
Proof.
  destruct n as [|p|p].
  - rewrite dec_to_bin_nonpos by lia. apply bits_only_zeros.
  - rewrite dec_to_bin_pos. destruct (_ <? _).
    + by rewrite bits_only_app, bits_only_zeros, bits_only_pos_bits.
    + apply bits_only_pos_bits.
  - rewrite dec_to_bin_nonpos by lia. apply bits_only_zeros.
Qed.

Lemma operators_bits operator code :
  operators !! operator = Some code →
  bits_only code = true ∧ String.length code = 4%nat.
Proof.
  assert (map_Forall (λ _ code, bits_only code = true ∧ String.length code = 4%nat)
            operators) as Hall by by_evaluation.
  apply Hall.
Qed.

Lemma registers_bits operand code :
  registers !! operand = Some code →
  bits_only code = true ∧ String.length code = 16%nat ∧
  (code = "1111111111111110" ∨ code = "1111111111111111").
Proof.
  assert (map_Forall (λ _ code, bits_only code = true ∧
                                String.length code = 16%nat ∧
                                (code = "1111111111111110" ∨
                                 code = "1111111111111111"))
            registers) as Hall by by_evaluation.
  apply Hall.
Qed.

End Alphabet.

Section Emitted.

Implicit Types (s t : string) (st : comp_state).

Lemma variable_address vars var vars' code :
  variable vars var = Ok (vars', code) →
  ∃ a, vars' !! var = Some a ∧ code = dec_to_bin a 16.
Proof.
  intros Hvar. destruct (variable_total vars var) as (vars2 & a & Heq & Ha).
  rewrite Heq in Hvar. injection Hvar as <- <-. by exists a.
Qed.

(** What [reg_or_var] appends, and what it stands for. *)
Lemma reg_or_var_field st st' operand :
  reg_or_var st operand = Ok st' →
  ∃ field,
    bytecode st' = bytecode st +:+ field ∧
    instr_count st' = instr_count st ∧ label st' = label st ∧
    match registers !! operand with
    | Some code => field = code ∧ variables st' = variables st
    | None => ∃ a, variables st' !! operand = Some a ∧
                   field = dec_to_bin a 16
    end.
Proof.
  unfold reg_or_var. case_bool_decide as Hreg.
  - destruct Hreg as [code Hcode]. unfold Py.dict_getitem. rewrite Hcode.
    simpl. intros [= <-]. by exists code.
  - destruct (registers !! operand) as [code|] eqn:Hcode.
    { exfalso. apply Hreg. by eexists. }
    destruct (variable _ _) as [[vars' code]|] eqn:Hvar; [|done].
    simpl. intros [= <-].
    apply variable_address in Hvar as (a & Ha & ->).
    exists (dec_to_bin a 16). simpl.
    split; [done|]. split; [done|]. split; [done|]. by exists a.
Qed.

Lemma reg_or_var_bits st st' operand :
  reg_or_var st operand = Ok st' →
  ∃ field, bytecode st' = bytecode st +:+ field ∧ bits_only field = true.
Proof.
  intros H. apply reg_or_var_field in H as (field & Hcode & _ & _ & Hfield).
  exists field. split; [done|].
  destruct (registers !! operand) as [code|] eqn:Hreg.
  - destruct Hfield as [-> _]. by apply (registers_bits operand).
  - destruct Hfield as (a & _ & ->). apply bits_only_dec_to_bin.
Qed.

(** The shape of a successful turn on a line that is neither a label
    marker nor a loop exit. *)
Lemma comp_line_operands st st' line operator operand1 operand2 rest :
  Py.split line = operator :: operand1 :: operand2 :: rest →
  Py.startswith "label" operator = false →
  operator ≠ "JMP" →
  comp_line st line = Ok st' →
  ∃ opcode st2 st3,
    operators !! operator = Some opcode ∧
    reg_or_var (emit opcode st) operand1 = Ok st2 ∧
    match Py.int10 operand2 with
    | Some n => st3 = emit (dec_to_bin n 16) st2
    | None => reg_or_var st2 operand2 = Ok st3
    end ∧
    st' = mkState (bytecode st3 +:+ Py.newline) (instr_count st3 + 1)
            (label st3) (variables st3).
Proof.
  intros Hsplit Hlabel Hjmp Hline.
  rewrite (comp_line_words st line _ _ Hsplit), Hlabel in Hline.
  rewrite bool_decide_eq_false_2 in Hline by done.
  unfold Py.dict_getitem in Hline.
  destruct (operators !! operator) as [opcode|]; [|done].
  rewrite !getitem_lookup in Hline. simpl in Hline.
  destruct (reg_or_var (emit opcode st) operand1) as [st2|] eqn:Hst2; [|done].
  simpl in Hline. exists opcode, st2.
  destruct (Py.int10 operand2) as [n|]; simpl in Hline.
  - injection Hline as <-. by eexists.
  - destruct (reg_or_var st2 operand2) as [st3|] eqn:Hst3; [|done].
    injection Hline as <-. by exists st3.
Qed.

(** Every turn of the loop appends binary digits and line feeds only. *)
Lemma comp_line_emitted st st' line :
  comp_line st line = Ok st' →
  ∃ emitted, bytecode st' = bytecode st +:+ emitted ∧
             code_only emitted = true.
Proof.
  intros Hline.
  destruct (Py.split line) as [|operator rest] eqn:Hsplit.
  { unfold comp_line in Hline. by rewrite Hsplit in Hline. }
  destruct (is_label line) eqn:Hlabel.
  { rewrite comp_line_label in Hline by done. injection Hline as <-.
    exists "". by rewrite app_nil_r. }
  destruct (is_jmp line) eqn:Hjmp.
  { rewrite comp_line_jmp in Hline by done. injection Hline as <-.
    eexists. split; [done|].
    rewrite !code_only_app, (bits_only_code _ (bits_only_dec_to_bin _ _)).
    done. }
  unfold is_label in Hlabel. unfold is_jmp in Hjmp. rewrite Hsplit in Hlabel, Hjmp.
  apply bool_decide_eq_false in Hjmp.
  pose proof (comp_line_cases st line) as Hcases.
  rewrite Hsplit, Hlabel in Hcases.
  destruct (operators !! operator) as [opcode0|] eqn:Hop; [|congruence].
  rewrite bool_decide_eq_false_2 in Hcases by done.
  destruct rest as [|operand1 [|operand2 rest]]; [congruence..|]. clear Hcases.
  destruct (comp_line_operands st st' line _ _ _ _ Hsplit Hlabel Hjmp Hline)
    as (opcode & st2 & st3 & Hopcode & Hst2 & Hst3 & ->).
  apply reg_or_var_bits in Hst2 as (f1 & Hb2 & Hf1). simpl in Hb2.
  assert (∃ f2, bytecode st3 = bytecode st2 +:+ f2 ∧ bits_only f2 = true)
    as (f2 & Hb3 & Hf2).
  { destruct (Py.int10 operand2) as [n|].
    - subst st3. eexists. split; [done|]. apply bits_only_dec_to_bin.
    - by apply reg_or_var_bits in Hst3. }
  exists (opcode +:+ f1 +:+ f2 +:+ Py.newline). simpl.
  rewrite Hb3, Hb2, !app_assoc. split; [done|].
  rewrite !code_only_app.
  rewrite (bits_only_code _ (proj1 (operators_bits _ _ Hopcode))).
  by rewrite (bits_only_code _ Hf1), (bits_only_code _ Hf2).
Qed.

Lemma comp_lines_emitted st st' lines :
  comp_lines st lines = Ok st' →
  ∃ emitted, bytecode st' = bytecode st +:+ emitted ∧
             code_only emitted = true.
Proof.
  revert st. induction lines as [|line lines IH]; intros st Hcomp.
  - injection Hcomp as <-. exists "". by rewrite app_nil_r.
  - rewrite comp_lines_cons in Hcomp.
    destruct (comp_line st line) as [st1|] eqn:Hst1; [|done].
    simpl in Hcomp.
    apply comp_line_emitted in Hst1 as (e1 & He1 & Hc1).
    apply IH in Hcomp as (e2 & He2 & Hc2).
    exists (e1 +:+ e2). rewrite He2, He1, app_assoc. split; [done|].
    by rewrite code_only_app, Hc1, Hc2.
Qed.

Lemma code_only_lstrip s : code_only s = true → code_only (Py.lstrip s) = true.
Proof.
  induction s as [|c s IH]; [done|]. simpl.
  destruct (Ascii.is_space c); [|done].
  intros [_ Hs]%andb_true_iff. by apply IH.
Qed.

Lemma code_only_rev_app s t :
  code_only (String.rev_app s t) = code_only s && code_only t.
Proof.
  revert t. induction s as [|c s IH]; intros t; [done|]. simpl.
  rewrite IH. simpl.
  destruct (bool_decide _ || bool_decide _), (code_only s), (code_only t); done.
Qed.

Lemma code_only_strip s : code_only s = true → code_only (Py.strip s) = true.
Proof.
  intros Hs. unfold Py.strip, String.rev.
  rewrite code_only_rev_app, andb_true_r.
  apply code_only_lstrip. rewrite code_only_rev_app, andb_true_r.
  by apply code_only_lstrip.
Qed.

Lemma split_nl_bits s :
  code_only s = true → Forall (λ line, bits_only line = true) (Py.split_nl s).
Proof.
  induction s as [|c s IH]; simpl.
  - intros _. by repeat constructor.
  - intros [Hc Hs]%andb_true_iff. specialize (IH Hs).
    destruct (decide (c = "010"%char)) as [Hnl|Hnl].
    + rewrite bool_decide_eq_true_2 by done. by constructor.
    + rewrite (bool_decide_eq_false_2 _ Hnl), orb_false_r in Hc.
      rewrite (bool_decide_eq_false_2 _ Hnl).
      destruct (Py.split_nl s) as [|piece rest].
      * repeat constructor. simpl. by rewrite Hc.
      * apply Forall_cons in IH as [Hpiece Hrest].
        constructor; [|done]. simpl. by rewrite Hc, Hpiece.
Qed.

End Emitted.

(** X8. The bytecode holds nothing but binary digits: every line of the
    text the encoder returns consists of the characters 0 and 1 only, so
    each operand field the CPU cuts from a line is a run of binary
    digits. *)
Theorem bytecode_alphabet (assembly code : string) (table : gmap string Z)
    (Hcompile : compile assembly = Ok (code, table)) :
  Forall (λ line, bits_only line = true) (Py.split_nl code).
Proof.
  unfold compile, comp in Hcompile.
  destruct (comp_lines _ _) as [st|] eqn:Hcomp; [|done].
  simpl in Hcompile. injection Hcompile as <- _.
  apply comp_lines_emitted in Hcomp as (emitted & -> & Hcode).
  apply split_nl_bits, code_only_strip. exact Hcode.
Qed.

Lemma bytecode_alphabet_witness :
  Forall (λ line, bits_only line = true)
    (Py.split_nl ("000010000000000000000000000000010001" +:+ Py.newline +:+
                  "010100000000000000000000000000000000")).
Proof.
  apply (bytecode_alphabet ("MOV x 17" +:+ Py.newline +:+ "JMP") _
           {["x" := 32768]}).
  by vm_compute.
Defined.

(** ** Jump targets *)

Section Targets.

Implicit Types (st : comp_state) (line : string) (lines : list string).

Lemma comp_line_target st st' line :
  comp_line st line = Ok st' →
  0 ≤ label st ≤ instr_count st →
  0 ≤ label st' ≤ instr_count st'.
Proof.
  intros Hline Hinv. destruct (is_label line) eqn:Hlabel.
  - rewrite comp_line_label in Hline by done. injection Hline as <-.
    simpl. lia.
  - destruct (comp_line_emits st st' line Hlabel Hline) as [-> ->]. lia.
Qed.

Lemma comp_lines_target st st' lines :
  comp_lines st lines = Ok st' →
  0 ≤ label st ≤ instr_count st →
  0 ≤ label st' ≤ instr_count st'.
Proof.
  revert st. induction lines as [|line lines IH]; intros st Hcomp Hinv.
  - by injection Hcomp as <-.
  - rewrite comp_lines_cons in Hcomp.
    destruct (comp_line st line) as [st1|] eqn:Hst1; [|done].
    simpl in Hcomp. apply (IH st1 Hcomp).
    by apply (comp_line_target st st1 line).
Qed.

End Targets.

(** X10. A loop exit never jumps forward.  When the encoder reaches a
    loop-exit line after any lines of a text, the target it encodes is a
    count of instructions between zero and the position of the loop-exit
    instruction itself. *)
Theorem jump_target_not_ahead (vars : gmap string Z) (lines : list string)
    (jmp : string) (st st' : comp_state)
    (Hbefore : comp_lines (mkState "" 0 0 vars) lines = Ok st)
    (Hjmp : is_jmp jmp = true)
    (Hline : comp_line st jmp = Ok st') :
  0 ≤ label st ≤ instr_count st ∧
  instr_count st' = instr_count st + 1 ∧
  bytecode st' =
    bytecode st +:+ "0101" +:+ dec_to_bin (label st) 16 +:+
    "0000000000000000" +:+ Py.newline.
Proof.
  split.
  - apply (comp_lines_target _ _ _ Hbefore). simpl. lia.
  - rewrite (comp_line_jmp st jmp Hjmp) in Hline. injection Hline as <-.
    done.
Qed.

Lemma jump_target_not_ahead_witness :
  0 ≤ label (mkState ("000011111111111111100000000000000001" +:+ Py.newline)
               1 1 ∅)
    ≤ instr_count (mkState ("000011111111111111100000000000000001" +:+
                            Py.newline) 1 1 ∅).
Proof.
  refine (proj1 (jump_target_not_ahead ∅ ["MOV AC 1"; "label1:"] "JMP" _
                   (mkState ("000011111111111111100000000000000001" +:+
                             Py.newline +:+
                             "010100000000000000010000000000000000" +:+
                             Py.newline) 2 1 ∅) _ _ _)).
  - by vm_compute.
  - reflexivity.
  - by vm_compute.
Defined.

(** ** The table during an encoding *)

Section Table.

Implicit Types (st : comp_state) (vars : gmap string Z).

Lemma variable_extends vars var vars' code :
  variable vars var = Ok (vars', code) → vars ⊆ vars'.
Proof.
  intros Hvar. destruct (vars !! var) as [a|] eqn:Hlookup.
  { rewrite (variable_known vars var a Hlookup) in Hvar. by injection Hvar as <- _. }
  destruct (decide (vars = ∅)) as [->|Hne].
  { apply map_empty_subseteq. }
  destruct (max_values vars Hne) as (m & Hm & _).
  rewrite (variable_new vars var m Hne Hlookup Hm) in Hvar.
  injection Hvar as <- _. by apply insert_subseteq.
Qed.

Lemma reg_or_var_extends st st' operand :
  reg_or_var st operand = Ok st' → variables st ⊆ variables st'.
Proof.
  unfold reg_or_var. case_bool_decide.
  - destruct (Py.dict_getitem _ _); [|done]. simpl. by intros [= <-].
  - destruct (variable _ _) as [[vars' code]|] eqn:Hvar; [|done].
    simpl. intros [= <-]. simpl. by apply variable_extends in Hvar.
Qed.

Lemma comp_line_extends st st' line :
  comp_line st line = Ok st' → variables st ⊆ variables st'.
Proof.
  intros Hline.
  destruct (Py.split line) as [|operator rest] eqn:Hsplit.
  { unfold comp_line in Hline. by rewrite Hsplit in Hline. }
  destruct (is_label line) eqn:Hlabel.
  { rewrite comp_line_label in Hline by done. by injection Hline as <-. }
  destruct (is_jmp line) eqn:Hjmp.
  { rewrite comp_line_jmp in Hline by done. by injection Hline as <-. }
  unfold is_label in Hlabel. unfold is_jmp in Hjmp. rewrite Hsplit in Hlabel, Hjmp.
  apply bool_decide_eq_false in Hjmp.
  pose proof (comp_line_cases st line) as Hcases.
  rewrite Hsplit, Hlabel in Hcases.
  destruct (operators !! operator) as [opcode0|] eqn:Hop; [|congruence].
  rewrite bool_decide_eq_false_2 in Hcases by done.
  destruct rest as [|operand1 [|operand2 rest]]; [congruence..|]. clear Hcases.
  destruct (comp_line_operands st st' line _ _ _ _ Hsplit Hlabel Hjmp Hline)
    as (opcode & st2 & st3 & Hopcode & Hst2 & Hst3 & ->). simpl.
  apply reg_or_var_extends in Hst2. simpl in Hst2.
  etrans; [exact Hst2|].
  destruct (Py.int10 operand2).
  - by subst st3.
  - by apply reg_or_var_extends in Hst3.
Qed.

Lemma comp_lines_extends st st' lines :
  comp_lines st lines = Ok st' → variables st ⊆ variables st'.
Proof.
  revert st. induction lines as [|line lines IH]; intros st Hcomp.
  - by injection Hcomp as <-.
  - rewrite comp_lines_cons in Hcomp.
    destruct (comp_line st line) as [st1|] eqn:Hst1; [|done].
    simpl in Hcomp. etrans; [by apply (comp_line_extends st st1 line)|].
    by apply IH.
Qed.

Lemma distinct_empty : distinct_addresses ∅.
Proof. intros x y a Hx. by rewrite lookup_empty in Hx. Qed.

Lemma distinct_insert vars var :
  consecutive vars → distinct_addresses vars → vars !! var = None →
  distinct_addresses (<[var := 32768 + Z.of_nat (size vars)]> vars).
Proof.
  intros Hcons Hdist Hnew x y a Hx Hy.
  assert (∀ z b, vars !! z = Some b → b ≠ 32768 + Z.of_nat (size vars)) as Hold.
  { intros z b Hz. pose proof (proj1 (Hcons b) (ex_intro _ z Hz)). lia. }
  destruct (decide (x = var)) as [->|Hxv], (decide (y = var)) as [->|Hyv];
    [done|..].
  - rewrite lookup_insert_eq in Hx. rewrite lookup_insert_ne in Hy by done.
    injection Hx as <-. by destruct (Hold y _ Hy).
  - rewrite lookup_insert_eq in Hy. rewrite lookup_insert_ne in Hx by done.
    injection Hy as <-. by destruct (Hold x _ Hx).
  - rewrite lookup_insert_ne in Hx, Hy by done. by apply (Hdist x y a).
Qed.

Lemma distinct_continue vars names :
  consecutive vars → distinct_addresses vars →
  distinct_addresses (continue vars names).
Proof.
  revert vars. induction names as [|name names IH]; intros vars Hcons Hdist;
    [done|].
  destruct (vars !! name) as [a|] eqn:Hname.
  - rewrite (continue_known vars name _ a Hname). by apply IH.
  - rewrite (continue_new vars name _ Hname).
    apply IH; [by apply consecutive_insert|by apply distinct_insert].
Qed.

End Table.

(** X11. Addresses are stable during an encoding: the loop over the lines
    only adds names to the symbol table, so a name keeps the address it
    has, whatever lines follow. *)
Theorem comp_keeps_addresses (st st' : comp_state) (lines : list string)
    (name : string) (a : Z)
    (Hcomp : comp_lines st lines = Ok st')
    (Hname : variables st !! name = Some a) :
  variables st' !! name = Some a.
Proof.
  apply comp_lines_extends in Hcomp.
  by apply (lookup_weaken _ _ _ _ Hname).
Qed.

Lemma comp_keeps_addresses_witness :
  variables (mkState ("000010000000000000010000000000000001" +:+ Py.newline)
               1 0 {["y" := 32769; "x" := 32768]}) !! "x" = Some 32768.
Proof.
  apply (comp_keeps_addresses (mkState "" 0 0 {["x" := 32768]}) _ ["MOV y 1"]).
  - by vm_compute.
  - by vm_compute.
Defined.

(** X12. The table an encoding leaves behind gives every name an address
    of its own, and the addresses are the numbers from 32768 up to 32768
    plus the number of names, exclusive: no address is a constant, none is
    skipped, none is shared. *)
Theorem compiled_table_addresses (assembly code : string)
    (table : gmap string Z)
    (Hcompile : compile assembly = Ok (code, table)) :
  distinct_addresses table ∧
  ∀ a, (∃ name, table !! name = Some a) ↔
       32768 ≤ a < 32768 + Z.of_nat (size table).
Proof.
  unfold compile, comp in Hcompile.
  destruct (comp_lines _ _) as [st|] eqn:Hcomp; [|done].
  simpl in Hcompile. injection Hcompile as _ <-.
  apply (comp_lines_table (mkState "" 0 0 ∅) st _ consecutive_empty) in Hcomp.
  simpl in Hcomp. rewrite Hcomp. split.
  - apply distinct_continue; [apply consecutive_empty|apply distinct_empty].
  - apply (consecutive_continue ∅ _ consecutive_empty).
Qed.

Lemma compiled_table_addresses_witness :
  distinct_addresses ({["y" := 32769; "x" := 32768]} : gmap string Z) ∧
  ∀ a, (∃ name, ({["y" := 32769; "x" := 32768]} : gmap string Z) !! name = Some a) ↔
       32768 ≤ a < 32768 + Z.of_nat (size ({["y" := 32769; "x" := 32768]} : gmap string Z)).
Proof.
  apply (compiled_table_addresses ("MOV x 1" +:+ Py.newline +:+ "ADD y x")
           ("000010000000000000000000000000000001" +:+ Py.newline +:+
            "000110000000000000011000000000000000")).
  by vm_compute.
Defined.

(** ** Encoding and decoding an instruction *)

Section Round_trip.

Implicit Types (s t : string) (st : comp_state) (vars : gmap string Z).

Lemma take_app s t (n : nat) :
  String.length s = n → Py.take n (s +:+ t) = s.
Proof.
  intros <-. induction s as [|c s IH]; [by destruct t|].
  rewrite app_cons. simpl. by rewrite IH.
Qed.

Lemma drop_app s t (n : nat) :
  String.length s = n → Py.drop n (s +:+ t) = t.
Proof.
  intros <-. induction s as [|c s IH]; [by destruct t|].
  rewrite app_cons. simpl. by rewrite IH.
Qed.

(** The three fields [execute] cuts from an instruction with a four
    character opcode and a sixteen character first operand. *)
Lemma instruction_fields opcode f1 f2 :
  String.length opcode = 4%nat → String.length f1 = 16%nat →
  Py.take 4 (opcode +:+ f1 +:+ f2) = opcode ∧
  Py.slice 4 20 (opcode +:+ f1 +:+ f2) = f1 ∧
  Py.drop 20 (opcode +:+ f1 +:+ f2) = f2.
Proof.
  intros H4 H16. unfold Py.slice. split; [|split].
  - by apply take_app.
  - rewrite (drop_app opcode _ 4 H4). by apply take_app.
  - rewrite <- app_assoc. apply drop_app. rewrite length_app. lia.
Qed.

Lemma dec_to_bin_value n : 0 ≤ n → Py.int2 (dec_to_bin n 16) = Ok n.
Proof.
  intros Hn. destruct n as [|p|p]; [done| |lia].
  rewrite dec_to_bin_pos. destruct (_ <? _).
  - apply (int2_padded (Zpos p)). lia.
  - apply (binary_value (Zpos p)). lia.
Qed.

Lemma dec_to_bin_width n :
  0 ≤ n < 65536 → String.length (dec_to_bin n 16) = 16%nat.
Proof.
  intros Hn. destruct n as [|p|p]; [done| |lia].
  pose proof (proj2 (size_nat_le p 16)) as Hfit.
  change (2 ^ Z.of_nat 16) with 65536 in Hfit. specialize (Hfit ltac:(lia)).
  rewrite dec_to_bin_pos.
  destruct (Z.ltb_spec (Z.of_nat (Pos.size_nat p)) 16).
  - rewrite length_app, length_repeat, length_pos_bits. lia.
  - rewrite length_pos_bits. lia.
Qed.

Lemma size_continue vars names :
  (size (continue vars names) ≤ size vars + length names)%nat.
Proof.
  revert vars. induction names as [|name names IH]; intros vars.
  { unfold continue. simpl. lia. }
  destruct (vars !! name) as [a|] eqn:Hname.
  - rewrite (continue_known vars name _ a Hname). specialize (IH vars).
    simpl. lia.
  - rewrite (continue_new vars name _ Hname).
    specialize (IH (<[name := 32768 + Z.of_nat (size vars)]> vars)).
    rewrite map_size_insert_None in IH by done. simpl. lia.
Qed.

(** The field [reg_or_var] writes for an operand, on a table that leaves
    room in the variable range. *)
Lemma reg_or_var_round_trip st st' operand :
  consecutive (variables st) →
  Z.of_nat (size (variables st)) < 32766 →
  reg_or_var st operand = Ok st' →
  ∃ field,
    bytecode st' = bytecode st +:+ field ∧
    String.length field = 16%nat ∧
    field_of (variables st') operand field ∧
    consecutive (variables st') ∧
    (size (variables st') ≤ size (variables st) + 1)%nat.
Proof.
  intros Hcons Hsize Hreg.
  pose proof (reg_or_var_table st st' operand Hcons Hreg) as Htable.
  assert (consecutive (variables st')) as Hcons'.
  { rewrite Htable. by apply consecutive_continue. }
  assert (size (variables st') ≤ size (variables st) + 1)%nat as Hsize'.
  { rewrite Htable. etrans; [apply size_continue|]. case_bool_decide; simpl; lia. }
  apply reg_or_var_field in Hreg as (field & Hcode & _ & _ & Hfield).
  exists field. split; [done|]. unfold field_of.
  destruct (registers !! operand) as [code|] eqn:Hregs.
  - destruct Hfield as [-> _].
    split; [by apply (registers_bits operand)|done].
  - destruct Hfield as (a & Ha & ->).
    pose proof (proj1 (Hcons' a) (ex_intro _ operand Ha)) as Hrange.
    split; [apply dec_to_bin_width; lia|].
    split; [|done]. exists a.
    split; [done|]. split; [lia|]. apply dec_to_bin_value. lia.
Qed.

End Round_trip.

(** X13. What the encoder writes, the CPU reads.  For a MOV, ADD, SUB, MUL
    or DIV line encoded on a gap-free table with at most 32764 names, the
    instruction emitted is the opcode of the mnemonic followed by two
    fields; [execute]'s three slices of it are exactly that opcode and
    those fields; the first field stands for the first operand (register
    code, or the address the table now holds for the name), and the second
    has the value of the literal, or stands for the second operand. *)
Theorem instruction_round_trip (st st' : comp_state)
    (line operator operand1 operand2 : string) (rest : list string)
    (Hsplit : Py.split line = operator :: operand1 :: operand2 :: rest)
    (Hlabel : Py.startswith "label" operator = false)
    (Hjmp : operator ≠ "JMP")
    (Hcons : consecutive (variables st))
    (Hsize : Z.of_nat (size (variables st)) ≤ 32764)
    (Hline : comp_line st line = Ok st') :
  ∃ opcode f1 f2,
    operators !! operator = Some opcode ∧
    bytecode st' = bytecode st +:+ (opcode +:+ f1 +:+ f2) +:+ Py.newline ∧
    Py.take 4 (opcode +:+ f1 +:+ f2) = opcode ∧
    Py.slice 4 20 (opcode +:+ f1 +:+ f2) = f1 ∧
    Py.drop 20 (opcode +:+ f1 +:+ f2) = f2 ∧
    field_of (variables st') operand1 f1 ∧
    match Py.int10 operand2 with
    | Some n => 0 ≤ n → Py.int2 f2 = Ok n
    | None => field_of (variables st') operand2 f2
    end.
Proof.
  destruct (comp_line_operands st st' line _ _ _ _ Hsplit Hlabel Hjmp Hline)
    as (opcode & st2 & st3 & Hopcode & Hst2 & Hst3 & ->). simpl.
  destruct (operators_bits _ _ Hopcode) as [_ Hlen4].
  destruct (reg_or_var_round_trip (emit opcode st) st2 operand1 Hcons
              ltac:(simpl; lia) Hst2)
    as (f1 & Hb2 & Hlen16 & Hf1 & Hcons2 & Hsize2).
  simpl in Hb2, Hsize2.
  assert (∃ f2, bytecode st3 = bytecode st2 +:+ f2 ∧
                variables st2 ⊆ variables st3 ∧
                match Py.int10 operand2 with
                | Some n => 0 ≤ n → Py.int2 f2 = Ok n
                | None => field_of (variables st3) operand2 f2
                end) as (f2 & Hb3 & Hsub & Hf2).
  { destruct (Py.int10 operand2) as [n|].
    - subst st3. exists (dec_to_bin n 16). split; [done|]. split; [done|].
      apply dec_to_bin_value.
    - pose proof (reg_or_var_extends _ _ _ Hst3) as Hsub.
      destruct (reg_or_var_round_trip st2 st3 operand2 Hcons2 ltac:(lia) Hst3)
        as (f2 & Hb3 & _ & Hf2 & _).
      by exists f2. }
  exists opcode, f1, f2. split; [done|].
  split; [by rewrite Hb3, Hb2, !app_assoc|].
  destruct (instruction_fields opcode f1 f2 Hlen4 Hlen16) as (Ht & Hs & Hd).
  repeat (split; [done|]). split; [|done].
  unfold field_of in *. destruct (registers !! operand1); [done|].
  destruct Hf1 as (a & Ha & Hrange & Hvalue). exists a.
  split; [|done]. by apply (lookup_weaken _ _ _ _ Ha).
Qed.

Lemma instruction_round_trip_witness :
  ∃ opcode f1 f2,
    operators !! "ADD" = Some opcode ∧
    bytecode (mkState ("000110000000000000000000000000000010" +:+ Py.newline)
                1 0 {["x" := 32768]})
      = "" +:+ (opcode +:+ f1 +:+ f2) +:+ Py.newline ∧
    Py.take 4 (opcode +:+ f1 +:+ f2) = opcode ∧
    Py.slice 4 20 (opcode +:+ f1 +:+ f2) = f1 ∧
    Py.drop 20 (opcode +:+ f1 +:+ f2) = f2 ∧
    field_of {["x" := 32768]} "x" f1 ∧
    (0 ≤ 2 → Py.int2 f2 = Ok 2).
Proof.
  assert (comp_line (mkState "" 0 0 ∅) "ADD x 2" =
            Ok (mkState ("000110000000000000000000000000000010" +:+ Py.newline)
                  1 0 {["x" := 32768]})) as Hline by by vm_compute.
  assert (Z.of_nat (size (∅ : gmap string Z)) ≤ 32764) as Hsize
    by (rewrite map_size_empty; lia).
  assert ("ADD" ≠ "JMP") as Hjmp by done.
  exact (instruction_round_trip (mkState "" 0 0 ∅) _ "ADD x 2" "ADD" "x" "2" []
           eq_refl eq_refl Hjmp consecutive_empty Hsize Hline).
Defined.

(** X9. A literal that is zero or negative is encoded as zero, and read
    as zero.  On a MOV, ADD, SUB, MUL or DIV line whose second operand is
    read as a number that is not positive, encoded on a gap-free table
    with at most 32764 names, [dec_to_bin] returns only the padding: the
    instruction emitted is the opcode, the sixteen characters of the first
    operand and sixteen zeros; the second operand [execute] cuts from it
    is those sixteen zeros, and [get_data] resolves it to 0 in every state
    of the CPU. *)
Theorem nonpositive_literal_is_zero (st st' : comp_state)
    (line operator operand1 token : string) (rest : list string) (n : Z)
    (Hsplit : Py.split line = operator :: operand1 :: token :: rest)
    (Hlabel : Py.startswith "label" operator = false)
    (Hjmp : operator ≠ "JMP")
    (Htoken : Py.int10 token = Some n)
    (Hn : n ≤ 0)
    (Hcons : consecutive (variables st))
    (Hsize : Z.of_nat (size (variables st)) ≤ 32764)
    (Hline : comp_line st line = Ok st') :
  ∃ opcode f1 instruction,
    operators !! operator = Some opcode ∧
    String.length f1 = 16%nat ∧
    instruction = opcode +:+ f1 +:+ "0000000000000000" ∧
    bytecode st' = bytecode st +:+ instruction +:+ Py.newline ∧
    Py.take 4 instruction = opcode ∧
    Py.slice 4 20 instruction = f1 ∧
    Py.drop 20 instruction = "0000000000000000" ∧
    ∀ c : CPU, get_data c (VStr (Py.drop 20 instruction)) = Ok 0.
Proof.
  destruct (comp_line_operands st st' line _ _ _ _ Hsplit Hlabel Hjmp Hline)
    as (opcode & st2 & st3 & Hopcode & Hst2 & Hst3 & ->). simpl.
  destruct (operators_bits _ _ Hopcode) as [_ Hlen4].
  destruct (reg_or_var_round_trip (emit opcode st) st2 operand1 Hcons
              ltac:(simpl; lia) Hst2)
    as (f1 & Hb2 & Hlen16 & _).
  simpl in Hb2.
  rewrite Htoken in Hst3. subst st3. simpl.
  rewrite dec_to_bin_nonpos by done.
  change (Py.repeat "0" (Z.to_nat 16)) with "0000000000000000".
  destruct (instruction_fields opcode f1 "0000000000000000" Hlen4 Hlen16)
    as (Htake & Hslice & Hdrop).
  assert (∀ c : CPU,
            get_data c (VStr (Py.drop 20 (opcode +:+ f1 +:+ "0000000000000000")))
              = Ok 0) as Hread.
  { intros c. rewrite Hdrop. reflexivity. }
  exists opcode, f1, (opcode +:+ f1 +:+ "0000000000000000").
  split; [done|]. split; [done|]. split; [done|].
  split; [by rewrite Hb2, !app_assoc|].
  split; [done|]. split; [done|]. split; [done|].
  exact Hread.
Qed.

Lemma nonpositive_literal_is_zero_witness :
  ∃ opcode f1 instruction,
    operators !! "MOV" = Some opcode ∧
    String.length f1 = 16%nat ∧
    instruction = opcode +:+ f1 +:+ "0000000000000000" ∧
    bytecode (mkState ("000010000000000000000000000000000000" +:+ Py.newline)
                1 0 {["v" := 32768]})
      = "" +:+ instruction +:+ Py.newline ∧
    Py.take 4 instruction = opcode ∧
    Py.slice 4 20 instruction = f1 ∧
    Py.drop 20 instruction = "0000000000000000" ∧
    ∀ c : CPU, get_data c (VStr (Py.drop 20 instruction)) = Ok 0.
Proof.
  assert ("MOV" ≠ "JMP") as Hjmp by done.
  assert (-5 ≤ 0) as Hn by lia.
  assert (Z.of_nat (size (∅ : gmap string Z)) ≤ 32764) as Hsize
    by (rewrite map_size_empty; lia).
  assert (comp_line (mkState "" 0 0 ∅) "MOV v -5" =
            Ok (mkState ("000010000000000000000000000000000000" +:+ Py.newline)
                  1 0 {["v" := 32768]})) as Hline by by vm_compute.
  exact (nonpositive_literal_is_zero (mkState "" 0 0 ∅) _ "MOV v -5" "MOV" "v"
           "-5" [] (-5) eq_refl eq_refl Hjmp eq_refl Hn consecutive_empty Hsize
           Hline).
Defined.

(** * Properties of the lexer *)

Section Lexer.

Implicit Types (s rest : string) (c first : ascii).

Lemma numbers_not_lowercase c : in_numbers c = true → in_lowercase c = false.
Proof. destruct c as [[] [] [] [] [] [] [] []]; by vm_compute. Qed.

Lemma check_rest_type t rest t' : check_rest t rest = Ok t' → t' = t.
Proof.
  induction rest as [|c rest IH]; simpl; [by intros [= <-]|].
  destruct (in_numbers c); [done|].
  destruct (in_lowercase c); [|done].
  destruct (t =? CONSTANT); done.
Qed.

Lemma check_rest_variable rest :
  check_rest VARIABLE rest = Ok VARIABLE ↔
  all_chars (λ c, in_numbers c || in_lowercase c) rest = true.
Proof.
  induction rest as [|c rest IH]; simpl; [done|].
  destruct (in_numbers c); simpl; [done|].
  destruct (in_lowercase c); simpl; [done|]. split; done.
Qed.

Lemma check_rest_constant rest :
  check_rest CONSTANT rest = Ok CONSTANT ↔ all_chars in_numbers rest = true.
Proof.
  induction rest as [|c rest IH]; simpl; [done|].
  destruct (in_numbers c); simpl; [done|].
  destruct (in_lowercase c); simpl; split; done.
Qed.

(** A lexeme that starts with a lowercase letter or a digit is none of the
    fixed words and signs. *)
Lemma determine_type_open first rest :
  in_lowercase first || in_numbers first = true →
  determine_type (String first rest) =
    t ← (if in_lowercase first then Ok VARIABLE
         else if in_numbers first then Ok CONSTANT
         else Raise InvalidLexemeException);
    check_rest t rest.
Proof.
  intros Hfirst. unfold determine_type.
  repeat (case_bool_decide as Hfixed;
    [exfalso;
     repeat (apply elem_of_cons in Hfixed as [Hfixed|Hfixed];
             [injection Hfixed as -> _; by vm_compute in Hfirst|]);
     first [by apply elem_of_nil in Hfixed
           |injection Hfixed as -> _; by vm_compute in Hfirst]
    |clear Hfixed]).
  reflexivity.
Qed.

(** The fixed words and signs are neither names nor numbers. *)
Lemma determine_type_fixed s t :
  determine_type s = Ok t →
  t = VARIABLE ∨ t = CONSTANT →
  ∃ first rest, s = String first rest ∧
                in_lowercase first || in_numbers first = true.
Proof.
  unfold determine_type. intros Ht Hclass.
  repeat (case_bool_decide;
          [injection Ht as <-; by destruct Hclass|]).
  destruct s as [|first rest]; [done|]. exists first, rest. split; [done|].
  destruct (in_lowercase first); [done|].
  destruct (in_numbers first); done.
Qed.

Lemma digits_value_numbers s acc :
  all_chars in_numbers s = true → 0 ≤ acc →
  ∃ n, Py.digits_value acc s = Some n ∧ 0 ≤ n.
Proof.
  revert acc. induction s as [|c s IH]; intros acc; simpl.
  - intros _ Hacc. by exists acc.
  - intros [Hc Hs]%andb_true_iff Hacc. unfold in_numbers in Hc.
    apply bool_decide_eq_true in Hc as [d Hd]. rewrite Hd.
    apply IH; [done|lia].
Qed.

End Lexer.

(** X14. [determine_type] classifies names and numbers by their spelling:
    it returns the variable class exactly for a lowercase letter followed
    by lowercase letters and digits, and the constant class exactly for a
    non-empty run of digits. *)
Theorem determine_type_spelling (lexeme : string) :
  (determine_type lexeme = Ok VARIABLE ↔
     ∃ first rest, lexeme = String first rest ∧ in_lowercase first = true ∧
       all_chars (λ c, in_numbers c || in_lowercase c) rest = true) ∧
  (determine_type lexeme = Ok CONSTANT ↔
     lexeme ≠ "" ∧ all_chars in_numbers lexeme = true).
Proof.
  split; split.
  - intros Ht.
    destruct (determine_type_fixed lexeme _ Ht) as (first & rest & -> & Hfirst);
      [by left|].
    exists first, rest. split; [done|].
    rewrite (determine_type_open first rest Hfirst) in Ht.
    destruct (in_lowercase first).
    + split; [done|]. by apply check_rest_variable.
    + destruct (in_numbers first); [|done]. simpl in Ht.
      by apply check_rest_type in Ht.
  - intros (first & rest & -> & Hfirst & Hrest).
    rewrite determine_type_open by by rewrite Hfirst.
    rewrite Hfirst. by apply check_rest_variable.
  - intros Ht.
    destruct (determine_type_fixed lexeme _ Ht) as (first & rest & -> & Hfirst);
      [by right|].
    split; [done|].
    rewrite (determine_type_open first rest Hfirst) in Ht. simpl.
    destruct (in_lowercase first).
    + by apply check_rest_type in Ht.
    + destruct (in_numbers first); [|done].
      by apply check_rest_constant.
  - intros [Hne Hall]. destruct lexeme as [|first rest]; [done|].
    simpl in Hall. apply andb_true_iff in Hall as [Hfirst Hrest].
    rewrite determine_type_open by (rewrite Hfirst; apply orb_true_r).
    rewrite (numbers_not_lowercase first Hfirst), Hfirst.
    by apply check_rest_constant.
Qed.

Lemma determine_type_spelling_witness :
  determine_type "x1" = Ok VARIABLE ∧ determine_type "42" = Ok CONSTANT.
Proof.
  split.
  - apply (proj1 (determine_type_spelling "x1")). by exists "x"%char, "1".
  - by apply (proj2 (determine_type_spelling "42")).
Defined.

Section Lexeme_operand.

Implicit Types (s rest : string) (c first : ascii).

Lemma int10_unsigned first rest :
  in_lowercase first || in_numbers first = true →
  Py.int10 (String first rest) = Py.digits_value 0 (String first rest).
Proof.
  intros Hfirst.
  destruct first as [[] [] [] [] [] [] [] []];
    first [by vm_compute in Hfirst|reflexivity].
Qed.

Lemma registers_keys operand code :
  registers !! operand = Some code → operand = "AC" ∨ operand = "ECX".
Proof.
  assert (map_Forall (λ k _, k = "AC" ∨ k = "ECX") registers) as Hall
    by by_evaluation.
  apply Hall.
Qed.

End Lexeme_operand.

(** X15. The lexer and the encoder agree on operands.  A lexeme of the
    constant class is read by the encoder's [int] as a number that is not
    negative; a lexeme of the variable class is not read by [int] and is
    no register mnemonic, so the encoder hands it to the symbol table. *)
Theorem lexeme_as_operand (lexeme : string) :
  (determine_type lexeme = Ok CONSTANT →
     ∃ n, 0 ≤ n ∧ Py.int10 lexeme = Some n) ∧
  (determine_type lexeme = Ok VARIABLE →
     Py.int10 lexeme = None ∧ registers !! lexeme = None).
Proof.
  split; intros Ht.
  - destruct (determine_type_fixed lexeme _ Ht) as (first & rest & -> & Hfirst);
      [by right|].
    rewrite (determine_type_open first rest Hfirst) in Ht.
    rewrite (int10_unsigned first rest Hfirst).
    destruct (in_lowercase first) eqn:Hlow.
    { by apply check_rest_type in Ht. }
    simpl in Hfirst. rewrite Hfirst in Ht. simpl in Ht.
    apply check_rest_constant in Ht.
    destruct (digits_value_numbers (String first rest) 0) as (n & Hn & Hpos);
      [simpl; by rewrite Hfirst|lia|].
    by exists n.
  - destruct (determine_type_fixed lexeme _ Ht) as (first & rest & -> & Hfirst);
      [by left|].
    rewrite (determine_type_open first rest Hfirst) in Ht.
    destruct (in_lowercase first) eqn:Hlow.
    + split.
      * rewrite int10_unsigned by by rewrite Hlow. simpl.
        destruct (Ascii.is_nat first) as [d|] eqn:Hd; [|done].
        assert (in_numbers first = true) as Hnum.
        { unfold in_numbers. apply bool_decide_eq_true. by exists d. }
        apply numbers_not_lowercase in Hnum. congruence.
      * destruct (registers !! String first rest) as [code|] eqn:Hreg; [|done].
        apply registers_keys in Hreg as [[= -> _]|[= -> _]];
          by vm_compute in Hlow.
    + destruct (in_numbers first); [|done]. simpl in Ht.
      by apply check_rest_type in Ht.
Qed.

Lemma lexeme_as_operand_witness :
  (∃ n, 0 ≤ n ∧ Py.int10 "42" = Some n) ∧
  (Py.int10 "x1" = None ∧ registers !! "x1" = None).
Proof.
  split.
  - by apply (proj1 (lexeme_as_operand "42")).
  - by apply (proj2 (lexeme_as_operand "x1")).
Defined.

(** ** The list of lexemes *)

Section Analyze.

Implicit Types (s item : string) (items : list string) (ls : list Lexeme).

Lemma rev_app_app s t u :
  String.rev_app s (t +:+ u) = String.rev_app s t +:+ u.
Proof.
  revert t. induction s as [|c s IH]; intros t; [done|]. simpl.
  by rewrite <- IH, app_cons.
Qed.

Lemma rev_app_rev_app s t u :
  String.rev_app (String.rev_app s t) u = String.rev_app t (s +:+ u).
Proof.
  revert t u. induction s as [|c s IH]; intros t u; [done|]. simpl.
  by rewrite IH.
Qed.

Lemma rev_involutive s : String.rev (String.rev s) = s.
Proof.
  unfold String.rev. rewrite rev_app_rev_app. simpl. apply app_nil_r.
Qed.

Lemma rev_cons c s : String.rev (String c s) = String.rev s +:+ String c "".
Proof.
  unfold String.rev. simpl.
  change (String c "") with ("" +:+ String c ""). apply rev_app_app.
Qed.

Lemma init_snoc s c : Py.init (s +:+ String c "") = s.
Proof.
  induction s as [|d s IH]; [done|]. rewrite app_cons. simpl.
  rewrite IH. by destruct s.
Qed.

(** An item that ends with a semicolon is its body followed by the
    semicolon, and [item[:-1]] is the body. *)
Lemma endswith_semicolon item :
  Py.endswith ";" item = true →
  item = Py.init item +:+ ";".
Proof.
  unfold Py.endswith. change (String.rev ";") with ";".
  intros Hends. rewrite <- (rev_involutive item) at 1 2.
  destruct (String.rev item) as [|c r]; [done|].
  change (Py.startswith ";" (String c r))
    with (bool_decide (";"%char = c) && Py.startswith "" r) in Hends.
  apply andb_true_iff in Hends as [Hc _].
  apply bool_decide_eq_true in Hc as <-.
  rewrite rev_cons. by rewrite init_snoc.
Qed.

Lemma joined_app (l1 l2 : list string) :
  joined (l1 ++ l2) = joined l1 +:+ joined l2.
Proof.
  induction l1 as [|x l1 IH]; [done|]. simpl.
  unfold joined in *. simpl. by rewrite IH, app_assoc.
Qed.

Lemma Lexeme_init_text s l : Lexeme_init s = Ok l → text l = s.
Proof.
  unfold Lexeme_init. destruct (determine_type s); [|done].
  by intros [= <-].
Qed.

Lemma Lexeme_init_type s l :
  Lexeme_init s = Ok l → determine_type (text l) = Ok (type l).
Proof.
  unfold Lexeme_init. destruct (determine_type s) eqn:Ht; [|done].
  by intros [= <-].
Qed.

Lemma analyze_items_sound ls ls' items :
  analyze_items ls items = Ok ls' →
  joined (text <$> ls') = joined (text <$> ls) +:+ joined items ∧
  (Forall (λ l, determine_type (text l) = Ok (type l)) ls →
   Forall (λ l, determine_type (text l) = Ok (type l)) ls').
Proof.
  revert ls. induction items as [|item items IH]; intros ls; simpl.
  - intros [= <-]. by rewrite app_nil_r.
  - destruct (Py.endswith ";" item) eqn:Hends.
    + destruct (Lexeme_init (Py.init item)) as [l1|] eqn:H1; [|done].
      change (Lexeme_init ";") with (Ok (mkLexeme ";" SEMICOLON)). simpl.
      intros Hrest. apply IH in Hrest as [Htext Htypes].
      split.
      * rewrite Htext, fmap_app, joined_app. simpl.
        rewrite (Lexeme_init_text _ _ H1).
        pose proof (endswith_semicolon item Hends) as Hitem.
        remember (Py.init item) as body. rewrite Hitem.
        unfold joined at 2. simpl. by rewrite !app_assoc.
      * intros Hls. apply Htypes, Forall_app. split; [done|].
        constructor; [by eapply Lexeme_init_type|]. by repeat constructor.
    + destruct (Lexeme_init item) as [l|] eqn:H1; [|done]. simpl.
      intros Hrest. apply IH in Hrest as [Htext Htypes].
      split.
      * rewrite Htext, fmap_app, joined_app. simpl.
        rewrite (Lexeme_init_text _ _ H1). unfold joined at 2. simpl.
        by rewrite !app_assoc.
      * intros Hls. apply Htypes, Forall_app. split; [done|].
        constructor; [by eapply Lexeme_init_type|]. by constructor.
Qed.

Lemma analyze_items_app ls items1 items2 :
  analyze_items ls (items1 ++ items2) =
    ls1 ← analyze_items ls items1; analyze_items ls1 items2.
Proof.
  revert ls. induction items1 as [|item items1 IH]; intros ls; [done|].
  simpl. destruct (Py.endswith ";" item).
  - destruct (Lexeme_init (Py.init item)); [|done].
    change (Lexeme_init ";") with (Ok (mkLexeme ";" SEMICOLON)). simpl.
    apply IH.
  - destruct (Lexeme_init item); [|done]. simpl. apply IH.
Qed.

End Analyze.

(** X16. Lexing loses nothing but the blanks: when [analyze] succeeds, the
    texts of its lexemes, one after the other, spell the words of the
    source one after the other, and every lexeme carries the class
    [determine_type] gives its text. *)
Theorem analyze_round_trip (code : string) (lexemes : list Lexeme)
    (Hanalyze : analyze code = Ok lexemes) :
  joined (text <$> lexemes) = joined (Py.split code) ∧
  Forall (λ l, determine_type (text l) = Ok (type l)) lexemes.
Proof.
  apply analyze_items_sound in Hanalyze as [Htext Htypes].
  split; [exact Htext|]. by apply Htypes.
Qed.

Lemma analyze_round_trip_witness :
  joined (text <$> [mkLexeme "x" 11; mkLexeme ":=" 20; mkLexeme "17" 10;
                    mkLexeme ";" 22])
    = joined (Py.split "x := 17;") ∧
  Forall (λ l, determine_type (text l) = Ok (type l))
    [mkLexeme "x" 11; mkLexeme ":=" 20; mkLexeme "17" 10; mkLexeme ";" 22].
Proof.
  apply (analyze_round_trip "x := 17;"). by vm_compute.
Defined.

(** X17. A semicolon that stands alone is not a lexeme for [analyze]: it is
    cut into the empty string and the semicolon, and classifying the empty
    string raises [IndexError].  So a source whose words up to there are
    analysed without error raises [IndexError] at such a word. *)
Theorem lone_semicolon_raises (code : string) (before after : list string)
    (lexemes : list Lexeme)
    (Hwords : Py.split code = before ++ ";" :: after)
    (Hbefore : analyze_items [] before = Ok lexemes) :
  analyze code = Raise IndexError.
Proof.
  unfold analyze. rewrite Hwords, analyze_items_app, Hbefore. reflexivity.
Qed.

Lemma lone_semicolon_raises_witness :
  analyze "x := 17 ;" = Raise IndexError.
Proof.
  apply (lone_semicolon_raises "x := 17 ;" ["x"; ":="; "17"] []
           [mkLexeme "x" 11; mkLexeme ":=" 20; mkLexeme "17" 10]).
  - by vm_compute.
  - by vm_compute.
Defined.

(** * The encoder and the CPU together *)

(** X18. A literal survives the way from the assembly text to the CPU only
    below 32768.  The field the encoder writes for a number [n] that is not
    negative is resolved by the CPU like [n] itself: as the constant [n]
    when [n] is below 32768, but as the loop counter when [n] exceeds
    65534 (and as a slot or the accumulator in between). *)
Theorem literal_resolution (c : CPU) (n : Z) (Hn : 0 ≤ n) :
  get_data c (VStr (dec_to_bin n 16)) = get_data c (VInt n) ∧
  (n < 32768 → get_data c (VStr (dec_to_bin n 16)) = Ok n) ∧
  (65534 < n → get_data c (VStr (dec_to_bin n 16)) = Ok (ecx c)).
Proof.
  assert (get_data c (VStr (dec_to_bin n 16)) = get_data c (VInt n)) as Heq.
  { by rewrite get_data_str, (dec_to_bin_value n Hn). }
  split; [done|]. rewrite Heq, get_data_int. split; intros Hrange.
  - destruct (Z.ltb_spec n 32768); [done|lia].
  - destruct (Z.ltb_spec n 32768); [lia|].
    destruct (Z.ltb_spec n 65534); [lia|].
    destruct (Z.eqb_spec n 65534); [lia|done].
Qed.

Lemma literal_resolution_witness :
  get_data (mkCPU [] [] 3 4 0 (VInt 0)) (VStr (dec_to_bin 17 16)) = Ok 17 ∧
  get_data (mkCPU [] [] 3 4 0 (VInt 0)) (VStr (dec_to_bin 70000 16)) = Ok 4.
Proof.
  split.
  - apply (literal_resolution (mkCPU [] [] 3 4 0 (VInt 0)) 17); lia.
  - apply (literal_resolution (mkCPU [] [] 3 4 0 (VInt 0)) 70000); lia.
Defined.

(** X19. The symbol table does not stop at the end of the variable range:
    a new name entered when the largest address is 65533 receives 65534,
    and the code returned for it is the code of the accumulator. *)
Theorem variable_overflows_into_registers (vars : gmap string Z)
    (var : string)
    (Hnew : vars !! var = None)
    (Hlargest : largest_address vars 65533) :
  variable vars var = Ok (<[var := 65534]> vars, "1111111111111110") ∧
  registers !! "AC" = Some "1111111111111110".
Proof.
  split; [|reflexivity].
  assert (vars ≠ ∅) as Hne.
  { intros ->. destruct Hlargest as [[k Hk] _]. by rewrite lookup_empty in Hk. }
  destruct (max_values vars Hne) as (m & Hm & Hm').
  assert (m = 65533) as ->.
  { destruct Hlargest as [[k Hk] Hle], Hm' as [[k' Hk'] Hle'].
    specialize (Hle _ _ Hk'). specialize (Hle' _ _ Hk). lia. }
  by rewrite (variable_new vars var 65533 Hne Hnew Hm).
Qed.

Lemma variable_overflows_into_registers_witness :
  variable {["x" := 65533]} "y" =
    Ok (<["y" := 65534]> {["x" := 65533]}, "1111111111111110") ∧
  registers !! "AC" = Some "1111111111111110".
Proof.
  apply (variable_overflows_into_registers {["x" := 65533]} "y").
  - reflexivity.
  - split.
    + exists "x". reflexivity.
    + intros k a Hk. apply lookup_singleton_Some in Hk as [_ <-]. lia.
Defined.

(** ** A loop *)

Section Loop.

Implicit Types (c : CPU) (a e v : Z) (dm : list Z).

Lemma start_turn (k : nat) c c1 c2 :
  pc c < Z.of_nat (length (prog_memory c)) →
  fetch c = Ok c1 → execute c1 = Ok c2 →
  start (S k) c = start k c2.
Proof.
  intros Hpc Hfetch Hexec. simpl.
  destruct (Z.ltb_spec (pc c) (Z.of_nat (length (prog_memory c)))); [|lia].
  by rewrite Hfetch, Hexec.
Qed.

Lemma mov_to_ac c source v :
  get_data c source = Ok v →
  mov c "1111111111111110" source = Ok (set_ac v c).
Proof.
  intros Hv. unfold mov.
  change (Py.int2 "1111111111111110") with (Ok 65534).
  change (Ok 65534 ≫= ?f) with (f 65534). cbv beta.
  change (65534 <? 65534) with false. change (65534 =? 65534) with true.
  cbv iota. by rewrite Hv.
Qed.

Lemma mov_to_ecx c source v :
  get_data c source = Ok v →
  mov c "1111111111111111" source = Ok (set_ecx v c).
Proof.
  intros Hv. unfold mov.
  change (Py.int2 "1111111111111111") with (Ok 65535).
  change (Ok 65535 ≫= ?f) with (f 65535). cbv beta.
  change (65535 <? 65534) with false. change (65535 =? 65534) with false.
  cbv iota. by rewrite Hv.
Qed.

(** One round of the counting loop: three turns of the cycle. *)
Lemma counting_round (k : nat) a e dm (ir0 : value) :
  a + 1 < 32768 → e - 1 < 32768 →
  start (S (S (S k))) (mkCPU counting_loop dm a e 0 ir0) =
  start k (mkCPU counting_loop dm (a + 1) (e - 1)
             (if 0 <? e - 1 then 0 else 3)
             (VStr "010100000000000000000000000000000000")).
Proof.
  intros Ha He.
  rewrite (start_turn _ _
             (mkCPU counting_loop dm a e 0
                (VStr "000111111111111111100000000000000001"))
             (mkCPU counting_loop dm (a + 1) e 1
                (VStr "000111111111111111100000000000000001")));
    [|simpl; lia|reflexivity|].
  2: { change (execute ?c)
         with (c' ← add c "1111111111111110" "0000000000000001"; Ok (next_pc c')).
       unfold add.
       change (get_data ?c (VStr "1111111111111110")) with (Ok (ac c)).
       change (get_data ?c (VStr "0000000000000001")) with (@Ok Z 1).
       simpl ac. change (Ok a ≫= ?f) with (f a). cbv beta.
       change (Ok 1 ≫= ?f) with (f 1). cbv beta.
       rewrite (mov_to_ac _ (VInt (a + 1)) (a + 1)); [done|].
       by apply get_data_constant. }
  rewrite (start_turn _ _
             (mkCPU counting_loop dm (a + 1) e 1
                (VStr "001011111111111111110000000000000001"))
             (mkCPU counting_loop dm (a + 1) (e - 1) 2
                (VStr "001011111111111111110000000000000001")));
    [|simpl; lia|reflexivity|].
  2: { change (execute ?c)
         with (c' ← sub c "1111111111111111" "0000000000000001"; Ok (next_pc c')).
       unfold sub.
       change (get_data ?c (VStr "1111111111111111")) with (Ok (ecx c)).
       change (get_data ?c (VStr "0000000000000001")) with (@Ok Z 1).
       simpl ecx. change (Ok e ≫= ?f) with (f e). cbv beta.
       change (Ok 1 ≫= ?f) with (f 1). cbv beta.
       rewrite (mov_to_ecx _ (VInt (e - 1)) (e - 1)); [done|].
       by apply get_data_constant. }
  apply (start_turn _ _
           (mkCPU counting_loop dm (a + 1) (e - 1) 2
              (VStr "010100000000000000000000000000000000")));
    [simpl; lia|reflexivity|].
  change (execute ?c)
    with (if 0 <? ecx c then jump c "0000000000000000" else Ok (next_pc c)).
  simpl ecx. by destruct (0 <? e - 1).
Qed.

End Loop.

(** X20. The loop primitive is a countdown with the test at the end.  The
    counting loop entered with [n] in the loop counter, [n] from 1 to
    32768, goes round exactly [n] times: after [3 n] turns of the cycle the
    run has ended past the loop with the loop counter at 0 and the
    accumulator raised by [n].  Entered with a loop counter that is zero
    or negative, the body still runs once. *)
Theorem counting_loop_rounds (n : nat) (a e : Z) (dm : list Z) (ir0 : value) :
  ((1 ≤ n)%nat → Z.of_nat n ≤ 32768 → a + Z.of_nat n < 32768 →
   start (3 * n) (mkCPU counting_loop dm a (Z.of_nat n) 0 ir0) =
     Some (Ok (mkCPU counting_loop dm (a + Z.of_nat n) 0 3
                 (VStr "010100000000000000000000000000000000")))) ∧
  (e ≤ 0 → a + 1 < 32768 →
   start 3 (mkCPU counting_loop dm a e 0 ir0) =
     Some (Ok (mkCPU counting_loop dm (a + 1) (e - 1) 3
                 (VStr "010100000000000000000000000000000000")))).
Proof.
  split.
  - intros Hpos Hmax Hacc. revert a ir0 Hacc.
    induction n as [|n IH]; intros a ir0 Hacc; [lia|].
    replace (3 * S n)%nat with (S (S (S (3 * n)))) by lia.
    rewrite counting_round by lia.
    replace (Z.of_nat (S n) - 1) with (Z.of_nat n) by lia.
    destruct n as [|n].
    + simpl. do 3 f_equal; lia.
    + destruct (Z.ltb_spec 0 (Z.of_nat (S n))); [|lia].
      rewrite IH by lia. do 3 f_equal; lia.
  - intros He Hacc. rewrite counting_round by lia.
    destruct (Z.ltb_spec 0 (e - 1)); [lia|]. reflexivity.
Qed.

Lemma counting_loop_rounds_witness :
  start (3 * 2) (mkCPU counting_loop [] 0 (Z.of_nat 2) 0 (VInt 0)) =
    Some (Ok (mkCPU counting_loop [] (0 + Z.of_nat 2) 0 3
                (VStr "010100000000000000000000000000000000"))) ∧
  start 3 (mkCPU counting_loop [] 0 0 0 (VInt 0)) =
    Some (Ok (mkCPU counting_loop [] (0 + 1) (0 - 1) 3
                (VStr "010100000000000000000000000000000000"))).
Proof.
  split.
  - apply (proj1 (counting_loop_rounds 2 0 0 [] (VInt 0))); simpl; lia.
  - apply (proj2 (counting_loop_rounds 0 0 0 [] (VInt 0))); lia.
Defined.

(** ** Program memory *)

Section Program.

Implicit Types (s t : string) (c : ascii) (st : comp_state)
  (instrs : list string).

Lemma rev_app s t : String.rev (s +:+ t) = String.rev t +:+ String.rev s.
Proof.
  induction s as [|c s IH]; [by rewrite app_nil_r|].
  by rewrite app_cons, !rev_cons, IH, app_assoc.
Qed.

Lemma bit_not_space c : is_Some (Py.bit_of c) → Ascii.is_space c = false.
Proof.
  intros [b Hb]. by apply bit_of_cases in Hb as [[-> _]|[-> _]].
Qed.

Lemma string_snoc s : s ≠ "" → ∃ s' c, s = s' +:+ String c "".
Proof.
  induction s as [|c s IH]; [done|]. intros _.
  destruct s as [|d s].
  - by exists "", c.
  - destruct IH as (s' & c' & ->); [done|]. by exists (String c s'), c'.
Qed.

(** Stripping a text that starts and ends with a binary digit and has one
    line feed after it removes that line feed. *)
Lemma strip_line s :
  s ≠ "" → bits_only (Py.take 1 s) = true →
  bits_only (Py.take 1 (String.rev s)) = true →
  Py.strip (s +:+ Py.newline) = s.
Proof.
  intros Hne Hfirst Hlast. unfold Py.strip.
  destruct s as [|c s]; [done|]. rewrite app_cons.
  simpl in Hfirst. rewrite andb_true_r in Hfirst.
  apply bool_decide_eq_true in Hfirst.
  simpl Py.lstrip at 2. rewrite (bit_not_space c Hfirst).
  rewrite <- app_cons, rev_app.
  change (String.rev Py.newline) with Py.newline.
  change (Py.newline +:+ ?x) with (String "010"%char x).
  simpl Py.lstrip.
  destruct (String.rev (String c s)) as [|d r] eqn:Hrev.
  { apply (f_equal String.rev) in Hrev. by rewrite rev_involutive in Hrev. }
  simpl in Hlast. rewrite andb_true_r in Hlast.
  apply bool_decide_eq_true in Hlast.
  simpl. rewrite (bit_not_space d Hlast).
  by rewrite <- Hrev, rev_involutive.
Qed.

Lemma split_nl_bits_only s :
  bits_only s = true → Py.split_nl s = [s].
Proof.
  induction s as [|c s IH]; [done|]. simpl.
  intros [Hc Hs]%andb_true_iff. apply bool_decide_eq_true in Hc.
  rewrite bool_decide_eq_false_2.
  - by rewrite (IH Hs).
  - intros ->. by destruct Hc.
Qed.

Lemma split_nl_line s t :
  bits_only s = true →
  Py.split_nl (s +:+ Py.newline +:+ t) = s :: Py.split_nl t.
Proof.
  induction s as [|c s IH]; [done|]. rewrite app_cons. simpl.
  intros [Hc Hs]%andb_true_iff. apply bool_decide_eq_true in Hc.
  rewrite bool_decide_eq_false_2.
  - by rewrite (IH Hs).
  - intros ->. by destruct Hc.
Qed.

Lemma split_nl_program instrs :
  instrs ≠ [] → Forall (λ i, bits_only i = true) instrs →
  Py.split_nl (program_text instrs) = instrs.
Proof.
  induction instrs as [|i instrs IH]; [done|]. intros _ Hbits.
  apply Forall_cons in Hbits as [Hi Hrest].
  destruct instrs as [|j instrs].
  - by apply split_nl_bits_only.
  - change (program_text (i :: j :: instrs))
      with (i +:+ Py.newline +:+ program_text (j :: instrs)).
    rewrite split_nl_line by done. by rewrite IH.
Qed.

(** The lines the encoder accumulates are the program text and a last
    line feed. *)
Lemma joined_cons s (l : list string) : joined (s :: l) = s +:+ joined l.
Proof. reflexivity. Qed.

Lemma joined_lines instrs :
  instrs ≠ [] →
  joined ((λ i, i +:+ Py.newline) <$> instrs) = program_text instrs +:+ Py.newline.
Proof.
  induction instrs as [|i instrs IH]; [done|]. intros _.
  rewrite fmap_cons, joined_cons.
  destruct instrs as [|j instrs].
  - change (joined _) with "". by rewrite app_nil_r.
  - change (program_text (i :: j :: instrs))
      with (i +:+ Py.newline +:+ program_text (j :: instrs)).
    rewrite IH by done. by rewrite !app_assoc.
Qed.

Lemma program_text_first i instrs :
  i ≠ "" → Py.take 1 (program_text (i :: instrs)) = Py.take 1 i.
Proof.
  intros Hi. destruct i as [|c i]; [done|]. by destruct instrs.
Qed.

Lemma program_text_last instrs i :
  i ≠ "" →
  Py.take 1 (String.rev (program_text (instrs ++ [i]))) = Py.take 1 (String.rev i).
Proof.
  intros Hi. induction instrs as [|j instrs IH]; [done|].
  assert (program_text ((j :: instrs) ++ [i])
          = j +:+ Py.newline +:+ program_text (instrs ++ [i])) as ->.
  { simpl. by destruct (instrs ++ [i]) eqn:E; [destruct instrs|]. }
  rewrite !rev_app.
  destruct (String.rev (program_text (instrs ++ [i]))) as [|c r] eqn:Hrev.
  - destruct (String.rev i) as [|d r'] eqn:Hi'; [|done].
    apply (f_equal String.rev) in Hi'. by rewrite rev_involutive in Hi'.
  - by rewrite <- IH.
Qed.

Lemma take1_bits s : bits_only s = true → bits_only (Py.take 1 s) = true.
Proof.
  destruct s as [|c s]; [done|]. simpl.
  intros [-> _]%andb_true_iff. done.
Qed.

Lemma bits_only_rev s : bits_only s = true → bits_only (String.rev s) = true.
Proof.
  induction s as [|c s IH]; [done|]. simpl.
  intros [Hc Hs]%andb_true_iff.
  rewrite rev_cons, bits_only_app, (IH Hs). simpl. by rewrite Hc.
Qed.

(** The returned bytecode, cut at its line feeds, is the list of the
    instructions. *)
Lemma program_lines instrs :
  instrs ≠ [] → Forall (λ i, bits_only i = true ∧ i ≠ "") instrs →
  Py.split_nl (Py.strip (joined ((λ i, i +:+ Py.newline) <$> instrs))) = instrs.
Proof.
  intros Hne Hall. rewrite joined_lines by done.
  assert (Forall (λ i, bits_only i = true) instrs) as Hbits.
  { eapply Forall_impl; [done|]. by intros i [? _]. }
  rewrite strip_line.
  - by apply split_nl_program.
  - destruct instrs as [|i instrs]; [done|].
    apply Forall_cons in Hall as [[_ Hi] _]. destruct i; [done|].
    by destruct instrs.
  - destruct instrs as [|i instrs]; [done|].
    apply Forall_cons in Hall as [[Hi Hi'] _].
    rewrite program_text_first by done. by apply take1_bits.
  - destruct (exists_last Hne) as (front & i & ->).
    apply Forall_app in Hall as [_ Hlast].
    apply Forall_cons in Hlast as [[Hi Hi'] _].
    rewrite program_text_last by done. by apply take1_bits, bits_only_rev.
Qed.

End Program.

Section Instructions.

Implicit Types (s t : string) (st : comp_state) (instrs : list string).

Lemma operators_jmp_only operator :
  operators !! operator = Some "0101" → operator = "JMP".
Proof.
  assert (map_Forall (λ k code, code = "0101" → k = "JMP") operators) as Hall
    by by_evaluation.
  intros Hop. by apply (Hall operator "0101").
Qed.

Lemma dec_to_bin_min_width n : (16 ≤ String.length (dec_to_bin n 16))%nat.
Proof.
  destruct n as [|p|p]; [by vm_compute| |by vm_compute].
  rewrite dec_to_bin_pos.
  destruct (Z.ltb_spec (Z.of_nat (Pos.size_nat p)) 16).
  - rewrite length_app, length_repeat, length_pos_bits. lia.
  - rewrite length_pos_bits. lia.
Qed.

Lemma reg_or_var_width st st' operand :
  reg_or_var st operand = Ok st' →
  ∃ field, bytecode st' = bytecode st +:+ field ∧ bits_only field = true ∧
           (16 ≤ String.length field)%nat.
Proof.
  intros H. apply reg_or_var_field in H as (field & Hcode & _ & _ & Hfield).
  exists field. split; [done|].
  destruct (registers !! operand) as [code|] eqn:Hreg.
  - destruct Hfield as [-> _].
    destruct (registers_bits operand code Hreg) as (Hb & Hl & _).
    split; [done|lia].
  - destruct Hfield as (a & _ & ->).
    split; [apply bits_only_dec_to_bin|apply dec_to_bin_min_width].
Qed.

(** The instruction a line that is not a label marker adds. *)
Lemma comp_line_instruction st st' line :
  is_label line = false →
  comp_line st line = Ok st' →
  ∃ instr,
    bytecode st' = bytecode st +:+ instr +:+ Py.newline ∧
    bits_only instr = true ∧ (36 ≤ String.length instr)%nat ∧
    (Py.take 4 instr = "0101" →
     instr = "0101" +:+ dec_to_bin (label st) 16 +:+ "0000000000000000").
Proof.
  intros Hlabel Hline.
  destruct (Py.split line) as [|operator rest] eqn:Hsplit.
  { unfold comp_line in Hline. by rewrite Hsplit in Hline. }
  destruct (is_jmp line) eqn:Hjmp.
  { rewrite comp_line_jmp in Hline by done. injection Hline as <-.
    exists ("0101" +:+ dec_to_bin (label st) 16 +:+ "0000000000000000").
    split; [simpl; by rewrite !app_assoc|].
    split; [by rewrite !bits_only_app, bits_only_dec_to_bin|].
    split; [|done].
    rewrite !length_app. pose proof (dec_to_bin_min_width (label st)).
    simpl. lia. }
  unfold is_label in Hlabel. unfold is_jmp in Hjmp. rewrite Hsplit in Hlabel, Hjmp.
  apply bool_decide_eq_false in Hjmp.
  pose proof (comp_line_cases st line) as Hcases.
  rewrite Hsplit, Hlabel in Hcases.
  destruct (operators !! operator) as [opcode0|] eqn:Hop; [|congruence].
  rewrite bool_decide_eq_false_2 in Hcases by done.
  destruct rest as [|operand1 [|operand2 rest]]; [congruence..|]. clear Hcases.
  destruct (comp_line_operands st st' line _ _ _ _ Hsplit Hlabel Hjmp Hline)
    as (opcode & st2 & st3 & Hopcode & Hst2 & Hst3 & ->).
  destruct (operators_bits _ _ Hopcode) as [Hob Hol].
  apply reg_or_var_width in Hst2 as (f1 & Hb2 & Hf1 & Hl1). simpl in Hb2.
  assert (∃ f2, bytecode st3 = bytecode st2 +:+ f2 ∧ bits_only f2 = true ∧
                (16 ≤ String.length f2)%nat) as (f2 & Hb3 & Hf2 & Hl2).
  { destruct (Py.int10 operand2) as [n|].
    - subst st3. eexists. split; [done|].
      split; [apply bits_only_dec_to_bin|apply dec_to_bin_min_width].
    - by apply reg_or_var_width in Hst3. }
  exists (opcode +:+ f1 +:+ f2).
  split; [simpl; by rewrite Hb3, Hb2, !app_assoc|].
  split; [by rewrite !bits_only_app, Hob, Hf1, Hf2|].
  split; [rewrite !length_app; lia|].
  rewrite (take_app opcode _ 4 Hol). intros ->.
  assert (opcode0 = "0101") as -> by congruence.
  by apply operators_jmp_only in Hop.
Qed.

Lemma comp_line_program st st' line instrs :
  comp_line st line = Ok st' →
  emitted_program st instrs →
  ∃ instrs', emitted_program st' instrs'.
Proof.
  intros Hline (Hcode & Hcount & Hlabel & Hall & Hjumps).
  destruct (is_label line) eqn:Hislabel.
  { rewrite comp_line_label in Hline by done. injection Hline as <-.
    exists instrs. repeat split; simpl; try done; lia. }
  destruct (comp_line_emits st st' line Hislabel Hline) as [Hl Hc].
  destruct (comp_line_instruction st st' line Hislabel Hline)
    as (instr & Hb & Hbits & Hlen & Hjmp).
  exists (instrs ++ [instr]). unfold emitted_program.
  rewrite List.length_app, Nat2Z.inj_add. simpl length.
  split; [|split; [lia|split; [lia|split]]].
  - rewrite Hb, Hcode, fmap_app, joined_app. simpl fmap.
    rewrite joined_cons. change (joined []) with "".
    by rewrite app_nil_r.
  - apply Forall_app. split; [done|]. by repeat constructor.
  - intros i instr' Hi. apply lookup_app_Some in Hi as [Hi|[Hge Hi]].
    + by apply Hjumps.
    + apply list_lookup_singleton_Some in Hi as [Hi <-].
      intros Hop. exists (label st). split; [lia|]. by apply Hjmp.
Qed.

Lemma comp_lines_program st st' lines instrs :
  comp_lines st lines = Ok st' →
  emitted_program st instrs →
  ∃ instrs', emitted_program st' instrs'.
Proof.
  revert st instrs. induction lines as [|line lines IH]; intros st instrs Hcomp Hinv.
  - injection Hcomp as <-. by exists instrs.
  - rewrite comp_lines_cons in Hcomp.
    destruct (comp_line st line) as [st1|] eqn:Hst1; [|done].
    simpl in Hcomp.
    destruct (comp_line_program st st1 line instrs Hst1 Hinv) as [instrs1 Hinv1].
    by apply (IH st1 instrs1).
Qed.

(** The text [comp] returns, as a list of instructions. *)
Lemma compiled_program assembly code table :
  compile assembly = Ok (code, table) →
  ∃ instrs,
    code = program_text instrs ∧
    (instrs ≠ [] → Py.split_nl code = instrs) ∧
    Z.of_nat (length instrs) =
      Z.of_nat (length (filter (λ line, is_label line = false)
                          (Py.split_nl (Py.strip assembly)))) ∧
    Forall (λ i, bits_only i = true ∧ (36 ≤ String.length i)%nat) instrs ∧
    ∀ i instr, instrs !! i = Some instr → jump_back i instr.
Proof.
  unfold compile, comp.
  destruct (comp_lines _ _) as [st|] eqn:Hcomp; [|done].
  simpl. intros [= <- _].
  destruct (comp_lines_program _ _ _ [] Hcomp)
    as (instrs & Hcode & Hcount & _ & Hall & Hjumps).
  { unfold emitted_program. simpl.
    split; [done|]. split; [done|]. split; [lia|]. split; [constructor|].
    intros i instr Hi. by rewrite lookup_nil in Hi. }
  apply comp_lines_count in Hcomp. simpl in Hcomp.
  exists instrs.
  assert (Forall (λ i, bits_only i = true ∧ i ≠ "") instrs) as Hne.
  { eapply Forall_impl; [done|]. intros i [Hb Hl]. split; [done|].
    intros ->. simpl in Hl. lia. }
  assert (instrs ≠ [] → Py.strip (bytecode st) = program_text instrs) as Hstrip.
  { intros Hnil. rewrite Hcode.
    pose proof (program_lines instrs Hnil Hne) as Hlines.
    rewrite joined_lines in * by done.
    rewrite strip_line; [done|..].
    - destruct instrs as [|i instrs]; [done|].
      apply Forall_cons in Hne as [[_ Hi] _]. destruct i; [done|].
      by destruct instrs.
    - destruct instrs as [|i instrs]; [done|].
      apply Forall_cons in Hne as [[Hi Hi'] _].
      rewrite program_text_first by done. by apply take1_bits.
    - destruct (exists_last Hnil) as (front & i & ->).
      apply Forall_app in Hne as [_ Hlast].
      apply Forall_cons in Hlast as [[Hi Hi'] _].
      rewrite program_text_last by done. by apply take1_bits, bits_only_rev. }
  split; [|split; [|split; [lia|done]]].
  - destruct instrs as [|i instrs]; [by rewrite Hcode|]. by apply Hstrip.
  - intros Hnil. rewrite Hcode. by apply program_lines.
Qed.

End Instructions.

(** X21. Program memory is the list of emitted instructions.  The text the
    encoder returns, cut at its line feeds as the CPU does, has one line
    for every line of the assembly that is not a label marker (when there
    is any); each line is made of binary digits and is at least 36
    characters long, so that none of [execute]'s three slices is cut
    short. *)
Theorem program_memory_lines (assembly code : string) (table : gmap string Z)
    (Hcompile : compile assembly = Ok (code, table)) :
  (filter (λ line, is_label line = false) (Py.split_nl (Py.strip assembly)) ≠ [] →
   length (Py.split_nl code) =
     length (filter (λ line, is_label line = false)
               (Py.split_nl (Py.strip assembly))) ∧
   Forall (λ i, bits_only i = true ∧ (36 ≤ String.length i)%nat)
     (Py.split_nl code)) ∧
  (filter (λ line, is_label line = false) (Py.split_nl (Py.strip assembly)) = [] →
   code = "").
Proof.
  destruct (compiled_program assembly code table Hcompile)
    as (instrs & Hcode & Hlines & Hcount & Hall & _).
  split.
  - intros Hsome.
    assert (instrs ≠ []) as Hne.
    { intros ->. simpl in Hcount. by destruct (filter _ _). }
    rewrite (Hlines Hne). split; [lia|done].
  - intros Hnone. rewrite Hnone in Hcount. simpl in Hcount.
    destruct instrs; [done|]. simpl in Hcount. lia.
Qed.

Lemma program_memory_lines_witness :
  length (Py.split_nl ("000010000000000000000000000000010001" +:+ Py.newline +:+
                       "010100000000000000010000000000000000")) =
    length (filter (λ line, is_label line = false)
              (Py.split_nl (Py.strip ("MOV x 17" +:+ Py.newline +:+
                                      "label1:" +:+ Py.newline +:+ "JMP")))) ∧
  Forall (λ i, bits_only i = true ∧ (36 ≤ String.length i)%nat)
    (Py.split_nl ("000010000000000000000000000000010001" +:+ Py.newline +:+
                  "010100000000000000010000000000000000")).
Proof.
  apply (program_memory_lines
           ("MOV x 17" +:+ Py.newline +:+ "label1:" +:+ Py.newline +:+ "JMP")
           _ {["x" := 32768]}).
  - by vm_compute.
  - by vm_compute.
Defined.

(** X22. A taken loop exit lands inside the program.  In the program memory
    made from the encoder's output, a line with the loop-exit opcode at a
    position below 65536 carries a target that is not negative and not
    beyond that position, and [execute] with a positive loop counter sets
    the program counter to it. *)
Theorem jump_lands_in_program (assembly code : string) (table : gmap string Z)
    (i : nat) (instr : string) (c : CPU)
    (Hcompile : compile assembly = Ok (code, table))
    (Hline : Py.split_nl code !! i = Some instr)
    (Hopcode : Py.take 4 instr = "0101")
    (Hposition : Z.of_nat i < 65536)
    (Hir : ir c = VStr instr)
    (Hecx : 0 < ecx c) :
  ∃ target, 0 ≤ target ≤ Z.of_nat i ∧ execute c = Ok (set_pc target c).
Proof.
  destruct (compiled_program assembly code table Hcompile)
    as (instrs & Hcode & Hlines & _ & _ & Hjumps).
  destruct instrs as [|i0 instrs].
  { subst code. simpl in Hline. destruct i as [|i]; [|by destruct i].
    injection Hline as <-. done. }
  rewrite Hlines in Hline by done.
  destruct (Hjumps i instr Hline Hopcode) as (target & Htarget & ->).
  exists target. split; [done|].
  rewrite (execute_default c _ Hir); [|rewrite Hopcode; by_evaluation].
  destruct (Z.ltb_spec 0 (ecx c)); [|lia].
  destruct (instruction_fields "0101" (dec_to_bin target 16) "0000000000000000")
    as (_ & -> & _); [done|apply dec_to_bin_width; lia|].
  unfold jump. by rewrite dec_to_bin_value by lia.
Qed.

Lemma jump_lands_in_program_witness :
  ∃ target, 0 ≤ target ≤ Z.of_nat 1 ∧
    execute (mkCPU [] [] 0 2 1 (VStr "010100000000000000010000000000000000")) =
      Ok (set_pc target
            (mkCPU [] [] 0 2 1 (VStr "010100000000000000010000000000000000"))).
Proof.
  apply (jump_lands_in_program
           ("MOV x 17" +:+ Py.newline +:+ "label1:" +:+ Py.newline +:+ "JMP")
           ("000010000000000000000000000000010001" +:+ Py.newline +:+
            "010100000000000000010000000000000000")
           {["x" := 32768]} 1 "010100000000000000010000000000000000").
  - by vm_compute.
  - reflexivity.
  - reflexivity.
  - simpl. lia.
  - reflexivity.
  - simpl. lia.
Defined.

(** The counting loop is the encoder's output for its four lines. *)
Example counting_loop_encoded :
  compile ("label1:" +:+ Py.newline +:+ "ADD AC 1" +:+ Py.newline +:+
           "SUB ECX 1" +:+ Py.newline +:+ "JMP")
  = Ok (program_text counting_loop, ∅).
Proof. by vm_compute. Qed.
